(** * X3F to TIFF converter: a shallow embedding and its verified properties

  The development follows the two source files of the repository.

  - [photoshop_compatible_converter.py]: the class
    [PhotoshopCompatibleConverter] with [_check_rawpy] and
    [convert_x3f_for_photoshop] is module [Converter]. It stands on
    models of what the converter calls: the exceptions and the
    statements of Python ([Py]), the methods of [str] ([Str]),
    [pathlib.Path] and the file system ([PathLib]), the arrays of
    [numpy] with IEEE 754 arithmetic ([Numpy]), and [strftime]
    ([DateTime]).
  - [x3f_converter_rawpy.py]: the class [X3FConverterGUI] with its list
    of selected files and its batch loop [run_conversion] is module
    [GUI].

  Python statements that read or change the outside world (the file
  system, the standard output, the clock, the window) are written in a
  state and exception monad. The raw decoder, the TIFF writer and the
  TIFF reader are oracles of a record [Externals], so that every theorem
  holds whatever these libraries do.

  The modules [Notions] and [Demo] hold the notions that the statements
  use and a small world to run the programs in; the properties follow,
  each claim under its number. *)

From Stdlib Require Import ZArith List String Ascii Bool Lia Sorted.
From Stdlib Require Import Floats.SpecFloat.
From stdpp Require Import base option list strings gmap.

Open Scope Z_scope.
Open Scope string_scope.
Open Scope list_scope.

(** ** Python exceptions, results, and the state/exception monad *)

Module Py.

(** The exception classes that the modelled calls can raise. All of them
    derive from [Exception]; the first five derive from [OSError]. *)
Inductive exn : Type :=
| FileNotFoundError
| FileExistsError
| NotADirectoryError
| IsADirectoryError
| PermissionError
| OSError (errno : Z)
| ImportError
| IndexError
| ValueError
| OverflowError
| LibRawError (code : Z)
| TiffFileError.

Definition is_OSError (e : exn) : bool :=
  match e with
  | FileNotFoundError | FileExistsError | NotADirectoryError
  | IsADirectoryError | PermissionError | OSError _ => true
  | _ => false
  end.

Definition is_FileNotFoundError (e : exn) : bool :=
  match e with FileNotFoundError => true | _ => false end.

#[global] Instance exn_eq_dec : EqDecision exn.
Proof. solve_decision. Defined.

(** The outcome of evaluating an expression or running a statement. *)
Inductive result (A : Type) : Type :=
| Ok (a : A)
| Raise (e : exn).
Arguments Ok {A} a.
Arguments Raise {A} e.

#[global] Instance result_eq_dec {A} `{EqDecision A} : EqDecision (result A).
Proof. solve_decision. Defined.

(** [M S A]: a computation over a mutable world [S]. An exception leaves
    the world as it was when the exception was raised: nothing is rolled
    back by [try]/[except]. *)
Definition M (S A : Type) : Type := S -> S * result A.

Definition ret {S A} (a : A) : M S A := fun s => (s, Ok a).
Definition raise {S A} (e : exn) : M S A := fun s => (s, Raise e).
Definition bind {S A B} (m : M S A) (k : A -> M S B) : M S B :=
  fun s => match m s with
           | (s', Ok a) => k a s'
           | (s', Raise e) => (s', Raise e)
           end.
(** [try: m except Exception as e: h e] *)
Definition try_except {S A} (m : M S A) (h : exn -> M S A) : M S A :=
  fun s => match m s with
           | (s', Ok a) => (s', Ok a)
           | (s', Raise e) => h e s'
           end.
Definition get {S} : M S S := fun s => (s, Ok s).
Definition modify {S} (f : S -> S) : M S unit := fun s => (f s, Ok tt).
(** Lifts an expression that may raise but has no effect. *)
Definition lift {S A} (r : result A) : M S A := fun s => (s, r).

#[global] Instance M_ret {S} : MRet (M S) := @ret S.
#[global] Instance M_bind {S} : MBind (M S) := fun A B k m => bind m k.

#[global] Instance result_ret : MRet result := @Ok.
#[global] Instance result_bind : MBind result :=
  fun A B k r => match r with Ok a => k a | Raise e => Raise e end.

End Py.
Export Py.

(** ** Python [str] methods used by the two files *)

Module Str.

Definition ascii_lower (c : ascii) : ascii :=
  let n := nat_of_ascii c in
  if (Nat.leb 65 n && Nat.leb n 90)%bool then ascii_of_nat (n + 32) else c.

Definition ascii_upper (c : ascii) : ascii :=
  let n := nat_of_ascii c in
  if (Nat.leb 97 n && Nat.leb n 122)%bool then ascii_of_nat (n - 32) else c.

(** [s.lower()] and [s.upper()], on the ASCII letters. *)
Fixpoint lower (s : string) : string :=
  match s with
  | EmptyString => EmptyString
  | String c r => String (ascii_lower c) (lower r)
  end.

Fixpoint upper (s : string) : string :=
  match s with
  | EmptyString => EmptyString
  | String c r => String (ascii_upper c) (upper r)
  end.

(** [s.endswith(suffix)] *)
Definition endswith (s suffix : string) : bool :=
  let n := String.length s in
  let k := String.length suffix in
  (Nat.leb k n && String.eqb (String.substring (n - k) k s) suffix)%bool.

(** [s.rfind(c)] for a one-character needle: the last index of [c] in
    [s], or [None] where Python returns [-1]. *)
Fixpoint rfind_from (c : ascii) (s : string) (i : nat) (acc : option nat)
  : option nat :=
  match s with
  | EmptyString => acc
  | String d r =>
      rfind_from c r (S i) (if Ascii.eqb d c then Some i else acc)
  end.
Definition rfind (c : ascii) (s : string) : option nat :=
  rfind_from c s 0 None.

(** [s.split(sep)] for a one-character separator. *)
Fixpoint split_acc (sep : ascii) (s : string) (cur : string) : list string :=
  match s with
  | EmptyString => [cur]
  | String d r =>
      if Ascii.eqb d sep then cur :: split_acc sep r EmptyString
      else split_acc sep r (cur ++ String d EmptyString)
  end.
Definition split (sep : ascii) (s : string) : list string :=
  split_acc sep s EmptyString.

End Str.

(** ** [pathlib.Path] and the file system *)

Module PathLib.

(** A path is the list of its components below the root, root first:
    [/out/tiff/a.x3f] is [["out"; "tiff"; "a.x3f"]]. Relative paths are
    read from the working directory, which is taken to be the root. *)
Abbreviation Path := (list string).

(** [Path(s)]: splits at the separator and drops empty and ["."]
    components, as [pathlib] does. *)
Definition of_str (s : string) : Path :=
  List.filter (fun part => negb (String.eqb part "" || String.eqb part "."))
              (Str.split "/" s).

(** [p.parent]; the root is its own parent. *)
Definition parent (p : Path) : Path := removelast p.

(** [p.name]; empty for the root. *)
Definition name (p : Path) : string := List.last p "".

(** [p.stem]: the name without its last suffix,
    [i = name.rfind('.'); name[:i] if 0 < i < len(name) - 1 else name]. *)
Definition stem (p : Path) : string :=
  let nm := name p in
  match Str.rfind "." nm with
  | Some i =>
      if (Nat.ltb 0 i && Nat.ltb i (String.length nm - 1))%bool
      then String.substring 0 i nm
      else nm
  | None => nm
  end.

(** [p / s] for a single component [s]. *)
Definition truediv (p : Path) (s : string) : Path := p ++ [s].

(** What a path names: a directory, or a regular file with its content. *)
Inductive node (C : Type) : Type :=
| Dir
| File (c : C).
Arguments Dir {C}.
Arguments File {C} c.

Section FileSystem.
Context {C : Type}.

(** [fault fs p] is the error, if any, with which the operating system
    refuses to create the directory [p] although nothing is in the way
    (a refused permission, a read-only or full disk). *)
Context (fault : gmap Path (node C) -> Path -> option exn).

(** The file system maps the paths that exist to what they name; the root
    always exists and is a directory. *)
Definition stat (fs : gmap Path (node C)) (p : Path) : option (node C) :=
  match p with
  | [] => Some Dir
  | _ => fs !! p
  end.

(** [p.exists()] *)
Definition exists_ (fs : gmap Path (node C)) (p : Path) : bool :=
  match stat fs p with Some _ => true | None => false end.

(** [p.is_dir()] *)
Definition is_dir (fs : gmap Path (node C)) (p : Path) : bool :=
  match stat fs p with Some Dir => true | _ => false end.

(** [os.mkdir(p)] *)
Definition os_mkdir (p : Path) : M (gmap Path (node C)) unit :=
  fun fs =>
    if exists_ fs p then (fs, Raise FileExistsError)
    else match stat fs (parent p) with
         | None => (fs, Raise FileNotFoundError)
         | Some (File _) => (fs, Raise NotADirectoryError)
         | Some Dir =>
             match fault fs p with
             | Some e => (fs, Raise e)
             | None => (<[p := Dir]> fs, Ok tt)
             end
         end.

(** [Path.mkdir(self, parents, exist_ok)]:
<<
    try:
        os.mkdir(self, mode)
    except FileNotFoundError:
        if not parents or self.parent == self:
            raise
        self.parent.mkdir(parents=True, exist_ok=True)
        self.mkdir(mode, parents=False, exist_ok=exist_ok)
    except OSError:
        if not exist_ok or not self.is_dir():
            raise
>>
    The recursion goes to the parent, so [depth] nested calls suffice for
    a path of [depth] components. *)
Fixpoint mkdir_rec (depth : nat) (p : Path) (parents exist_ok : bool)
  : M (gmap Path (node C)) unit :=
  try_except (os_mkdir p) (fun e =>
    if is_FileNotFoundError e then
      if (negb parents || bool_decide (parent p = p))%bool then raise e
      else match depth with
           | O => raise e
           | S d =>
               mkdir_rec d (parent p) true true ;;
               try_except (os_mkdir p) (fun e' =>
                 if is_FileNotFoundError e' then raise e'
                 else if is_OSError e' then
                   fs ← get;
                   if (negb exist_ok || negb (is_dir fs p))%bool
                   then raise e' else mret tt
                 else raise e')
           end
    else if is_OSError e then
      fs ← get;
      if (negb exist_ok || negb (is_dir fs p))%bool then raise e else mret tt
    else raise e).

Definition mkdir (p : Path) (parents exist_ok : bool)
  : M (gmap Path (node C)) unit :=
  mkdir_rec (List.length p) p parents exist_ok.

End FileSystem.

End PathLib.

(** ** The [numpy] arrays and operations of the normalisation step *)

Module Numpy.

Inductive int_kind : Type := U8 | U16.
Inductive float_kind : Type := F32 | F64.

(** [ndarray.dtype], for the element types that matter to the converter. *)
Inductive dtype : Type :=
| Int (k : int_kind)
| Float (k : float_kind).

Abbreviation uint8 := (Int U8).
Abbreviation uint16 := (Int U16).
Abbreviation float32 := (Float F32).
Abbreviation float64 := (Float F64).

#[global] Instance int_kind_eq_dec : EqDecision int_kind.
Proof. solve_decision. Defined.
#[global] Instance float_kind_eq_dec : EqDecision float_kind.
Proof. solve_decision. Defined.
#[global] Instance dtype_eq_dec : EqDecision dtype.
Proof. solve_decision. Defined.

(** Number of values of an unsigned integer type. *)
Definition modulus (k : int_kind) : Z :=
  match k with U8 => 256 | U16 => 65536 end.

(** Precision and exponent bound of the IEEE 754 binary formats. *)
Definition prec (k : float_kind) : Z :=
  match k with F32 => 24 | F64 => 53 end.
Definition emax (k : float_kind) : Z :=
  match k with F32 => 128 | F64 => 1024 end.

(** An array: element type, shape, and the elements in row-major order.
    Integer elements are kept as [Z] (within the range of the element
    type, see [wf]); floating-point elements as IEEE values. *)
Inductive ndarray : Type :=
| IntArray (k : int_kind) (shape : list nat) (data : list Z)
| FloatArray (k : float_kind) (shape : list nat) (data : list spec_float).

Definition dtype_of (a : ndarray) : dtype :=
  match a with
  | IntArray k _ _ => Int k
  | FloatArray k _ _ => Float k
  end.

Definition shape_of (a : ndarray) : list nat :=
  match a with
  | IntArray _ s _ | FloatArray _ s _ => s
  end.

Definition size (a : ndarray) : nat :=
  match a with
  | IntArray _ _ d => List.length d
  | FloatArray _ _ d => List.length d
  end.

(** The element values of an integer array lie in the range of its type. *)
Definition wf (a : ndarray) : Prop :=
  match a with
  | IntArray k _ d => Forall (fun v => 0 <= v < modulus k) d
  | FloatArray _ _ _ => True
  end.

(** A [numpy] scalar, as returned by [ndarray.max()]. *)
Inductive scalar : Type :=
| SInt (v : Z)
| SFloat (x : spec_float).

#[global] Instance spec_float_eq_dec : EqDecision spec_float.
Proof. solve_decision. Defined.
#[global] Instance scalar_eq_dec : EqDecision scalar.
Proof. solve_decision. Defined.

Definition is_nan (x : spec_float) : bool :=
  match x with S754_nan => true | _ => false end.

(** The integer [z] as a float of kind [k], rounded to nearest even. *)
Definition float_of_Z (k : float_kind) (z : Z) : spec_float :=
  binary_normalize (prec k) (emax k) z 0 false.

(** A float re-rounded to the format of kind [k]. *)
Definition float_cast (k : float_kind) (x : spec_float) : spec_float :=
  match x with
  | S754_finite s m e =>
      binary_normalize (prec k) (emax k) (cond_Zopp s (Zpos m)) e s
  | _ => x
  end.

(** The integer part of a float (rounding toward zero); [0] for an
    infinity or a NaN. *)
Definition trunc (x : spec_float) : Z :=
  match x with
  | S754_finite s m e =>
      cond_Zopp s (match e with
                   | Z0 => Zpos m
                   | Zpos _ => Z.shiftl (Zpos m) e
                   | Zneg p => Z.shiftr (Zpos m) (Zpos p)
                   end)
  | _ => 0
  end.

(** Maximum of two floats as [np.maximum] computes it: a NaN wins. *)
Definition fmax (x y : spec_float) : spec_float :=
  if is_nan x then x
  else if is_nan y then y
  else if SFltb x y then y else x.

(** [a.max()]: raises [ValueError] on an array without elements. *)
Definition max (a : ndarray) : result scalar :=
  match a with
  | IntArray _ _ [] | FloatArray _ _ [] => Raise ValueError
  | IntArray _ _ (v :: d) => Ok (SInt (fold_left Z.max d v))
  | FloatArray _ _ (x :: d) => Ok (SFloat (fold_left fmax d x))
  end.

(** [a.min()], likewise. *)
Definition fmin (x y : spec_float) : spec_float :=
  if is_nan x then x
  else if is_nan y then y
  else if SFltb y x then y else x.

Definition min (a : ndarray) : result scalar :=
  match a with
  | IntArray _ _ [] | FloatArray _ _ [] => Raise ValueError
  | IntArray _ _ (v :: d) => Ok (SInt (fold_left Z.min d v))
  | FloatArray _ _ (x :: d) => Ok (SFloat (fold_left fmin d x))
  end.

(** [s <= n] for a scalar [s] and the Python number [n] (the source
    compares with [1.0] and with [255]); false when [s] is a NaN. A float
    is compared in double precision, to which single precision converts
    without loss. *)
Definition scalar_le (s : scalar) (n : Z) : bool :=
  match s with
  | SInt v => Z.leb v n
  | SFloat x => SFleb (float_cast F64 x) (float_of_Z F64 n)
  end.

(** How [numpy] types the product of an array and a Python integer.
    Up to NumPy 1.x the integer's value takes part in the promotion
    ([Legacy]); from NumPy 2 on the array's type decides alone and an
    integer outside of it is refused ([NEP50]). *)
Inductive promotion : Type := Legacy | NEP50.

(** [a * 65535].
    - A floating-point array keeps its type; the factor is rounded to it.
    - An unsigned 16-bit array keeps its type; products wrap around.
    - An unsigned 8-bit array cannot hold 65535: under [Legacy] the
      product is computed in 16 bits, under [NEP50] the operation raises
      [OverflowError]. *)
Definition mul_65535 (p : promotion) (a : ndarray) : result ndarray :=
  match a with
  | FloatArray k sh d =>
      Ok (FloatArray k sh
            (map (fun x => SFmul (prec k) (emax k) x (float_of_Z k 65535)) d))
  | IntArray U16 sh d =>
      Ok (IntArray U16 sh (map (fun v => (v * 65535) mod 65536) d))
  | IntArray U8 sh d =>
      match p with
      | Legacy => Ok (IntArray U16 sh (map (fun v => (v * 65535) mod 65536) d))
      | NEP50 => Raise OverflowError
      end
  end.

(** [a / 255] (true division): an integer array is divided in double
    precision, a floating-point array in its own precision. *)
Definition div_255 (a : ndarray) : ndarray :=
  match a with
  | FloatArray k sh d =>
      FloatArray k sh
        (map (fun x => SFdiv (prec k) (emax k) x (float_of_Z k 255)) d)
  | IntArray _ sh d =>
      FloatArray F64 sh
        (map (fun v => SFdiv (prec F64) (emax F64)
                         (float_of_Z F64 v) (float_of_Z F64 255)) d)
  end.

(** [a.astype(np.float32)] *)
Definition astype_float32 (a : ndarray) : ndarray :=
  match a with
  | IntArray _ sh d => FloatArray F32 sh (map (float_of_Z F32) d)
  | FloatArray _ sh d => FloatArray F32 sh (map (float_cast F32) d)
  end.

(** [a.astype(np.uint16)]: integers are reduced modulo 2^16; floats lose
    their fractional part and are reduced likewise. *)
Definition astype_uint16 (a : ndarray) : ndarray :=
  match a with
  | IntArray _ sh d => IntArray U16 sh (map (fun v => v mod 65536) d)
  | FloatArray _ sh d => IntArray U16 sh (map (fun x => trunc x mod 65536) d)
  end.

End Numpy.

(** ** [datetime.now().strftime] *)

Module DateTime.

(** A local date and time, as [datetime.now()] returns it: the year is
    between 1 and 9999, the other fields are in their calendar ranges. *)
Record datetime : Type := {
  year : Z;
  month : Z;
  day : Z;
  hour : Z;
  minute : Z;
  second : Z
}.

(** The decimal digit of the units of [n]. *)
Definition digit (n : Z) : ascii := ascii_of_nat (48 + Z.to_nat (n mod 10)).

(** [n] in decimal on two and on four digits, zero-padded on the left
    ([%m], [%d], [%H], [%M], [%S], and [%Y]). *)
Definition pad2 (n : Z) : string :=
  String (digit (n / 10)) (String (digit n) EmptyString).
Definition pad4 (n : Z) : string :=
  String (digit (n / 1000)) (String (digit (n / 100)) (pad2 n)).

(** [t.strftime("%Y:%m:%d %H:%M:%S")] *)
Definition strftime (t : datetime) : string :=
  pad4 (year t) ++ ":" ++ pad2 (month t) ++ ":" ++ pad2 (day t) ++ " " ++
  pad2 (hour t) ++ ":" ++ pad2 (minute t) ++ ":" ++ pad2 (second t).

End DateTime.

(** ** [photoshop_compatible_converter.py] *)

Module Converter.
Import PathLib Numpy DateTime.

(** The keyword arguments of [raw.postprocess], fixed by the source;
    the two gamma numbers and the threshold are kept as written. *)
Record postprocess_params : Type := {
  demosaic_algorithm : string;
  use_camera_wb : bool;
  no_auto_bright : bool;
  auto_bright_thr : string;
  output_bps : Z;
  gamma : string * string;
  output_color : string;
  highlight_mode : string
}.

Definition foveon_params : postprocess_params := {|
  demosaic_algorithm := "AHD";
  use_camera_wb := true;
  no_auto_bright := false;
  auto_bright_thr := "0.01";
  output_bps := 16;
  gamma := ("2.222", "4.5");
  output_color := "sRGB";
  highlight_mode := "Clip"
|}.

(** The values of the tag dictionary: strings, integers and tuples. *)
Inductive tag_value : Type :=
| VStr (s : string)
| VInt (n : Z)
| VTuple (l : list Z).

#[global] Instance tag_value_eq_dec : EqDecision tag_value.
Proof. solve_decision. Defined.

(** The dictionary [tiff_tags] of the source, in insertion order;
    [now] is the value of [datetime.now()]. *)
Definition tiff_tags (now : datetime) : list (string * tag_value) :=
  [ ("Software", VStr "X3F Converter for Photoshop");
    ("Make", VStr "SIGMA");
    ("Model", VStr "DP2 Merrill");
    ("DateTime", VStr (strftime now));
    ("Orientation", VInt 1);
    ("XResolution", VTuple [300; 1]);
    ("YResolution", VTuple [300; 1]);
    ("ResolutionUnit", VInt 2);
    ("ColorSpace", VInt 1);
    ("Compression", VInt 1);
    ("PhotometricInterpretation", VInt 2);
    ("SamplesPerPixel", VInt 3);
    ("BitsPerSample", VTuple [16; 16; 16]);
    ("PlanarConfiguration", VInt 1) ].

(** [d[key]] on a dictionary kept as an association list. *)
Fixpoint lookup_tag (key : string) (d : list (string * tag_value))
  : option tag_value :=
  match d with
  | [] => None
  | (k, v) :: r => if String.eqb k key then Some v else lookup_tag key r
  end.

(** The arguments of one [tifffile.imwrite] call: what the written file
    holds. *)
Record tiff_file : Type := {
  pixels : ndarray;
  photometric : string;
  planarconfig : string;
  compression : option string;
  metadata : list (string * tag_value);
  resolution : Z * Z;
  software : string
}.

(** The content of a regular file: a TIFF written by the converter, or
    anything else (a raw file, say), identified by a number. *)
Inductive content : Type :=
| Blob (id : nat)
| Tiff (t : tiff_file).

(** The lines the converter prints. *)
Inductive line : Type :=
| RawpyNotFound                       (* Error: rawpy not found *)
| Converting (name : string)          (* Converting {name} for Photoshop... *)
| ProcessingFoveon                    (* Processing with Foveon optimization... *)
| Processed (shape : list nat) (d : dtype)  (* Processed: {shape}, {dtype} *)
| Range (lo hi : scalar)              (* Range: {min} - {max} *)
| Saving (format : string)            (* Saving as {FORMAT}... *)
| Created (bytes : N)                 (* Created: {size} bytes *)
| FileAt (p : Path)                   (* File: {output_path} *)
| Verification (shape : list nat) (d : dtype) (* Verification: {shape}, {dtype} *)
| VerificationFailed (e : exn)        (* Verification failed: {e} *)
| FileNotCreated                      (* File not created *)
| ConversionFailed (e : exn).         (* Conversion failed: {e} *)

#[global] Instance line_eq_dec : EqDecision line.
Proof. solve_decision. Defined.

(** The world the converter runs in. *)
Record World : Type := {
  fs : gmap Path (node content);
  stdout : list line;
  ticks : nat
}.

(** The libraries behind the converter, as oracles.
    - [imread fs p] is [rawpy.imread(str(p))]: it raises, or yields a raw
      image, given by what its [postprocess] method returns.
    - [mkdir_fault fs p] is the error, if any, with which the operating
      system refuses to create the directory [p].
    - [imwrite_fault fs p] is the I/O error, if any, that stops
      [tifffile.imwrite] from writing [p] (a full disk, a refused
      permission).
    - [readback fs p] is [tifffile.TiffFile(str(p)).pages[0].asarray()],
      of which the source uses the shape and the element type.
    - [st_size fs p] is [p.stat().st_size].
    - [clock n] is the result of the [n]-th call of [datetime.now()].
    - [promo] is the promotion rule of the installed [numpy]. *)
Record Externals : Type := {
  imread : gmap Path (node content) -> Path ->
           result (postprocess_params -> result ndarray);
  mkdir_fault : gmap Path (node content) -> Path -> option exn;
  imwrite_fault : gmap Path (node content) -> Path -> option exn;
  readback : gmap Path (node content) -> Path -> result (list nat * dtype);
  st_size : gmap Path (node content) -> Path -> N;
  clock : nat -> datetime;
  promo : promotion
}.

(** [print(l)] *)
Definition print (l : line) : M World unit :=
  modify (fun w => {| fs := fs w; stdout := stdout w ++ [l]; ticks := ticks w |}).

(** Runs a file-system operation in the world. *)
Definition on_fs {A} (m : M (gmap Path (node content)) A) : M World A :=
  fun w => match m (fs w) with
           | (fs', r) => ({| fs := fs'; stdout := stdout w; ticks := ticks w |}, r)
           end.

(** [datetime.now()] *)
Definition now (ext : Externals) : M World datetime :=
  fun w => ({| fs := fs w; stdout := stdout w; ticks := S (ticks w) |},
            Ok (clock ext (ticks w))).

(** [tifffile.imwrite(str(p), ...)]: creates or replaces the regular file
    [p] in an existing directory. *)
Definition imwrite (ext : Externals) (p : Path) (t : tiff_file)
  : M (gmap Path (node content)) unit :=
  fun fs =>
    match imwrite_fault ext fs p with
    | Some e => (fs, Raise e)
    | None =>
        if is_dir fs p then (fs, Raise IsADirectoryError)
        else match stat fs (parent p) with
             | None => (fs, Raise FileNotFoundError)
             | Some (File _) => (fs, Raise NotADirectoryError)
             | Some Dir => (<[p := File (Tiff t)]> fs, Ok tt)
             end
    end.

(** Lines 76 to 80, the preparation of the data:
<<
    if rgb.dtype != np.uint16:
        if rgb.max() <= 1.0:
            rgb = (rgb * 65535).astype(np.uint16)
        elif rgb.max() <= 255:
            rgb = (rgb.astype(np.float32) / 255 * 65535).astype(np.uint16)
>> *)
Definition normalize (p : promotion) (rgb : ndarray) : result ndarray :=
  if bool_decide (dtype_of rgb <> uint16) then
    m ← max rgb;
    if scalar_le m 1 then
      a ← mul_65535 p rgb; mret (astype_uint16 a)
    else
      m' ← max rgb;
      if scalar_le m' 255 then
        a ← mul_65535 p (div_255 (astype_float32 rgb)); mret (astype_uint16 a)
      else mret rgb
  else mret rgb.

(** The interpreter's view of the installed packages: the modules
    already loaded ([sys.modules]) and those that can be found on disk. *)
Record Interp : Type := {
  sys_modules : gset string;
  installed : gset string
}.

(** [import m]: a loaded module is found in [sys.modules]; another one is
    loaded from disk, or the statement raises [ImportError]. *)
Definition import_ (m : string) : M Interp unit :=
  fun st =>
    if bool_decide (m ∈ sys_modules st) then (st, Ok tt)
    else if bool_decide (m ∈ installed st) then
      ({| sys_modules := {[m]} ∪ sys_modules st; installed := installed st |},
       Ok tt)
    else (st, Raise ImportError).

(** The import statements at the top of the module, lines 6 to 12; the
    class is defined only when all of them succeed. *)
Definition load_module : M Interp unit :=
  import_ "os" ;; import_ "sys" ;; import_ "rawpy" ;; import_ "numpy" ;;
  import_ "pathlib" ;; import_ "tifffile" ;; import_ "datetime".

Record PhotoshopCompatibleConverter : Type := {
  rawpy_available : bool
}.

(** [PhotoshopCompatibleConverter._check_rawpy] *)
Definition _check_rawpy : M Interp bool :=
  try_except
    (import_ "rawpy" ;; mret true)
    (fun e => if bool_decide (e = ImportError) then mret false else raise e).

(** [PhotoshopCompatibleConverter.__init__] *)
Definition __init__ : M Interp PhotoshopCompatibleConverter :=
  available ← _check_rawpy;
  mret {| rawpy_available := available |}.

(** The output path, lines 46 to 51. *)
Definition output_path_for (output_dir x3f_path : Path) (format_type : string)
  : Path :=
  if String.eqb format_type "tiff" then
    truediv output_dir (stem x3f_path ++ ".tiff")
  else if String.eqb format_type "psd" then
    truediv output_dir (stem x3f_path ++ ".psd")
  else
    truediv output_dir (stem x3f_path ++ ".tiff").

(** Lines 54 to 73: the raw file is read and developed with the fixed
    parameters; the shape, the element type and the range of the result
    are printed. *)
Definition decode (ext : Externals) (x3f_path : Path) : M World ndarray :=
  print (Converting (name x3f_path)) ;;
  w ← get;
  raw ← lift (imread ext (fs w) x3f_path);
  print ProcessingFoveon ;;
  rgb ← lift (raw foveon_params);
  print (Processed (shape_of rgb) (dtype_of rgb)) ;;
  lo ← lift (min rgb);
  hi ← lift (max rgb);
  print (Range lo hi) ;;
  mret rgb.

(** The file that [tifffile.imwrite] is asked to write, lines 104 to 113. *)
Definition tiff_of (rgb : ndarray) (tags : list (string * tag_value))
  : tiff_file :=
  {| pixels := rgb;
     photometric := "rgb";
     planarconfig := "contig";
     compression := None;
     metadata := tags;
     resolution := (300, 300);
     software := "X3F Converter for Photoshop" |}.

(** Lines 100 to 113: only the format ['tiff'] writes. *)
Definition save (ext : Externals) (output_path : Path) (format_type : string)
  (rgb : ndarray) (tags : list (string * tag_value)) : M World unit :=
  print (Saving (Str.upper format_type)) ;;
  if String.eqb format_type "tiff" then
    on_fs (imwrite ext output_path (tiff_of rgb tags))
  else mret tt.

(** Lines 116 to 132: the verdict is whether the output path exists; the
    file is then read back, and a failure to do so is printed. *)
Definition verify (ext : Externals) (output_path : Path) : M World bool :=
  w ← get;
  if exists_ (fs w) output_path then
    print (Created (st_size ext (fs w) output_path)) ;;
    print (FileAt output_path) ;;
    try_except
      (test_data ← lift (readback ext (fs w) output_path);
       print (Verification (fst test_data) (snd test_data)))
      (fun e => print (VerificationFailed e)) ;;
    mret true
  else
    print FileNotCreated ;;
    mret false.

(** The body of the [try] block, lines 54 to 132. *)
Definition convert_body (ext : Externals) (x3f_path output_path : Path)
  (format_type : string) : M World bool :=
  rgb ← decode ext x3f_path;
  rgb ← lift (normalize (promo ext) rgb);
  t ← now ext;
  save ext output_path format_type rgb (tiff_tags t) ;;
  verify ext output_path.

(** Lines 38 to 43: the output directory is the parent of the input, or
    the directory given, which is created with its missing parents. *)
Definition resolve_output_dir (ext : Externals) (x3f_path : Path)
  (output_dir : option string) : M World Path :=
  match output_dir with
  | None => mret (parent x3f_path)
  | Some d =>
      on_fs (mkdir (mkdir_fault ext) (of_str d) true true) ;;
      mret (of_str d)
  end.

(** [PhotoshopCompatibleConverter.convert_x3f_for_photoshop] *)
Definition convert_x3f_for_photoshop (ext : Externals)
  (self : PhotoshopCompatibleConverter)
  (x3f_path : string) (output_dir : option string) (format_type : string)
  : M World bool :=
  if negb (rawpy_available self) then
    print RawpyNotFound ;;
    mret false
  else
    let x3f_path := of_str x3f_path in
    output_dir ← resolve_output_dir ext x3f_path output_dir;
    let output_path := output_path_for output_dir x3f_path format_type in
    try_except
      (convert_body ext x3f_path output_path format_type)
      (fun e => print (ConversionFailed e) ;; mret false).

(** *** The command line of [photoshop_compatible_converter.py] *)

(** The lines on the standard output of a script: those that the
    converter prints, and those of the script itself. *)
Inductive script_line : Type :=
| Said (l : line)                  (* a line of the converter *)
| Usage                            (* Usage: python photoshop_compatible_converter.py ... *)
| FormatUsage                      (* Format: tiff (default) *)
| X3FNotFound (x3f_file : string)  (* Error: X3F file not found: {x3f_file} *)
| Completed                        (* Conversion completed! *)
| ShouldOpen                       (* This file should open in Photoshop without issues. *)
| Failed.                          (* Conversion failed! *)

(** A running script: the interpreter, the file system, the number of
    clock readings so far, and the standard output. *)
Record Process : Type := {
  interp : Interp;
  disk : gmap Path (node content);
  readings : nat;
  console : list script_line
}.

(** How a script ends: [sys.exit(code)], or the end of its text. *)
Inductive termination : Type :=
| SystemExit (code : Z)
| Returns.

(** [print(l)] in a script *)
Definition say (l : script_line) : M Process unit :=
  modify (fun p => {| interp := interp p; disk := disk p;
                      readings := readings p;
                      console := console p ++ [l] |}).

(** Runs a statement that concerns the interpreter only. *)
Definition on_interp {A} (m : M Interp A) : M Process A :=
  fun p => match m (interp p) with
           | (st, r) => ({| interp := st; disk := disk p;
                            readings := readings p;
                            console := console p |}, r)
           end.

(** Runs a method of the converter in the process: it works on the file
    system and the clock of the process, and what it prints goes to the
    standard output of the process. *)
Definition call {A} (m : M World A) : M Process A :=
  fun p => match m {| fs := disk p; stdout := []; ticks := readings p |} with
           | (w, r) => ({| interp := interp p; disk := fs w;
                           readings := ticks w;
                           console := console p ++ map Said (stdout w) |}, r)
           end.

(** [os.path.isdir(s)]: false for the empty string, which names no
    file. *)
Definition os_path_isdir (fs : gmap Path (node content)) (s : string) : bool :=
  (negb (String.eqb s "") && is_dir fs (of_str s))%bool.

(** [main()], lines 138 to 159, for the value [argv] of [sys.argv]:
<<
    if len(sys.argv) < 2:
        print("Usage: ..."); print("Format: tiff (default)"); sys.exit(1)
    x3f_file = sys.argv[1]
    output_dir = sys.argv[2] if len(sys.argv) > 2
                                and os.path.isdir(sys.argv[2]) else None
    format_type = sys.argv[3] if len(sys.argv) > 3 else 'tiff'
    if not Path(x3f_file).exists():
        print(f"Error: X3F file not found: {x3f_file}"); sys.exit(1)
    converter = PhotoshopCompatibleConverter()
    success = converter.convert_x3f_for_photoshop(x3f_file, output_dir,
                                                  format_type)
>>
    followed by the two lines of a success or the line of a failure. *)
Definition main (ext : Externals) (argv : list string)
  : M Process termination :=
  if Nat.ltb (List.length argv) 2 then
    say Usage ;;
    say FormatUsage ;;
    mret (SystemExit 1)
  else
    let x3f_file := nth 1 argv "" in
    p ← get;
    let output_dir :=
      if (Nat.ltb 2 (List.length argv)
          && os_path_isdir (disk p) (nth 2 argv ""))%bool
      then Some (nth 2 argv "") else None in
    let format_type :=
      if Nat.ltb 3 (List.length argv) then nth 3 argv "" else "tiff" in
    if negb (exists_ (disk p) (of_str x3f_file)) then
      say (X3FNotFound x3f_file) ;;
      mret (SystemExit 1)
    else
      converter ← on_interp __init__;
      success ← call (convert_x3f_for_photoshop ext converter x3f_file
                        output_dir format_type);
      if (success : bool) then
        say Completed ;;
        say ShouldOpen ;;
        mret Returns
      else
        say Failed ;;
        mret Returns.

End Converter.

(** ** [x3f_converter_rawpy.py] *)

Module GUI.
Import PathLib Converter.

(** The text of the status bar. *)
Inductive status : Type :=
| Ready                                     (* Ready *)
| Added (n : nat)                           (* Added {n} X3F files *)
| Cleared                                   (* Cleared all files *)
| Removed (n : nat)                         (* Removed {n} files *)
| OutputDirectory (name : string)           (* Output directory: {name} *)
| OutputDirectoryReset                      (* Output directory reset *)
| ConvertingFiles                           (* Converting files... *)
| Complete (successful total : nat)         (* Conversion complete: {s}/{t} files *)
| CompleteWithErrors (successful total : nat)
                                   (* Conversion complete with errors: {s}/{t} files *)
| FailedWithError.                          (* Conversion failed with error *)

(** The message boxes. *)
Inductive dialog : Type :=
| DependenciesCheck                         (* rawpy is not installed or not found. *)
| InvalidFiles                              (* Please drop only X3F files. *)
| AllConverted (total : nat)          (* All {total} files converted successfully! *)
| SomeConverted (successful total : nat)    (* {s}/{t} files converted successfully. *)
| ConversionError (e : exn).                (* An error occurred during conversion *)

(** The lines of the progress log. *)
Inductive progress : Type :=
| Started                                   (* X3F to TIFF Conversion Started *)
| Feature (n : nat)                         (* the n-th of the three feature lines *)
| Rule                                      (* "=" * 60 *)
| Processing (i total : nat) (name : string) (* [{i}/{total}] Processing: {name} *)
| Converted                                 (* Successfully converted *)
| NotConverted                              (* Conversion failed *)
| Critical (e : exn).                       (* Critical error: {e} *)

#[global] Instance progress_eq_dec : EqDecision progress.
Proof. solve_decision. Defined.

(** The fields and widgets of [X3FConverterGUI]. *)
Record X3FConverterGUI : Type := {
  converter : PhotoshopCompatibleConverter;
  selected_files : list string;
  output_directory : option string;
  format_var : string;
  file_listbox : list string;
  convert_button : bool;
  status_var : status;
  progress_text : list progress;
  messageboxes : list dialog
}.

Definition set_selected_files (l : list string) (g : X3FConverterGUI) :=
  {| converter := converter g; selected_files := l;
     output_directory := output_directory g; format_var := format_var g;
     file_listbox := file_listbox g; convert_button := convert_button g;
     status_var := status_var g; progress_text := progress_text g;
     messageboxes := messageboxes g |}.

Definition set_status (s : status) (g : X3FConverterGUI) :=
  {| converter := converter g; selected_files := selected_files g;
     output_directory := output_directory g; format_var := format_var g;
     file_listbox := file_listbox g; convert_button := convert_button g;
     status_var := s; progress_text := progress_text g;
     messageboxes := messageboxes g |}.

Definition set_convert_button (b : bool) (g : X3FConverterGUI) :=
  {| converter := converter g; selected_files := selected_files g;
     output_directory := output_directory g; format_var := format_var g;
     file_listbox := file_listbox g; convert_button := b;
     status_var := status_var g; progress_text := progress_text g;
     messageboxes := messageboxes g |}.

(** [messagebox.showinfo], [showwarning] and [showerror] *)
Definition popup (d : dialog) (g : X3FConverterGUI) :=
  {| converter := converter g; selected_files := selected_files g;
     output_directory := output_directory g; format_var := format_var g;
     file_listbox := file_listbox g; convert_button := convert_button g;
     status_var := status_var g; progress_text := progress_text g;
     messageboxes := messageboxes g ++ [d] |}.

(** [X3FConverterGUI.log_progress] *)
Definition log_progress (l : progress) (g : X3FConverterGUI) :=
  {| converter := converter g; selected_files := selected_files g;
     output_directory := output_directory g; format_var := format_var g;
     file_listbox := file_listbox g; convert_button := convert_button g;
     status_var := status_var g; progress_text := progress_text g ++ [l];
     messageboxes := messageboxes g |}.

(** [os.path.basename(s)]: what follows the last separator. *)
Definition basename (s : string) : string := List.last (Str.split "/" s) "".

(** [X3FConverterGUI.update_file_list] *)
Definition update_file_list (g : X3FConverterGUI) : X3FConverterGUI :=
  let g' :=
    {| converter := converter g; selected_files := selected_files g;
       output_directory := output_directory g; format_var := format_var g;
       file_listbox := map basename (selected_files g);
       convert_button := convert_button g;
       status_var := status_var g; progress_text := progress_text g;
       messageboxes := messageboxes g |} in
  match selected_files g with
  | [] => set_convert_button false g'
  | _ => set_convert_button true g'
  end.

(** The loop shared by [on_drop] and [select_files]:
<<
    for file_path in files:
        if file_path not in self.selected_files:
            self.selected_files.append(file_path)
            added_count += 1
>>
    It returns the list and the number of paths added. *)
Fixpoint append_new (files : list string) (selected : list string) (added : nat)
  : list string * nat :=
  match files with
  | [] => (selected, added)
  | file_path :: rest =>
      if bool_decide (file_path ∈ selected) then append_new rest selected added
      else append_new rest (selected ++ [file_path]) (S added)
  end.

(** [X3FConverterGUI.on_drop], for the paths [files] of the drop event *)
Definition on_drop (files : list string) (g : X3FConverterGUI)
  : X3FConverterGUI :=
  let x3f_files :=
    List.filter (fun f => Str.endswith (Str.lower f) ".x3f") files in
  match x3f_files with
  | [] => popup InvalidFiles g
  | _ =>
      let g1 := set_selected_files
                  (fst (append_new x3f_files (selected_files g) 0)) g in
      set_status (Added (List.length x3f_files)) (update_file_list g1)
  end.

(** [X3FConverterGUI.select_files], for the paths [files] that the file
    dialog returns *)
Definition select_files (files : list string) (g : X3FConverterGUI)
  : X3FConverterGUI :=
  let '(selected, added_count) := append_new files (selected_files g) 0 in
  let g1 := update_file_list (set_selected_files selected g) in
  if Nat.ltb 0 added_count then set_status (Added added_count) g1 else g1.

(** [X3FConverterGUI.clear_files] *)
Definition clear_files (g : X3FConverterGUI) : X3FConverterGUI :=
  set_status Cleared (update_file_list (set_selected_files [] g)).


(** [X3FConverterGUI.reset_output_directory] *)
Definition reset_output_directory (g : X3FConverterGUI) : X3FConverterGUI :=
  set_status OutputDirectoryReset
    {| converter := converter g; selected_files := selected_files g;
       output_directory := None; format_var := format_var g;
       file_listbox := file_listbox g; convert_button := convert_button g;
       status_var := status_var g; progress_text := progress_text g;
       messageboxes := messageboxes g |}.

(** [del l[index]]: raises [IndexError] outside of the list. *)
Definition del_item (index : nat) : M (list string) unit :=
  fun l => if Nat.ltb index (List.length l) then (delete index l, Ok tt)
           else (l, Raise IndexError).

(** [for index in reversed(selected_indices): del self.selected_files[index]] *)
Fixpoint del_items (indices : list nat) : M (list string) unit :=
  match indices with
  | [] => mret tt
  | index :: rest => del_item index ;; del_items rest
  end.

(** [X3FConverterGUI.remove_selected_files], for the indices
    [selected_indices] that [curselection()] returns. An [IndexError]
    leaves the method with the deletions made so far. *)
Definition remove_selected_files (selected_indices : list nat)
  : M X3FConverterGUI unit :=
  fun g =>
    match selected_indices with
    | [] => (g, Ok tt)
    | _ =>
        match del_items (rev selected_indices) (selected_files g) with
        | (l, Ok _) =>
            (set_status (Removed (List.length selected_indices))
               (update_file_list (set_selected_files l g)), Ok tt)
        | (l, Raise e) => (set_selected_files l g, Raise e)
        end
    end.

(** One call of the converter from the window's thread of work:
    [self.converter.convert_x3f_for_photoshop(x3f_file,
    self.output_directory, format_type)]. *)
Definition call_converter (ext : Externals) (x3f_file format_type : string)
  : M (X3FConverterGUI * World) bool :=
  fun '(g, w) =>
    match convert_x3f_for_photoshop ext (converter g) x3f_file
            (output_directory g) format_type w with
    | (w', r) => ((g, w'), r)
    end.

(** A statement that changes the window only. *)
Definition on_gui (f : X3FConverterGUI -> X3FConverterGUI)
  : M (X3FConverterGUI * World) unit :=
  modify (fun '(g, w) => (f g, w)).

(** The loop of [run_conversion], lines 312 to 319, over the files that
    remain, with the counter [i] of [enumerate] and the tally
    [successful]. The state is the window and the world. *)
Fixpoint convert_files (ext : Externals) (format_type : string)
  (total : nat) (files : list string) (i successful : nat)
  : M (X3FConverterGUI * World) nat :=
  match files with
  | [] => mret successful
  | x3f_file :: rest =>
      on_gui (log_progress (Processing i total (name (of_str x3f_file)))) ;;
      ok ← call_converter ext x3f_file format_type;
      if (ok : bool) then
        on_gui (log_progress Converted) ;;
        convert_files ext format_type total rest (S i) (S successful)
      else
        on_gui (log_progress NotConverted) ;;
        convert_files ext format_type total rest (S i) successful
  end.

(** The body of the [try] block of [run_conversion], lines 299 to 327. *)
Definition run_conversion_body (ext : Externals)
  : M (X3FConverterGUI * World) unit :=
  on_gui (log_progress Started) ;;
  on_gui (log_progress (Feature 1)) ;;
  on_gui (log_progress (Feature 2)) ;;
  on_gui (log_progress (Feature 3)) ;;
  on_gui (log_progress Rule) ;;
  gw ← get;
  let format_type := format_var (fst gw) in
  let total := List.length (selected_files (fst gw)) in
  successful ← convert_files ext format_type total
                 (selected_files (fst gw)) 1 0;
  if Nat.eqb successful total then
    on_gui (popup (AllConverted total)) ;;
    on_gui (set_status (Complete successful total))
  else
    on_gui (popup (SomeConverted successful total)) ;;
    on_gui (set_status (CompleteWithErrors successful total)).

(** [X3FConverterGUI.run_conversion]: the [except] clause reports the
    exception and gives up the rest of the loop; the [finally] clause
    enables the button again. *)
Definition run_conversion (ext : Externals) (gw : X3FConverterGUI * World)
  : X3FConverterGUI * World :=
  let '((g, w), _) :=
    try_except
      (run_conversion_body ext)
      (fun e =>
         on_gui (popup (ConversionError e)) ;;
         on_gui (log_progress (Critical e)) ;;
         on_gui (set_status FailedWithError))
      gw in
  (set_convert_button true g, w).

(** [X3FConverterGUI.__init__], given the converter it constructs: no
    file is selected, the output goes next to the input, the format is
    TIFF; [check_dependencies] warns when the decoder is missing. *)
Definition __init__ (c : PhotoshopCompatibleConverter) : X3FConverterGUI :=
  let g := {| converter := c; selected_files := []; output_directory := None;
              format_var := "tiff"; file_listbox := [];
              convert_button := true; status_var := Ready;
              progress_text := []; messageboxes := [] |} in
  if rawpy_available c then g else popup DependenciesCheck g.

(** The four commands of the window that change the list of selected
    files, with what the toolkit hands to each. *)
Inductive command : Type :=
| Drop (files : list string)
| Select (files : list string)
| RemoveSelected (selected_indices : list nat)
| ClearAll.

Definition run_command (c : command) (g : X3FConverterGUI) : X3FConverterGUI :=
  match c with
  | Drop files => on_drop files g
  | Select files => select_files files g
  | RemoveSelected ixs => fst (remove_selected_files ixs g)
  | ClearAll => clear_files g
  end.

(** The verdicts that the progress log holds, in its order. *)
Definition verdicts (log : list progress) : list bool :=
  omap (fun l => match l with
                 | Converted => Some true
                 | NotConverted => Some false
                 | _ => None
                 end) log.

(** The two message boxes with which [start_conversion] declines. *)
Inductive refusal : Type :=
| NoFiles                 (* Please select X3F files to convert. *)
| RawpyNotAvailable.      (* rawpy is not installed. Please install it: ... *)

(** [X3FConverterGUI.start_conversion], up to the start of the thread:
    either a message box is shown and the method returns, or the button
    is disabled, the status set, the progress log emptied, and a thread
    is started that runs [run_conversion] on the window given here. *)
Definition start_conversion (g : X3FConverterGUI)
  : refusal + X3FConverterGUI :=
  match selected_files g with
  | [] => inl NoFiles
  | _ =>
      if negb (rawpy_available (converter g)) then inl RawpyNotAvailable
      else
        inr {| converter := converter g; selected_files := selected_files g;
               output_directory := output_directory g;
               format_var := format_var g;
               file_listbox := file_listbox g;
               convert_button := false;
               status_var := ConvertingFiles;
               progress_text := [];
               messageboxes := messageboxes g |}
  end.

(** [for x3f_file in x3f_files:
       converter.convert_x3f_for_photoshop(x3f_file, output_dir, 'tiff')] *)
Fixpoint convert_each (ext : Externals)
  (converter : PhotoshopCompatibleConverter) (output_dir : option string)
  (x3f_files : list string) : M Process unit :=
  match x3f_files with
  | [] => mret tt
  | x3f_file :: rest =>
      call (convert_x3f_for_photoshop ext converter x3f_file output_dir
              "tiff") ;;
      convert_each ext converter output_dir rest
  end.

(** The command line mode of the script, lines 364 to 378, which runs
    when [sys.argv] has more than one element:
<<
    converter = PhotoshopCompatibleConverter()
    args = sys.argv[1:]
    output_dir = None
    if len(args) > 1 and os.path.isdir(args[-1]):
        output_dir = args[-1]
        x3f_files = args[:-1]
    else:
        x3f_files = args
>>
    followed by the loop over the files. *)
Definition command_line (ext : Externals) (argv : list string)
  : M Process unit :=
  converter ← on_interp Converter.__init__;
  let args := tl argv in
  p ← get;
  if (Nat.ltb 1 (List.length args)
      && os_path_isdir (disk p) (List.last args ""))%bool
  then convert_each ext converter (Some (List.last args "")) (removelast args)
  else convert_each ext converter None args.

End GUI.

(** ** Notions used to state the properties *)

Module Notions.
Import PathLib Numpy DateTime Converter GUI.

(** The three kinds of buffer that the decoder is documented to return:
    8-bit integers in [0, 255], 16-bit integers, and floating-point
    numbers in [0, 1]. *)
Definition in_unit_interval (x : spec_float) : Prop :=
  SFleb (float_of_Z F64 0) (float_cast F64 x) = true /\
  SFleb (float_cast F64 x) (float_of_Z F64 1) = true.

Definition documented_class (rgb : ndarray) : Prop :=
  match rgb with
  | IntArray k _ d => Forall (fun v => 0 <= v < modulus k) d
  | FloatArray k _ d =>
      Forall (fun x => valid_binary (prec k) (emax k) x = true /\
                       in_unit_interval x) d
  end.

(** The buffer that scaling every element by [factor] gives. *)
Definition scaled_by (factor : Z) (rgb : ndarray) : ndarray :=
  match rgb with
  | IntArray _ sh d => IntArray U16 sh (map (fun v => v * factor) d)
  | FloatArray _ _ _ => rgb
  end.

(** The lines printed between the world [w] and a later world [w']. *)
Definition printed (w w' : World) : list line :=
  drop (List.length (stdout w)) (stdout w').

(** The same libraries, but for the outcome of reading a file back. *)
Definition with_readback (ext : Externals)
  (rb : gmap Path (node content) -> Path -> result (list nat * dtype))
  : Externals :=
  {| imread := imread ext; mkdir_fault := mkdir_fault ext;
     imwrite_fault := imwrite_fault ext; readback := rb;
     st_size := st_size ext; clock := clock ext;
     promo := promo ext |}.

(** A file system is well formed when whatever exists lies in a
    directory. *)
Definition fs_wf (fs : gmap Path (node content)) : Prop :=
  forall p, is_Some (fs !! p) -> is_dir fs (parent p) = true.

(** The output directory of a request. *)
Definition output_dir_of (x3f_path : string) (output_dir : option string)
  : Path :=
  match output_dir with
  | None => parent (of_str x3f_path)
  | Some d => of_str d
  end.

(** The lines that are printed only once the output path was found to
    exist. *)
Definition verdict_line (l : line) : bool :=
  match l with
  | Created _ | FileAt _ | Verification _ _ | VerificationFailed _ => true
  | _ => false
  end.

(** What a step may print: never the line of the missing decoder, and
    none of the lines above unless [loud]. *)
Definition prints (loud : bool) (w w' : World) : Prop :=
  exists ls, stdout w' = stdout w ++ ls /\ (RawpyNotFound ∉ ls) /\
             (loud = false -> Forall (fun l => verdict_line l = false) ls).

(** A string has the shape [pattern], where [d] stands for a decimal
    digit and any other character for itself. *)
Definition is_digit (c : ascii) : bool :=
  (Nat.leb 48 (nat_of_ascii c) && Nat.leb (nat_of_ascii c) 57)%bool.

Fixpoint has_shape (pattern s : string) : bool :=
  match pattern, s with
  | EmptyString, EmptyString => true
  | String k p, String c r =>
      ((if Ascii.eqb k "d" then is_digit c else Ascii.eqb k c)
       && has_shape p r)%bool
  | _, _ => false
  end.

(** The handler of the [except] clause of the converter. *)
Definition conversion_failed : exn -> M World bool :=
  fun e => (print (ConversionFailed e) ;; mret false).

(** The output directory of a request can be made (or is there, or is
    not asked for). *)
Definition output_dir_creatable (ext : Externals)
  (output_dir : option string) (fs : gmap Path (node content)) : Prop :=
  match output_dir with
  | None => True
  | Some d =>
      exists fs1, mkdir (mkdir_fault ext) (of_str d) true true fs = (fs1, Ok tt)
  end.

(** The lines of the progress log for the files [files], numbered from
    [i], with the verdicts [bs]. *)
Fixpoint batch_log (total i : nat) (files : list string) (bs : list bool)
  : list progress :=
  match files, bs with
  | f :: files, b :: bs =>
      Processing i total (name (of_str f))
      :: (if b then Converted else NotConverted)
      :: batch_log total (S i) files bs
  | _, _ => []
  end.

(** The window with more lines in its progress log. *)
Definition with_progress (ls : list progress) (g : X3FConverterGUI)
  : X3FConverterGUI :=
  {| converter := converter g; selected_files := selected_files g;
     output_directory := output_directory g; format_var := format_var g;
     file_listbox := file_listbox g; convert_button := convert_button g;
     status_var := status_var g; progress_text := progress_text g ++ ls;
     messageboxes := messageboxes g |}.

(** The decoder refuses the file [f], whatever the state of the disk. *)
Definition undecodable (ext : Externals) (f : string) : Prop :=
  forall fs, exists e, imread ext fs (of_str f) = Raise e.

(** The number of successes and of failures among verdicts. *)
Definition successes (bs : list bool) : nat :=
  List.length (List.filter (fun b => b) bs).

(** [c in s] for a character [c]. *)
Fixpoint occurs (c : ascii) (s : string) : bool :=
  match s with
  | EmptyString => false
  | String d r => (Ascii.eqb d c || occurs c r)%bool
  end.

(** What a file system [fs'] holds that [fs] does not: directories on
    the way to [p]. Nothing that [fs] holds is changed. *)
Definition grown_towards (p : Path) (fs fs' : gmap Path (node content))
  : Prop :=
  (forall q n, fs !! q = Some n -> fs' !! q = Some n) /\
  (forall q, fs !! q = None ->
             fs' !! q = None \/ (fs' !! q = Some Dir /\ q `prefix_of` p)).

(** The lines of the stages of a conversion up to the write, for the
    buffer [rgb] of the decoder and its range. *)
Definition stage_lines (x3f_path : Path) (rgb : ndarray) (lo hi : scalar)
  (format_type : string) : list line :=
  [Converting (name x3f_path); ProcessingFoveon;
   Processed (shape_of rgb) (dtype_of rgb); Range lo hi;
   Saving (Str.upper format_type)].

(** The line of the readback, and the first line of a conversion. *)
Definition is_verification (l : line) : bool :=
  match l with
  | Verification _ _ | VerificationFailed _ => true
  | _ => false
  end.

Definition is_converting (l : line) : bool :=
  match l with Converting _ => true | _ => false end.


(** The output path of a request. *)
Definition target_of (x3f_path : string) (output_dir : option string)
  (format_type : string) : Path :=
  output_path_for (output_dir_of x3f_path output_dir) (of_str x3f_path)
    format_type.

(** The output goes next to the input or to a directory that is there. *)
Definition settled (out : option string) (fs : gmap Path (node content))
  : Prop :=
  match out with
  | Some d => is_dir fs (of_str d) = true
  | None => True
  end.

(** The list [l] without the elements at the places [ixs], the first
    place of [l] being [i]. *)
Fixpoint without_from (i : nat) (ixs : list nat) (l : list string)
  : list string :=
  match l with
  | [] => []
  | x :: r =>
      if bool_decide (i ∈ ixs) then without_from (S i) ixs r
      else x :: without_from (S i) ixs r
  end.

Definition without (ixs : list nat) (l : list string) : list string :=
  without_from 0 ixs l.

(** What [curselection()] can return for a list box of [n] rows: places
    of rows, in increasing order. *)
Definition curselection (ixs : list nat) (n : nat) : Prop :=
  StronglySorted lt ixs /\ Forall (fun i => (i < n)%nat) ixs.

(** The list box shows the selected files. *)
Definition listbox_in_step (g : X3FConverterGUI) : Prop :=
  file_listbox g = map basename (selected_files g).

(** A command that the window can receive: the rows to remove are rows of
    the list box. *)
Definition possible (g : X3FConverterGUI) (c : command) : Prop :=
  match c with
  | RemoveSelected ixs => curselection ixs (List.length (file_listbox g))
  | _ => True
  end.

(** The windows that a new window can become by such commands. *)
Inductive reachable (c0 : PhotoshopCompatibleConverter)
  : X3FConverterGUI -> Prop :=
| reachable_new : reachable c0 (GUI.__init__ c0)
| reachable_command (g : X3FConverterGUI) (c : command) :
    reachable c0 g -> possible g c -> reachable c0 (run_command c g).

(** The files that a script began to convert, by the first line of each
    conversion; and the lines that a script printed between two states. *)
Definition attempted (out : list script_line) : list string :=
  omap (fun l => match l with
                 | Said (Converting name) => Some name
                 | _ => None
                 end) out.

Definition said (p p' : Process) : list script_line :=
  drop (List.length (console p)) (console p').

End Notions.

(** ** A small world to run the programs in *)

Module Demo.
Import PathLib Numpy DateTime Converter GUI.

(** One pixel, already in 16 bits. *)
Definition pixel : ndarray := IntArray U16 [1; 1; 3]%nat [100; 2000; 65535].

(** The decoder refuses the files named [bad.x3f] and develops any other
    file into [pixel]; no directory can be made under [/archive]; writing
    a file never fails; reading it back always does. *)
Definition libraries : Externals := {|
  imread := fun _ p =>
    if String.eqb (name p) "bad.x3f" then Raise (LibRawError 5)
    else Ok (fun _ => Ok pixel);
  mkdir_fault := fun _ p =>
    if bool_decide (["archive"] `prefix_of` p) then Some PermissionError
    else None;
  imwrite_fault := fun _ _ => None;
  readback := fun _ _ => Raise TiffFileError;
  st_size := fun _ _ => 134%N;
  clock := fun _ => {| year := 2024; month := 3; day := 9;
                       hour := 14; minute := 5; second := 0 |};
  promo := NEP50
|}.

(** A directory [/shots] with three raw files, an empty directory
    [/archive], and a regular file [/out]. *)
Definition disk : gmap Path (node content) :=
  <[ ["shots"] := Dir ]>
  (<[ ["archive"] := Dir ]>
  (<[ ["shots"; "a.x3f"] := File (Blob 1) ]>
  (<[ ["shots"; "bad.x3f"] := File (Blob 2) ]>
  (<[ ["shots"; "c.x3f"] := File (Blob 3) ]>
  (<[ ["out"] := File (Blob 4) ]> ∅))))).

Definition world : World := {| fs := disk; stdout := []; ticks := 0 |}.

Definition the_converter : PhotoshopCompatibleConverter :=
  {| rawpy_available := true |}.

(** The window after the three files were selected. *)
Definition window : X3FConverterGUI :=
  select_files ["/shots/a.x3f"; "/shots/bad.x3f"; "/shots/c.x3f"]
    (GUI.__init__ the_converter).



(** An interpreter that has loaded nothing yet, with the packages of the
    converter installed; and the same interpreter once every package was
    removed from the disk. *)
Definition fresh_interpreter : Interp :=
  {| sys_modules := ∅;
     installed := list_to_set ["os"; "sys"; "rawpy"; "numpy"; "pathlib";
                               "tifffile"; "datetime"] |}.

Definition uninstalled (st : Interp) : Interp :=
  {| sys_modules := sys_modules st; installed := ∅ |}.

(** The same libraries with an operating system that refuses nothing. *)
Definition permissive : Externals := {|
  imread := imread libraries;
  mkdir_fault := fun _ _ => None;
  imwrite_fault := imwrite_fault libraries;
  readback := readback libraries;
  st_size := st_size libraries;
  clock := clock libraries;
  promo := promo libraries
|}.

(** The same libraries with a decoder that develops every file into a
    buffer without elements. *)
Definition blank : Externals := {|
  imread := fun _ _ => Ok (fun _ => Ok (IntArray U16 [0; 0; 3]%nat []));
  mkdir_fault := mkdir_fault libraries;
  imwrite_fault := imwrite_fault libraries;
  readback := readback libraries;
  st_size := st_size libraries;
  clock := clock libraries;
  promo := promo libraries
|}.

(** A script started in the small world, once its modules are loaded. *)
Definition process : Process :=
  {| Converter.interp := fst (load_module fresh_interpreter);
     Converter.disk := disk;
     Converter.readings := 0;
     Converter.console := [] |}.

End Demo.

(** * Verified properties *)

Import PathLib Numpy DateTime Converter GUI Notions.

(** ** The list of selected files *)

Section SelectedFiles.

Lemma append_new_NoDup (files : list string) :
  forall (selected : list string) (added : nat),
    NoDup selected -> NoDup (fst (append_new files selected added)).
Proof.
  induction files as [|f files IH]; intros selected added Hnd; simpl.
  - exact Hnd.
  - case_bool_decide as Hin.
    + now apply IH.
    + apply IH. apply NoDup_app. repeat split.
      * exact Hnd.
      * intros x Hx Hx'. apply list_elem_of_singleton in Hx'. now subst.
      * apply NoDup_singleton.
Qed.

(** The paths already selected stay selected, in their places. *)
Lemma append_new_prefix (files : list string) :
  forall (selected : list string) (added : nat),
    selected `prefix_of` fst (append_new files selected added).
Proof.
  induction files as [|f files IH]; intros selected added; simpl.
  - reflexivity.
  - case_bool_decide.
    + apply IH.
    + etransitivity; [|apply IH]. now apply prefix_app_r.
Qed.

Lemma append_new_elem_of (files : list string) :
  forall (selected : list string) (added : nat) (f : string),
    f ∈ fst (append_new files selected added) <-> f ∈ selected \/ f ∈ files.
Proof.
  induction files as [|f' files IH]; intros selected added f; simpl.
  - rewrite elem_of_nil. tauto.
  - case_bool_decide as Hin; rewrite IH, elem_of_cons.
    + split; [tauto|]. intros [H|[->|H]]; auto.
    + rewrite elem_of_app, list_elem_of_singleton. tauto.
Qed.

Lemma del_items_sublist (indices : list nat) :
  forall l : list string, fst (del_items indices l) `sublist_of` l.
Proof.
  induction indices as [|i indices IH]; intros l.
  - reflexivity.
  - cbn [del_items]. unfold mbind, M_bind, bind, del_item.
    destruct (Nat.ltb i (List.length l)); cbn.
    + etransitivity; [apply IH | apply sublist_delete].
    + reflexivity.
Qed.

Lemma selected_files_update_file_list (g : X3FConverterGUI) :
  selected_files (update_file_list g) = selected_files g.
Proof. unfold update_file_list. now destruct (selected_files g). Qed.

Lemma on_drop_NoDup (files : list string) (g : X3FConverterGUI) :
  NoDup (selected_files g) -> NoDup (selected_files (on_drop files g)).
Proof.
  intros Hnd. unfold on_drop.
  destruct (List.filter _ files) as [|f x3f_files] eqn:E; [exact Hnd|].
  cbn [set_status selected_files]. rewrite selected_files_update_file_list.
  cbn [set_selected_files selected_files]. now apply append_new_NoDup.
Qed.

Lemma select_files_NoDup (files : list string) (g : X3FConverterGUI) :
  NoDup (selected_files g) -> NoDup (selected_files (select_files files g)).
Proof.
  intros Hnd. unfold select_files.
  pose proof (append_new_NoDup files (selected_files g) 0 Hnd) as H.
  destruct (append_new files (selected_files g) 0) as [selected added].
  destruct (Nat.ltb 0 added); cbn [set_status selected_files];
    rewrite selected_files_update_file_list; exact H.
Qed.

Lemma remove_selected_files_NoDup (ixs : list nat) (g : X3FConverterGUI) :
  NoDup (selected_files g) ->
  NoDup (selected_files (fst (remove_selected_files ixs g))).
Proof.
  intros Hnd. unfold remove_selected_files.
  destruct ixs as [|i ixs]; [exact Hnd|].
  pose proof (del_items_sublist (rev (i :: ixs)) (selected_files g)) as Hsub.
  destruct (del_items (rev (i :: ixs)) (selected_files g)) as [l [[]|e]];
    cbn [fst set_status selected_files] in *.
  - rewrite selected_files_update_file_list. cbn.
    eapply sublist_NoDup; eauto.
  - cbn. eapply sublist_NoDup; eauto.
Qed.

Lemma clear_files_NoDup (g : X3FConverterGUI) :
  NoDup (selected_files (clear_files g)).
Proof. cbn. apply NoDup_nil_2. Qed.

End SelectedFiles.

(** C10. The list of selected files holds no path twice: from a list
    without duplicates, each of the four commands that change the list
    (a drop, the file dialog, the removal of the selected rows, the
    clearing of the list) leaves a list without duplicates; the two
    commands that add paths skip those already in the list, so that a
    path is in the new list exactly when it was selected or is one of the
    accepted new paths. *)
Theorem selected_files_never_duplicated (g : X3FConverterGUI) :
  NoDup (selected_files g) ->
  (forall c : command, NoDup (selected_files (run_command c g))) /\
  (forall files f,
      f ∈ selected_files (select_files files g) <->
      f ∈ selected_files g \/ f ∈ files) /\
  (forall files f,
      Str.endswith (Str.lower f) ".x3f" = true ->
      f ∈ selected_files (on_drop files g) <->
      f ∈ selected_files g \/ f ∈ files).
Proof.
  intros Hnd. split; [|split].
  - intros [files|files|ixs|]; cbn [run_command].
    + now apply on_drop_NoDup.
    + now apply select_files_NoDup.
    + now apply remove_selected_files_NoDup.
    + apply clear_files_NoDup.
  - intros files f. unfold select_files.
    pose proof (append_new_elem_of files (selected_files g) 0 f) as H.
    destruct (append_new files (selected_files g) 0) as [selected added].
    destruct (Nat.ltb 0 added); cbn [set_status selected_files];
      rewrite selected_files_update_file_list; exact H.
  - intros files f Hx3f. unfold on_drop.
    destruct (List.filter _ files) as [|f' x3f_files] eqn:E.
    + split; [tauto|]. intros [H|H]; [exact H|].
      assert (In f (List.filter
                (fun f => Str.endswith (Str.lower f) ".x3f") files)) as Hf.
      { apply filter_In. split; [now apply list_elem_of_In | exact Hx3f]. }
      rewrite E in Hf. destruct Hf.
    + cbn [set_status selected_files].
      rewrite selected_files_update_file_list.
      cbn [set_selected_files selected_files].
      rewrite append_new_elem_of, <- E.
      split; (intros [H|H]; [now left | right]).
      * apply list_elem_of_In in H. apply filter_In in H as [H _].
        now apply list_elem_of_In.
      * apply list_elem_of_In, filter_In.
        split; [now apply list_elem_of_In | exact Hx3f].
Qed.

(** The empty list of a new window with two drops, one of them with a
    path given twice. *)
Lemma selected_files_never_duplicated_witness :
  NoDup (selected_files
           (run_command (Drop ["/p/a.x3f"; "/p/b.X3F"; "/p/a.x3f"; "/p/c.txt"])
              (GUI.__init__ {| rawpy_available := true |}))) /\
  selected_files
    (run_command (Select ["/p/b.X3F"; "/p/d.x3f"])
       (run_command (Drop ["/p/a.x3f"; "/p/b.X3F"; "/p/a.x3f"; "/p/c.txt"])
          (GUI.__init__ {| rawpy_available := true |})))
  = ["/p/a.x3f"; "/p/b.X3F"; "/p/d.x3f"].
Proof.
  split.
  - apply (selected_files_never_duplicated
             (GUI.__init__ {| rawpy_available := true |})).
    cbn. apply NoDup_nil_2.
  - vm_compute. reflexivity.
Defined.

(** Every list that the commands can build from the empty list of a new
    window is free of duplicates. *)
Lemma reachable_selected_files_NoDup (c : PhotoshopCompatibleConverter)
  (cmds : list command) :
  NoDup (selected_files (fold_left (fun g k => run_command k g) cmds
                           (GUI.__init__ c))).
Proof.
  assert (forall g, NoDup (selected_files g) ->
            NoDup (selected_files
                     (fold_left (fun g k => run_command k g) cmds g))) as H.
  { induction cmds as [|k cmds IH]; intros g Hg; cbn [fold_left]; [exact Hg|].
    apply IH. destruct k; cbn [run_command];
      auto using on_drop_NoDup, select_files_NoDup,
                 remove_selected_files_NoDup, clear_files_NoDup. }
  apply H. unfold GUI.__init__. destruct (rawpy_available c); cbn;
    apply NoDup_nil_2.
Qed.

(** ** The normalisation of the bit depth *)

Section Normalisation.

Lemma fold_left_Zmax_le (bound : Z) (d : list Z) :
  forall v, v <= bound -> Forall (fun x => x <= bound) d ->
            fold_left Z.max d v <= bound.
Proof.
  induction d as [|x d IH]; intros v Hv Hd; cbn [fold_left]; [exact Hv|].
  inversion Hd; subst. apply IH; [lia | assumption].
Qed.

Lemma fold_left_Zmax_ge (d : list Z) :
  forall v x, x = v \/ In x d -> x <= fold_left Z.max d v.
Proof.
  induction d as [|y d IH]; intros v x Hx; cbn [fold_left].
  - destruct Hx as [->|[]]. lia.
  - destruct Hx as [->|[->|Hx]].
    + etransitivity; [|apply IH; left; reflexivity]. lia.
    + etransitivity; [|apply IH; left; reflexivity]. lia.
    + apply IH. now right.
Qed.

(** The maximum of floats is one of them. *)
Lemma fold_left_fmax_In (d : list spec_float) :
  forall x, fold_left fmax d x = x \/ In (fold_left fmax d x) d.
Proof.
  induction d as [|y d IH]; intros x; cbn [fold_left]; [now left|].
  destruct (IH (fmax x y)) as [H|H].
  - rewrite H. unfold fmax.
    destruct (is_nan x); [now left|].
    destruct (is_nan y); [right; now left|].
    destruct (SFltb x y); [right; now left | now left].
  - right. now right.
Qed.

Lemma astype_uint16_dtype (a : ndarray) : dtype_of (astype_uint16 a) = uint16.
Proof. now destruct a. Qed.

Lemma astype_uint16_wf (a : ndarray) : wf (astype_uint16 a).
Proof.
  destruct a as [k sh d|k sh d]; cbn; apply Forall_map, Forall_forall;
    intros x _; cbn; apply Z.mod_pos_bound; lia.
Qed.

Lemma astype_uint16_shape (a : ndarray) :
  shape_of (astype_uint16 a) = shape_of a /\ size (astype_uint16 a) = size a.
Proof. destruct a; cbn; now rewrite length_map. Qed.

Lemma mul_65535_shape (p : promotion) (a b : ndarray) :
  mul_65535 p a = Ok b -> shape_of b = shape_of a /\ size b = size a.
Proof.
  destruct a as [[] sh d|k sh d], p; cbn; intros H; inversion H; subst; cbn;
    now rewrite length_map.
Qed.

Lemma div_255_astype_float32_shape (a : ndarray) :
  shape_of (div_255 (astype_float32 a)) = shape_of a /\
  size (div_255 (astype_float32 a)) = size a.
Proof. destruct a; cbn; now rewrite !length_map. Qed.

(** In single precision, [v / 255 * 65535] is exactly [257 * v] for each
    of the 256 values of an 8-bit element. *)
Lemma float32_scale_exact (v : Z) :
  0 <= v < 256 ->
  trunc (SFmul (prec F32) (emax F32)
           (SFdiv (prec F32) (emax F32) (float_of_Z F32 v) (float_of_Z F32 255))
           (float_of_Z F32 65535)) mod 65536 = v * 257.
Proof.
  intros Hv.
  assert (forallb (fun v =>
            Z.eqb (trunc (SFmul (prec F32) (emax F32)
                     (SFdiv (prec F32) (emax F32)
                        (float_of_Z F32 v) (float_of_Z F32 255))
                     (float_of_Z F32 65535)) mod 65536) (v * 257))
            (map Z.of_nat (seq 0 256)) = true) as Htable
    by (vm_compute; reflexivity).
  rewrite forallb_forall in Htable.
  apply Z.eqb_eq, Htable, in_map_iff.
  exists (Z.to_nat v). split; [lia|]. apply in_seq. lia.
Qed.

(** A 16-bit buffer is passed through. *)
Lemma normalize_uint16 (p : promotion) (sh : list nat) (d : list Z) :
  normalize p (IntArray U16 sh d) = Ok (IntArray U16 sh d).
Proof. reflexivity. Qed.

Lemma max_IntArray (k : int_kind) (sh : list nat) (d : list Z) :
  d <> [] ->
  exists m, max (IntArray k sh d) = Ok (SInt m) /\
            (forall v, In v d -> v <= m) /\
            (forall b, Forall (fun x => x <= b) d -> m <= b).
Proof.
  intros Hne. destruct d as [|x d]; [congruence|].
  exists (fold_left Z.max d x). split; [reflexivity|]. split.
  - intros v Hv. apply fold_left_Zmax_ge. destruct Hv; auto.
  - intros b Hb. inversion Hb; subst. now apply fold_left_Zmax_le.
Qed.

Lemma max_FloatArray (k : float_kind) (sh : list nat) (d : list spec_float) :
  d <> [] ->
  exists m, max (FloatArray k sh d) = Ok (SFloat m) /\ In m d.
Proof.
  intros Hne. destruct d as [|x d]; [congruence|].
  exists (fold_left fmax d x). split; [reflexivity|].
  destruct (fold_left_fmax_In d x) as [->|Hin]; [now left | now right].
Qed.

(** An 8-bit buffer with an element above 1 is scaled by 65535/255 = 257. *)
Lemma normalize_uint8_above_1 (p : promotion) (sh : list nat) (d : list Z)
  (v : Z) :
  Forall (fun x => 0 <= x < 256) d -> In v d -> 1 < v ->
  normalize p (IntArray U8 sh d) = Ok (scaled_by 257 (IntArray U8 sh d)).
Proof.
  intros Hd Hv Hv1.
  destruct (max_IntArray U8 sh d) as (m & Hmax & Hge & Hle).
  { intros ->. destruct Hv. }
  specialize (Hge v Hv). specialize (Hle 255).
  assert (m <= 255) as Hm.
  { apply Hle. eapply Forall_impl; [eassumption|]. cbn. lia. }
  unfold normalize. cbn [dtype_of]. rewrite bool_decide_eq_true_2 by discriminate.
  rewrite Hmax. cbn [mbind result_bind scalar_le].
  destruct (Z.leb_spec m 1); [lia|].
  destruct (Z.leb_spec m 255); [|lia].
  cbn [astype_float32 div_255 mul_65535 mret result_ret astype_uint16
       scaled_by mbind result_bind].
  f_equal. f_equal. rewrite !map_map.
  apply map_ext_in. intros a Ha.
  apply float32_scale_exact.
  rewrite Forall_forall in Hd. apply Hd, list_elem_of_In, Ha.
Qed.

(** A buffer of floats between 0 and 1 is scaled by 65535 in its own
    precision and truncated. *)
Lemma normalize_unit_floats (p : promotion) (k : float_kind) (sh : list nat)
  (d : list spec_float) :
  d <> [] ->
  Forall in_unit_interval d ->
  normalize p (FloatArray k sh d) =
  Ok (IntArray U16 sh
        (map (fun x => trunc (SFmul (prec k) (emax k) x (float_of_Z k 65535))
                       mod 65536) d)).
Proof.
  intros Hne Hd.
  destruct (max_FloatArray k sh d Hne) as (m & Hmax & Hin).
  unfold normalize. cbn [dtype_of]. rewrite bool_decide_eq_true_2 by discriminate.
  rewrite Hmax. cbn [mbind result_bind scalar_le].
  rewrite Forall_forall in Hd.
  rewrite (proj2 (Hd m (proj2 (list_elem_of_In _ _) Hin))).
  cbn [mul_65535 mret result_ret astype_uint16 mbind result_bind].
  now rewrite map_map.
Qed.

(** The three ways out of the normalisation. *)
Lemma normalize_cases (p : promotion) (rgb rgb' : ndarray) :
  normalize p rgb = Ok rgb' ->
  (dtype_of rgb = uint16 /\ rgb' = rgb) \/
  (dtype_of rgb <> uint16 /\ rgb' = rgb /\
   exists m, max rgb = Ok m /\ scalar_le m 1 = false /\
             scalar_le m 255 = false) \/
  (dtype_of rgb <> uint16 /\
   exists a, rgb' = astype_uint16 a /\
             shape_of a = shape_of rgb /\ size a = size rgb).
Proof.
  unfold normalize. case_bool_decide as Hdt.
  - destruct (max rgb) as [m|e] eqn:Hmax; cbn [mbind result_bind]; [|discriminate].
    destruct (scalar_le m 1) eqn:H1.
    + destruct (mul_65535 p rgb) as [a|e] eqn:Hmul; cbn; [|discriminate].
      intros [= <-]. right. right. split; [exact Hdt|].
      exists a. split; [reflexivity|]. now apply (mul_65535_shape p).
    + destruct (scalar_le m 255) eqn:H255.
      * destruct (mul_65535 p (div_255 (astype_float32 rgb))) as [a|e] eqn:Hmul;
          cbn; [|discriminate].
        intros [= <-]. right. right. split; [exact Hdt|].
        exists a. split; [reflexivity|].
        apply mul_65535_shape in Hmul as [-> ->].
        apply div_255_astype_float32_shape.
      * cbn. intros [= <-]. right. left. eauto 6.
  - intros [= <-]. left. split; [|reflexivity].
    destruct (decide (dtype_of rgb = uint16)); [assumption|contradiction].
Qed.

End Normalisation.

(** C4. For a decoder buffer of one of the three documented kinds
    (8-bit integers in [0, 255], 16-bit integers, floats in [0, 1]), the
    buffer that the normalisation step hands on is a 16-bit unsigned
    buffer whose elements all lie in [0, 65535], with the shape of the
    input. The step does hand on a buffer for every non-empty input of
    these kinds, except where the installed numpy refuses to multiply an
    8-bit array by 65535 (an 8-bit buffer without an element above 1
    under the promotion rules of NumPy 2), in which case the conversion
    fails before anything is written. *)
Theorem normalized_buffer_is_uint16 (p : promotion) (rgb : ndarray) :
  documented_class rgb ->
  (forall rgb', normalize p rgb = Ok rgb' ->
     dtype_of rgb' = uint16 /\ wf rgb' /\
     shape_of rgb' = shape_of rgb /\ size rgb' = size rgb) /\
  (size rgb <> 0%nat ->
   (p = Legacy \/ dtype_of rgb <> uint8 \/
    exists sh d v, rgb = IntArray U8 sh d /\ In v d /\ 1 < v) ->
   exists rgb', normalize p rgb = Ok rgb').
Proof.
  intros Hclass. split.
  - intros rgb' Hn.
    destruct (normalize_cases p rgb rgb' Hn)
      as [[Hdt ->]|[(Hdt & -> & m & Hmax & H1 & H255)|(Hdt & a & -> & Hsh & Hsz)]].
    + repeat split; [exact Hdt|].
      destruct rgb as [[] sh d|k sh d]; try discriminate. exact Hclass.
    + exfalso. destruct rgb as [[] sh d|k sh d].
      * destruct d as [|x d]; [discriminate|].
        destruct (max_IntArray U8 sh (x :: d)) as (m' & Hmax' & _ & Hle);
          [discriminate|].
        rewrite Hmax in Hmax'. injection Hmax' as ->.
        assert (m' <= 255); [|cbn in H255; lia].
        apply Hle. eapply Forall_impl; [exact Hclass|]. cbn. lia.
      * now apply Hdt.
      * destruct d as [|x d]; [discriminate|].
        destruct (max_FloatArray k sh (x :: d)) as (m' & Hmax' & Hin);
          [discriminate|].
        rewrite Hmax in Hmax'. injection Hmax' as ->.
        unfold documented_class in Hclass. rewrite Forall_forall in Hclass.
        apply list_elem_of_In, Hclass in Hin as [_ [_ Hin]].
        cbn [scalar_le] in H1. congruence.
    + split; [apply astype_uint16_dtype|]. split; [apply astype_uint16_wf|].
      destruct (astype_uint16_shape a) as [-> ->]. now split.
  - intros Hsize Hp. destruct rgb as [[] sh d|k sh d].
    + (* 8-bit integers *)
      destruct d as [|x d]; [now cbn in Hsize|].
      destruct (max_IntArray U8 sh (x :: d)) as (m & Hmax & Hge & Hle);
        [discriminate|].
      assert (m <= 255) as Hm.
      { apply Hle. eapply Forall_impl; [exact Hclass|]. cbn. lia. }
      unfold normalize. cbn [dtype_of].
      rewrite bool_decide_eq_true_2 by discriminate.
      rewrite Hmax. cbn [mbind result_bind scalar_le].
      destruct (Z.leb_spec m 1) as [H1|H1].
      * destruct Hp as [->|[Hp|(sh' & d' & v & [= <- <-] & Hv & Hv1)]].
        -- cbn. eauto.
        -- contradiction.
        -- specialize (Hge v Hv). lia.
      * destruct (Z.leb_spec m 255); [|lia]. cbn. eauto.
    + (* 16-bit integers *)
      eexists. apply normalize_uint16.
    + (* floats *)
      destruct d as [|x d]; [now cbn in Hsize|].
      eexists. apply normalize_unit_floats; [discriminate|].
      eapply Forall_impl; [exact Hclass|]. now intros y [_ Hy].
Qed.

(** An 8-bit buffer of one pixel, under the rules of NumPy 2. *)
Lemma normalized_buffer_is_uint16_witness :
  exists rgb',
    normalize NEP50 (IntArray U8 [1; 1; 3]%nat [0; 128; 255]) = Ok rgb' /\
    dtype_of rgb' = uint16 /\ wf rgb'.
Proof.
  assert (documented_class (IntArray U8 [1; 1; 3]%nat [0; 128; 255])) as Hc.
  { cbn. repeat constructor; lia. }
  destruct (normalized_buffer_is_uint16 NEP50 _ Hc) as [Hpart Htot].
  destruct Htot as [rgb' Hn].
  - cbn. lia.
  - right. right. exists [1; 1; 3]%nat, [0; 128; 255], 128.
    cbn. repeat split; auto; lia.
  - exists rgb'. split; [exact Hn|].
    destruct (Hpart rgb' Hn) as (Hd & Hw & _). now split.
Defined.

(** C2. The claim gives every 8-bit buffer the factor 65535/255 = 257.
    The source tests the maximum before it looks at the element type, so
    an 8-bit buffer whose elements are all 0 or 1 takes the branch meant
    for floats in [0, 1]: with the promotion rules of NumPy 1 the element
    1 becomes 65535, with those of NumPy 2 the multiplication raises
    [OverflowError] (and the conversion fails); in neither case is the
    result the buffer scaled by 257. *)
Theorem dark_uint8_buffer_not_scaled_by_257 :
  let rgb := IntArray U8 [1; 1; 3]%nat [0; 1; 0] in
  documented_class rgb /\
  scaled_by 257 rgb = IntArray U16 [1; 1; 3]%nat [0; 257; 0] /\
  normalize Legacy rgb = Ok (IntArray U16 [1; 1; 3]%nat [0; 65535; 0]) /\
  normalize NEP50 rgb = Raise OverflowError /\
  (forall p, normalize p rgb <> Ok (scaled_by 257 rgb)) /\
  normalize Legacy (IntArray U8 [1; 1; 3]%nat [0; 2; 0]) =
  Ok (scaled_by 257 (IntArray U8 [1; 1; 3]%nat [0; 2; 0])).
Proof.
  cbv zeta. repeat split.
  - cbn. repeat constructor; lia.
  - intros []; vm_compute; discriminate.
Qed.

(** The branch for floats taken by 8-bit buffers, in general. *)
Lemma normalize_uint8_up_to_1 (p : promotion) (sh : list nat) (d : list Z) :
  d <> [] -> Forall (fun x => 0 <= x <= 1) d ->
  normalize p (IntArray U8 sh d) =
  match p with
  | Legacy => Ok (scaled_by 65535 (IntArray U8 sh d))
  | NEP50 => Raise OverflowError
  end.
Proof.
  intros Hne Hd.
  destruct (max_IntArray U8 sh d Hne) as (m & Hmax & _ & Hle).
  assert (m <= 1) as Hm.
  { apply Hle. eapply Forall_impl; [eassumption|]. cbn. lia. }
  unfold normalize. cbn [dtype_of]. rewrite bool_decide_eq_true_2 by discriminate.
  rewrite Hmax. cbn [mbind result_bind scalar_le].
  destruct (Z.leb_spec m 1); [|lia].
  destruct p; [|reflexivity].
  cbn [mul_65535 mret result_ret astype_uint16 scaled_by mbind result_bind].
  f_equal. f_equal. rewrite map_map. apply map_ext_in. intros a Ha.
  rewrite Forall_forall in Hd. apply list_elem_of_In, Hd in Ha.
  rewrite Z.mod_mod by lia. apply Z.mod_small. lia.
Qed.

(** Outside of the three documented kinds the step may leave the buffer
    as it is: a double-precision buffer with an element above 255 keeps
    its element type. *)
Example normalize_large_floats_unchanged :
  let rgb := FloatArray F64 [1; 1; 3]%nat
               [float_of_Z F64 0; float_of_Z F64 1; float_of_Z F64 300] in
  normalize NEP50 rgb = Ok rgb /\ normalize Legacy rgb = Ok rgb /\
  dtype_of rgb = float64.
Proof. cbv zeta. split_and!; vm_compute; reflexivity. Qed.

(** ** The steps of a conversion *)

Set Warnings "-clear-no-such-hyp".

Ltac unfold_M :=
  unfold print, on_fs, Converter.now, on_gui, call_converter in *;
  unfold mbind, mret, M_bind, M_ret, bind, ret, raise, try_except, get,
         modify, lift in *.

(** Runs a computation symbolically: every test on an oracle is split. *)
Ltac run_M :=
  unfold_M; cbn [fs stdout ticks] in *;
  repeat case_match; simplify_eq; cbn [fs stdout ticks] in *.

Ltac show_printed :=
  unfold prints; rewrite <- ?app_assoc; eexists;
  (split; [reflexivity|]); split; [cbn; set_solver | repeat constructor].

Lemma prints_trans (a b : bool) (w1 w2 w3 : World) :
  prints a w1 w2 -> prints b w2 w3 -> prints (a || b) w1 w3.
Proof.
  intros (l1 & H1 & Hn1 & Hq1) (l2 & H2 & Hn2 & Hq2).
  exists (l1 ++ l2). rewrite H2, H1, <- app_assoc. split; [reflexivity|].
  split; [set_solver|]. intros [-> ->]%orb_false_iff.
  apply Forall_app; auto.
Qed.

Lemma prints_printed (loud : bool) (w w' : World) :
  prints loud w w' ->
  (RawpyNotFound ∉ printed w w') /\
  (loud = false -> Forall (fun l => verdict_line l = false) (printed w w')).
Proof.
  intros (ls & Hls & Hn & Hq). unfold printed.
  rewrite Hls, drop_app_length. auto.
Qed.

Section Steps.
Context (ext : Externals).

Lemma decode_spec (p : Path) (w w' : World) (r : result ndarray) :
  decode ext p w = (w', r) ->
  fs w' = fs w /\ ticks w' = ticks w /\ prints false w w' /\
  (forall e, imread ext (fs w) p = Raise e -> r = Raise e) /\
  (forall rgb, r = Ok rgb ->
     exists raw, imread ext (fs w) p = Ok raw /\ raw foveon_params = Ok rgb).
Proof.
  unfold decode. intros H. run_M; split_and!; try show_printed;
    try congruence; intros; simplify_eq; eauto.
Qed.

Lemma save_spec (out : Path) (format_type : string) (rgb : ndarray)
  (tags : list (string * tag_value)) (w w' : World) (r : result unit) :
  save ext out format_type rgb tags w = (w', r) ->
  ticks w' = ticks w /\ prints false w w' /\
  ((format_type <> "tiff" /\ r = Ok tt /\ fs w' = fs w) \/
   (format_type = "tiff" /\ (exists e, r = Raise e) /\ fs w' = fs w) \/
   (format_type = "tiff" /\ r = Ok tt /\
    stat (fs w) (parent out) = Some Dir /\
    fs w' = <[out := File (Tiff (tiff_of rgb tags))]> (fs w))).
Proof.
  unfold save, imwrite. intros H.
  destruct (String.eqb_spec format_type "tiff") as [->|Hne];
    run_M; split_and!; try show_printed; eauto 10.
Qed.

Lemma verify_spec (out : Path) (w w' : World) (r : result bool) :
  verify ext out w = (w', r) ->
  fs w' = fs w /\ ticks w' = ticks w /\ r = Ok (exists_ (fs w) out) /\
  prints (exists_ (fs w) out) w w'.
Proof.
  unfold verify. intros H.
  destruct (exists_ (fs w) out) eqn:Hex; run_M; split_and!;
    try reflexivity; unfold prints; rewrite <- ?app_assoc; eexists;
    (split; [reflexivity|]); (split; [cbn; set_solver|]);
    first [discriminate | intros _; repeat constructor].
Qed.

(** What the body of the [try] block does to the file system: it fails
    and leaves it alone; or the format is not ['tiff'], nothing is
    written and the verdict is whether the output path exists already; or
    the TIFF is written, with the normalised pixels and the tags of the
    moment, and the verdict is a success. *)
Lemma convert_body_spec (x out : Path) (format_type : string)
  (w w' : World) (r : result bool) :
  convert_body ext x out format_type w = (w', r) ->
  prints (bool_decide (r = Ok true)) w w' /\
  (((exists e, r = Raise e) /\ fs w' = fs w) \/
   (format_type <> "tiff" /\ fs w' = fs w /\
    r = Ok (exists_ (fs w) out)) \/
   (format_type = "tiff" /\ r = Ok true /\
    stat (fs w) (parent out) = Some Dir /\
    exists raw rgb0 rgb,
      imread ext (fs w) x = Ok raw /\ raw foveon_params = Ok rgb0 /\
      normalize (promo ext) rgb0 = Ok rgb /\
      fs w' = <[out := File (Tiff (tiff_of rgb
                                     (tiff_tags (clock ext (ticks w)))))]>
                (fs w))).
Proof.
  unfold convert_body. intros H.
  destruct (decode ext x w) as [w1 r1] eqn:Hdec.
  destruct (decode_spec _ _ _ _ Hdec) as (Hfs1 & Ht1 & Hp1 & _ & Hraw).
  unfold mbind at 1, M_bind at 1, bind at 1 in H. rewrite Hdec in H.
  destruct r1 as [rgb0|e];
    [|simplify_eq; split; [exact Hp1 | left; eauto]].
  destruct (Hraw rgb0 eq_refl) as (raw & Hread & Hpost).
  unfold mbind at 1, M_bind at 1, bind at 1, lift at 1 in H.
  destruct (normalize (promo ext) rgb0) as [rgb|e] eqn:Hnorm;
    [|simplify_eq; split; [exact Hp1 | left; eauto]].
  unfold mbind at 1, M_bind at 1, bind at 1, Converter.now at 1 in H.
  unfold mbind at 1, M_bind at 1, bind at 1 in H.
  match type of H with
  | context [save ext out format_type rgb ?tags ?w2] =>
      destruct (save ext out format_type rgb tags w2) as [w3 r3] eqn:Hsave;
      assert (prints false w w2) as Hp2
        by (destruct Hp1 as (ls & ? & ? & ?); exists ls; auto)
  end.
  destruct (save_spec _ _ _ _ _ _ _ Hsave) as (Ht3 & Hp3 & Hcases).
  pose proof (prints_trans _ _ _ _ _ Hp2 Hp3) as Hp23.
  cbn [fs stdout ticks orb] in *.
  destruct r3 as [[]|e].
  - destruct (verify_spec _ _ _ _ H) as (Hfs' & Ht' & -> & Hp').
    pose proof (prints_trans _ _ _ _ _ Hp23 Hp') as Hp. cbn [orb] in Hp.
    destruct Hcases as [(Hne & _ & Hfs3)|[(_ & [e He] & _)|(-> & _ & Hpar & Hfs3)]].
    + split.
      { destruct (exists_ (fs w3) out); exact Hp. }
      right. left. rewrite Hfs', Hfs3, Hfs1. auto.
    + discriminate.
    + rewrite Hfs1 in *.
      assert (exists_ (fs w3) out = true) as Hex.
      { rewrite Hfs3. unfold exists_, stat.
        destruct out; [reflexivity|]. now rewrite lookup_insert_eq. }
      rewrite Hex in *. split; [exact Hp|].
      right. right. split_and!; try reflexivity; try assumption.
      exists raw, rgb0, rgb. rewrite Hfs', Hfs3, Ht1. auto.
  - simplify_eq. split; [exact Hp23|].
    left. split; [eauto|].
    destruct Hcases as [(_ & ? & _)|[(_ & _ & Hfs3)|(_ & ? & _)]];
      try discriminate. now rewrite Hfs3.
Qed.

End Steps.

(** ** The file system and [mkdir] *)

Section FileSystemFacts.
Context (fault : gmap Path (node content) -> Path -> option exn).
Implicit Types (fs : gmap Path (node content)) (p q : Path).

Lemma prefix_snoc_inv p q (a : string) :
  q `prefix_of` p ++ [a] -> q = p ++ [a] \/ q `prefix_of` p.
Proof.
  intros [k Hk]. destruct k as [|b k _] using rev_ind.
  - left. now rewrite app_nil_r in Hk.
  - right. rewrite app_assoc in Hk. apply app_inj_tail in Hk as [-> _].
    now exists k.
Qed.

Lemma parent_snoc p (a : string) : parent (p ++ [a]) = p.
Proof. unfold parent. apply removelast_last. Qed.

Lemma parent_fixed p : parent p = p -> p = [].
Proof.
  destruct p as [|a p _] using rev_ind; [reflexivity|].
  rewrite parent_snoc. intros H. apply (f_equal List.length) in H.
  rewrite length_app in H. cbn in H. lia.
Qed.

Lemma is_dir_exists fs p : is_dir fs p = true -> exists_ fs p = true.
Proof. unfold is_dir, exists_. now destruct (stat fs p) as [[]|]. Qed.

Lemma stat_insert_ne fs p q (n : node content) :
  p <> q -> stat (<[p := n]> fs) q = stat fs q.
Proof.
  intros Hne. unfold stat. destruct q; [reflexivity|].
  now rewrite lookup_insert_ne.
Qed.

Lemma is_dir_insert_Dir fs p q :
  is_dir fs q = true -> is_dir (<[p := Dir]> fs) q = true.
Proof.
  unfold is_dir, stat. destruct q as [|a q]; [reflexivity|].
  destruct (decide (p = a :: q)) as [->|Hne].
  - now rewrite lookup_insert_eq.
  - now rewrite lookup_insert_ne.
Qed.

Lemma is_dir_insert_eq fs p : is_dir (<[p := Dir]> fs) p = true.
Proof.
  unfold is_dir, stat. destruct p; [reflexivity|]. now rewrite lookup_insert_eq.
Qed.

Lemma is_dir_insert_ne fs p q (n : node content) :
  p <> q -> is_dir (<[p := n]> fs) q = is_dir fs q.
Proof. intros Hne. unfold is_dir. now rewrite stat_insert_ne. Qed.

(** In a well-formed file system the ancestors of a directory are
    directories. *)
Lemma fs_wf_ancestors fs :
  fs_wf fs -> forall p q, is_dir fs p = true -> q `prefix_of` p ->
                          is_dir fs q = true.
Proof.
  intros Hwf p. induction p as [|a p IH] using rev_ind; intros q Hp Hq.
  - apply prefix_nil_inv in Hq as ->. reflexivity.
  - apply prefix_snoc_inv in Hq as [->|Hq]; [exact Hp|].
    apply IH; [|exact Hq].
    specialize (Hwf (p ++ [a])). rewrite parent_snoc in Hwf. apply Hwf.
    unfold is_dir, stat in Hp. destruct (p ++ [a]) eqn:E.
    + now destruct p.
    + destruct (fs !! (s :: l)); [eauto | discriminate].
Qed.

Lemma fs_wf_insert_Dir fs p :
  fs_wf fs -> is_dir fs (parent p) = true -> fs_wf (<[p := Dir]> fs).
Proof.
  intros Hwf Hpar q Hq. apply is_dir_insert_Dir.
  destruct (decide (p = q)) as [<-|Hne]; [exact Hpar|].
  rewrite lookup_insert_ne in Hq by exact Hne. now apply Hwf.
Qed.

(** The outcomes of [os.mkdir]: the path is in the way; or it is absent
    and the call fails for another reason; or the directory is made. *)
Lemma os_mkdir_cases p fs fs' (r : result unit) :
  os_mkdir fault p fs = (fs', r) ->
  (r = Raise FileExistsError /\ fs' = fs /\ exists_ fs p = true) \/
  (exists e, r = Raise e /\ fs' = fs /\ exists_ fs p = false /\
             is_dir fs p = false) \/
  (r = Ok tt /\ fs' = <[p := Dir]> fs /\ exists_ fs p = false /\
   is_dir fs (parent p) = true).
Proof.
  unfold os_mkdir. intros H.
  destruct (exists_ fs p) eqn:Hex; [simplify_eq; auto|].
  assert (is_dir fs p = false) as Hnd.
  { unfold is_dir, exists_ in *. now destruct (stat fs p). }
  unfold is_dir.
  destruct (stat fs (parent p)) as [[|c]|] eqn:Hpar; simplify_eq; eauto 10.
  destruct (fault fs p); simplify_eq; eauto 10.
Qed.

(** The [except OSError] clause of [Path.mkdir] lets an error pass only
    for a directory that is there. *)
Lemma mkdir_handler_ok p fs fs' (e : exn) :
  (if is_OSError e
   then fs0 ← get;
        if (negb true || negb (is_dir fs0 p))%bool then raise e else mret tt
   else raise e) fs = (fs', Ok tt) ->
  fs' = fs /\ is_dir fs p = true.
Proof.
  intros H. destruct (is_OSError e); [|discriminate].
  unfold_M. destruct (is_dir fs p) eqn:Hd; cbn in H; simplify_eq. auto.
Qed.

(** Making a directory that is there already changes nothing. *)
Lemma mkdir_existing fs p :
  is_dir fs p = true -> mkdir fault p true true fs = (fs, Ok tt).
Proof.
  intros Hd. pose proof (is_dir_exists _ _ Hd) as Hex.
  unfold mkdir. destruct (List.length p);
    cbn [mkdir_rec]; unfold try_except, os_mkdir; rewrite Hex; cbn;
    unfold_M; rewrite Hd; reflexivity.
Qed.

(** A successful [mkdir] with [parents=True] leaves the directory and
    all its ancestors in place, keeps what was there, and adds
    directories only. *)
Lemma mkdir_rec_ok (depth : nat) :
  forall p fs fs',
    fs_wf fs -> (List.length p <= depth)%nat ->
    mkdir_rec fault depth p true true fs = (fs', Ok tt) ->
    fs_wf fs' /\
    (forall q, q `prefix_of` p -> is_dir fs' q = true) /\
    (forall q n, fs !! q = Some n -> fs' !! q = Some n) /\
    (forall q, fs !! q = None -> fs' !! q = None \/
                                 (fs' !! q = Some Dir /\ q `prefix_of` p)).
Proof.
  induction depth as [|d IH]; intros p fs fs' Hwf Hlen H.
  - (* the root *)
    destruct p; [|cbn in Hlen; lia].
    cbn in H. unfold_M. cbn in H. simplify_eq.
    split_and!; auto.
    intros q Hq. apply prefix_nil_inv in Hq as ->. reflexivity.
  - cbn [mkdir_rec] in H. unfold try_except at 1 in H.
    destruct (os_mkdir fault p fs) as [fs1 r1] eqn:Hos.
    apply os_mkdir_cases in Hos
      as [(-> & -> & Hex)|[(e & -> & -> & Hex & Hnd)|(-> & -> & Hex & Hpar)]].
    + (* the path exists *)
      cbn [is_FileNotFoundError] in H.
      apply mkdir_handler_ok in H as [-> Hd].
      split_and!; auto. intros q Hq. eapply fs_wf_ancestors; eauto.
    + (* the path is absent and cannot be made at once *)
      destruct (is_FileNotFoundError e);
        [|apply mkdir_handler_ok in H as [_ Hd]; congruence].
      cbn [negb orb] in H. case_bool_decide as Hroot.
      { apply parent_fixed in Hroot as ->. discriminate. }
      destruct p as [|a p _] using rev_ind; [discriminate|].
      rewrite parent_snoc in H.
      unfold mbind at 1, M_bind at 1, bind at 1 in H.
      destruct (mkdir_rec fault d p true true fs) as [fs1 [[]|e1]] eqn:Hrec;
        [|simplify_eq].
      apply IH in Hrec as (Hwf1 & Hdirs1 & Hkeep1 & Hnew1);
        [|exact Hwf|rewrite length_app in Hlen; cbn in Hlen; lia].
      unfold try_except in H.
      destruct (os_mkdir fault (p ++ [a]) fs1) as [fs2 r2] eqn:Hos2.
      apply os_mkdir_cases in Hos2
        as [(-> & -> & Hex2)|[(e2 & -> & -> & Hex2 & Hnd2)|(-> & -> & Hex2 & Hpar2)]].
      * cbn [is_FileNotFoundError] in H.
        apply mkdir_handler_ok in H as [-> Hd2].
        split_and!; auto.
        -- intros q Hq. apply prefix_snoc_inv in Hq as [->|Hq]; auto.
        -- intros q Hq. destruct (Hnew1 q Hq) as [?|[? ?]]; auto.
           right. split; [assumption|]. now apply prefix_app_r.
      * destruct (is_FileNotFoundError e2); [discriminate|].
        apply mkdir_handler_ok in H as [_ Hd2]. congruence.
      * simplify_eq. rewrite parent_snoc in Hpar2.
        split_and!.
        -- apply fs_wf_insert_Dir; [exact Hwf1|]. now rewrite parent_snoc.
        -- intros q Hq. apply prefix_snoc_inv in Hq as [->|Hq].
           ++ apply is_dir_insert_eq.
           ++ apply is_dir_insert_Dir. auto.
        -- intros q n Hq. destruct (decide (p ++ [a] = q)) as [<-|Hne].
           ++ exfalso. unfold exists_, stat in Hex.
              destruct (p ++ [a]) eqn:E; [discriminate|].
              now rewrite Hq in Hex.
           ++ rewrite lookup_insert_ne by exact Hne. auto.
        -- intros q Hq. destruct (decide (p ++ [a] = q)) as [<-|Hne].
           ++ right. now rewrite lookup_insert_eq.
           ++ rewrite lookup_insert_ne by exact Hne.
              destruct (Hnew1 q Hq) as [?|[? ?]]; auto.
              right. split; [assumption|]. now apply prefix_app_r.
    + (* created *)
      simplify_eq. split_and!.
      * now apply fs_wf_insert_Dir.
      * intros q Hq. destruct p as [|a p _] using rev_ind.
        { apply prefix_nil_inv in Hq as ->. reflexivity. }
        rewrite parent_snoc in Hpar.
        apply prefix_snoc_inv in Hq as [->|Hq].
        -- apply is_dir_insert_eq.
        -- apply is_dir_insert_Dir. eapply fs_wf_ancestors; eauto.
      * intros q n Hq. destruct (decide (p = q)) as [<-|Hne].
        -- exfalso. unfold exists_, stat in Hex.
           destruct p; [discriminate|]. now rewrite Hq in Hex.
        -- now rewrite lookup_insert_ne.
      * intros q Hq. destruct (decide (p = q)) as [<-|Hne].
        -- right. now rewrite lookup_insert_eq.
        -- left. now rewrite lookup_insert_ne.
Qed.

(** Whatever the file system, a successful [mkdir] leaves a directory. *)
Lemma mkdir_ok_is_dir p fs fs' :
  mkdir fault p true true fs = (fs', Ok tt) -> is_dir fs' p = true.
Proof.
  assert (forall fs0 fs0', os_mkdir fault p fs0 = (fs0', Ok tt) ->
                           is_dir fs0' p = true) as Hos.
  { intros fs0 fs0' H.
    apply os_mkdir_cases in H as [(? & _)|[(? & ? & _)|(_ & -> & _)]];
      try discriminate.
    apply is_dir_insert_eq. }
  unfold mkdir. generalize (List.length p). intros depth H.
  destruct depth as [|d]; cbn [mkdir_rec] in H; unfold try_except at 1 in H.
  - destruct (os_mkdir fault p fs) as [fs1 [[]|e]] eqn:E; [simplify_eq; eauto|].
    destruct (is_FileNotFoundError e);
      [|apply mkdir_handler_ok in H as [-> Hd]; exact Hd].
    destruct (negb true || bool_decide (parent p = p))%bool; discriminate.
  - destruct (os_mkdir fault p fs) as [fs1 [[]|e]] eqn:E; [simplify_eq; eauto|].
    destruct (is_FileNotFoundError e);
      [|apply mkdir_handler_ok in H as [-> Hd]; exact Hd].
    destruct (negb true || bool_decide (parent p = p))%bool; [discriminate|].
    unfold mbind at 1, M_bind at 1, bind at 1 in H.
    destruct (mkdir_rec fault d (parent p) true true fs1) as [fs2 [[]|e2]];
      [|discriminate].
    unfold try_except in H.
    destruct (os_mkdir fault p fs2) as [fs3 [[]|e3]] eqn:E3;
      [simplify_eq; eauto|].
    destruct (is_FileNotFoundError e3); [discriminate|].
    apply mkdir_handler_ok in H as [-> Hd]. exact Hd.
Qed.

(** The result of [mkdir] does not depend on the bound of the recursion
    once the bound is the length of the path. *)
Lemma mkdir_rec_depth (d1 : nat) :
  forall d2 p parents exist_ok fs,
    (List.length p <= d1)%nat -> (List.length p <= d2)%nat ->
    mkdir_rec fault d1 p parents exist_ok fs
    = mkdir_rec fault d2 p parents exist_ok fs.
Proof.
  induction d1 as [|d1 IH]; intros d2 p parents exist_ok fs H1 H2.
  - destruct p; [|cbn in H1; lia].
    destruct d2; cbn [mkdir_rec]; unfold try_except, os_mkdir; cbn;
      reflexivity.
  - destruct d2 as [|d2].
    + destruct p; [|cbn in H2; lia].
      cbn [mkdir_rec]; unfold try_except, os_mkdir; cbn; reflexivity.
    + cbn [mkdir_rec]. unfold try_except at 1 3.
      destruct (os_mkdir fault p fs) as [fs1 [[]|e]]; [reflexivity|].
      destruct (is_FileNotFoundError e); [|reflexivity].
      destruct (negb parents || bool_decide (parent p = p))%bool eqn:E;
        [reflexivity|].
      apply orb_false_iff in E as [_ E]. apply bool_decide_eq_false in E.
      destruct p as [|a p _] using rev_ind; [now contradiction E|].
      rewrite parent_snoc. rewrite length_app in H1, H2. cbn in H1, H2.
      unfold mbind, M_bind, bind.
      rewrite (IH d2 p true true fs1) by lia. reflexivity.
Qed.

End FileSystemFacts.

(** ** Conversions *)

Section Conversion.
Context (ext : Externals).

Lemma resolve_output_dir_spec (x : Path) (out : option string)
  (w w1 : World) (r : result Path) :
  resolve_output_dir ext x out w = (w1, r) ->
  stdout w1 = stdout w /\ ticks w1 = ticks w /\
  match out with
  | None => fs w1 = fs w /\ r = Ok (parent x)
  | Some d =>
      exists rm, mkdir (mkdir_fault ext) (of_str d) true true (fs w)
                 = (fs w1, rm) /\
                 r = match rm with Ok _ => Ok (of_str d) | Raise e => Raise e end
  end.
Proof.
  unfold resolve_output_dir. destruct out as [d|]; intros H.
  - unfold_M.
    destruct (mkdir (mkdir_fault ext) (of_str d) true true (fs w))
      as [fs1 [[]|e]];
      simplify_eq; cbn; eauto.
  - unfold_M. simplify_eq. auto.
Qed.

(** With the decoder at hand, a conversion is the resolution of the
    output directory followed by the guarded body. *)
Lemma convert_available (self : PhotoshopCompatibleConverter)
  (x : string) (out : option string) (format_type : string) (w : World) :
  rawpy_available self = true ->
  convert_x3f_for_photoshop ext self x out format_type w =
  match resolve_output_dir ext (of_str x) out w with
  | (w1, Ok dir) =>
      try_except
        (convert_body ext (of_str x)
           (output_path_for dir (of_str x) format_type) format_type)
        conversion_failed w1
  | (w1, Raise e) => (w1, Raise e)
  end.
Proof.
  intros Ha. unfold convert_x3f_for_photoshop. rewrite Ha. cbn [negb].
  unfold mbind at 1, M_bind at 1, bind at 1.
  now destruct (resolve_output_dir ext (of_str x) out w) as [w1 [dir|e]].
Qed.

Lemma convert_without_decoder
  (self : PhotoshopCompatibleConverter) (x3f_path : string)
  (output_dir : option string) (format_type : string) (w : World) :
  rawpy_available self = false ->
  convert_x3f_for_photoshop ext self x3f_path output_dir format_type w =
  ({| fs := fs w; stdout := stdout w ++ [RawpyNotFound]; ticks := ticks w |},
   Ok false).
Proof.
  intros Ha. unfold convert_x3f_for_photoshop. rewrite Ha. reflexivity.
Qed.

Lemma guarded_body_spec (x out : Path) (format_type : string)
  (w w' : World) (r : result bool) :
  try_except (convert_body ext x out format_type) conversion_failed w
  = (w', r) ->
  prints (bool_decide (r = Ok true)) w w' /\
  ((r = Ok false /\ fs w' = fs w /\
    exists w0 e, convert_body ext x out format_type w = (w0, Raise e)) \/
   (format_type <> "tiff" /\ fs w' = fs w /\
    r = Ok (exists_ (fs w) out)) \/
   (format_type = "tiff" /\ r = Ok true /\
    stat (fs w) (parent out) = Some Dir /\
    exists raw rgb0 rgb,
      imread ext (fs w) x = Ok raw /\ raw foveon_params = Ok rgb0 /\
      normalize (promo ext) rgb0 = Ok rgb /\
      fs w' = <[out := File (Tiff (tiff_of rgb
                                     (tiff_tags (clock ext (ticks w)))))]>
                (fs w))).
Proof.
  unfold try_except. intros H.
  destruct (convert_body ext x out format_type w) as [w0 r0] eqn:Hbody.
  destruct (convert_body_spec _ _ _ _ _ _ _ Hbody)
    as [Hp [[[e ->] Hfs]|[(Hne & Hfs & ->)|(-> & -> & Hrest)]]].
  - unfold conversion_failed in H. unfold_M. simplify_eq.
    cbn [fs stdout ticks]. split.
    + rewrite bool_decide_eq_false_2 in * by discriminate.
      destruct Hp as (ls & Hls & Hn & Hq).
      exists (ls ++ [ConversionFailed e]). rewrite Hls, <- app_assoc.
      split; [reflexivity|]. split; [set_solver|].
      intros _. apply Forall_app. split; [auto | repeat constructor].
    + left. eauto.
  - simplify_eq. split; [exact Hp|]. right. left. auto.
  - simplify_eq. split; [exact Hp|]. right. right. auto.
Qed.

(** The result of a conversion is a verdict unless the output directory
    could not be made; what it prints depends on the verdict. *)
Lemma convert_prints (self : PhotoshopCompatibleConverter)
  (x : string) (out : option string) (format_type : string)
  (w w' : World) (r : result bool) :
  convert_x3f_for_photoshop ext self x out format_type w = (w', r) ->
  exists ls, stdout w' = stdout w ++ ls /\
             (rawpy_available self = true -> RawpyNotFound ∉ ls) /\
             (r <> Ok true -> Forall (fun l => verdict_line l = false) ls).
Proof.
  destruct (rawpy_available self) eqn:Ha.
  - rewrite convert_available by exact Ha.
    destruct (resolve_output_dir ext (of_str x) out w) as [w1 r1] eqn:Hres.
    apply resolve_output_dir_spec in Hres as (Hout & _ & _).
    destruct r1 as [dir|e].
    + intros H. apply guarded_body_spec in H as [(ls & Hls & Hn & Hq) _].
      exists ls. rewrite <- Hout. split; [exact Hls|]. split; [auto|].
      intros Hr. apply Hq. now apply bool_decide_eq_false_2.
    + intros [= <- <-]. exists []. rewrite app_nil_r.
      split; [auto|]. split; [set_solver | constructor].
  - intros H. rewrite convert_without_decoder in H by exact Ha.
    simplify_eq. cbn. eexists. split; [reflexivity|].
    split; [discriminate | repeat constructor].
Qed.

End Conversion.

Lemma output_path_for_child (dir x : Path) (format_type : string) :
  exists s, output_path_for dir x format_type = dir ++ [s].
Proof.
  unfold output_path_for, truediv.
  destruct (String.eqb format_type "tiff"); [eauto|].
  destruct (String.eqb format_type "psd"); eauto.
Qed.

Lemma prefix_not_child (p q : Path) (s : string) :
  q `prefix_of` p -> p ++ [s] <> q.
Proof.
  intros Hq <-. apply prefix_length in Hq. rewrite length_app in Hq.
  cbn in Hq. lia.
Qed.

Section Verdicts.
Context (ext : Externals).

Lemma decode_error_fails (x out : Path) (format_type : string)
  (w w' : World) (r : result bool) (e : exn) :
  imread ext (fs w) x = Raise e ->
  convert_body ext x out format_type w = (w', r) -> r = Raise e.
Proof.
  intros Hraise. unfold convert_body, mbind at 1, M_bind at 1, bind at 1.
  destruct (decode ext x w) as [w1 r1] eqn:Hdec.
  apply decode_spec in Hdec as (_ & _ & _ & Hr & _).
  rewrite (Hr e Hraise). now intros [= _ <-].
Qed.

(** A request whose output directory can be made ends with a verdict, a
    failure if the decoder refuses the file, and leaves the directory in
    place for the next request. *)
Lemma convert_returns (self : PhotoshopCompatibleConverter)
  (x : string) (out : option string) (format_type : string) (w : World) :
  output_dir_creatable ext out (fs w) ->
  exists w' b,
    convert_x3f_for_photoshop ext self x out format_type w = (w', Ok b) /\
    output_dir_creatable ext out (fs w') /\
    (undecodable ext x -> b = false).
Proof.
  intros Hc. destruct (rawpy_available self) eqn:Ha.
  2:{ rewrite convert_without_decoder by exact Ha.
      eexists _, _. split; [reflexivity|]. auto. }
  rewrite convert_available by exact Ha.
  destruct (resolve_output_dir ext (of_str x) out w) as [w1 r1] eqn:Hres.
  apply resolve_output_dir_spec in Hres as (_ & _ & Hout).
  assert (exists dir, r1 = Ok dir /\
                      match out with
                      | Some d => dir = of_str d /\ is_dir (fs w1) dir = true
                      | None => True
                      end)
    as (dir & -> & Hdir).
  { destruct out as [d|]; cbn in *.
    - destruct Hc as [fs1 Hmk]. destruct Hout as (rm & Hmk' & ->).
      rewrite Hmk in Hmk'. injection Hmk' as -> <-.
      exists (of_str d). split_and!; try reflexivity.
      eapply mkdir_ok_is_dir; eauto.
    - destruct Hout as [_ ->]. eauto. }
  assert (forall w', (fs w' = fs w1 \/
                      exists s n, fs w' = <[dir ++ [s] := n]> (fs w1)) ->
                     output_dir_creatable ext out (fs w')) as Hkeep.
  { intros w' Hfs. destruct out as [d|]; [|exact I].
    destruct Hdir as [-> Hd]. exists (fs w'). apply mkdir_existing.
    destruct Hfs as [->|(s & n & ->)]; [exact Hd|].
    rewrite is_dir_insert_ne; [exact Hd|].
    intros Heq. apply (f_equal List.length) in Heq.
    rewrite length_app in Heq. cbn in Heq. lia. }
  destruct (try_except _ _ w1) as [w' r] eqn:Hrun.
  pose proof Hrun as Hspec.
  apply guarded_body_spec in Hspec
    as [_ [(-> & Hfs & _)
          |[(_ & Hfs & ->)
           |(_ & -> & _ & raw & rgb0 & rgb & Hread & _ & _ & Hfs)]]].
  - exists w', false. auto.
  - eexists w', _. split; [reflexivity|]. split; [auto|].
    intros Hun. destruct (Hun (fs w1)) as [e He].
    unfold try_except in Hrun.
    destruct (convert_body ext _ _ _ w1) as [w0 r0] eqn:Hbody.
    rewrite (decode_error_fails _ _ _ _ _ _ _ He Hbody) in Hrun.
    unfold conversion_failed in Hrun. unfold_M. now simplify_eq.
  - exists w', true. split; [reflexivity|]. split.
    + apply Hkeep. right.
      destruct (output_path_for_child dir (of_str x) format_type) as [s Hs].
      rewrite Hs in Hfs. eauto.
    + intros Hun. destruct (Hun (fs w1)) as [e He]. congruence.
Qed.

End Verdicts.

(** C6. When the flag [rawpy_available] is false, a conversion request
    returns [False] at once: it prints the line "Error: rawpy not found"
    and leaves the file system as it was, so that no output directory is
    made and no output file is written. *)
Theorem no_decoder_no_filesystem_access (ext : Externals)
  (self : PhotoshopCompatibleConverter) (x3f_path : string)
  (output_dir : option string) (format_type : string) (w : World) :
  rawpy_available self = false ->
  convert_x3f_for_photoshop ext self x3f_path output_dir format_type w =
  ({| fs := fs w; stdout := stdout w ++ [RawpyNotFound]; ticks := ticks w |},
   Ok false).
Proof.
  intros Ha. unfold convert_x3f_for_photoshop. rewrite Ha. reflexivity.
Qed.

(** A request for a new output directory, with the flag down. *)
Lemma no_decoder_no_filesystem_access_witness :
  convert_x3f_for_photoshop Demo.libraries {| rawpy_available := false |}
    "/shots/a.x3f" (Some "/new/dir") "tiff" Demo.world =
  ({| fs := Demo.disk; stdout := [RawpyNotFound]; ticks := 0 |}, Ok false).
Proof.
  apply (no_decoder_no_filesystem_access Demo.libraries
           {| rawpy_available := false |} "/shots/a.x3f" (Some "/new/dir")
           "tiff" Demo.world).
  reflexivity.
Defined.

(** C9. A failed conversion is not undone on the disk. For a request
    with an output directory [d] and the decoder at hand, on a
    well-formed file system: whenever the request comes to a verdict
    (success or failure), the directory [d] was made first, together with
    its missing parents, the decoding and the rest of the guarded body
    ran in the file system that holds them, and [d] and all its ancestors
    are directories in the final file system, also when the verdict is a
    failure. (The request has no verdict only when [d] cannot be made:
    the exception of [mkdir] then leaves the method.) *)
Theorem output_directory_outlives_failure (ext : Externals)
  (self : PhotoshopCompatibleConverter) (x3f_path d format_type : string)
  (w w' : World) (verdict : bool) :
  rawpy_available self = true ->
  fs_wf (fs w) ->
  convert_x3f_for_photoshop ext self x3f_path (Some d) format_type w
  = (w', Ok verdict) ->
  exists fs1,
    mkdir (mkdir_fault ext) (of_str d) true true (fs w) = (fs1, Ok tt) /\
    (forall q, q `prefix_of` of_str d -> is_dir fs1 q = true) /\
    try_except
      (convert_body ext (of_str x3f_path)
         (output_path_for (of_str d) (of_str x3f_path) format_type)
         format_type)
      conversion_failed
      {| fs := fs1; stdout := stdout w; ticks := ticks w |}
    = (w', Ok verdict) /\
    (forall q, q `prefix_of` of_str d -> is_dir (fs w') q = true).
Proof.
  intros Ha Hwf H. rewrite convert_available in H by exact Ha.
  destruct (resolve_output_dir ext (of_str x3f_path) (Some d) w) as [w1 r1] eqn:Hres.
  apply resolve_output_dir_spec in Hres as (Hout & Hticks & rm & Hmk & ->).
  destruct rm as [[]|e]; [|discriminate].
  exists (fs w1).
  pose proof Hmk as Hdirs. unfold mkdir in Hdirs.
  apply mkdir_rec_ok in Hdirs as (_ & Hdirs & _); [|exact Hwf|lia].
  assert (w1 = {| fs := fs w1; stdout := stdout w; ticks := ticks w |}) as Hw1.
  { destruct w1; cbn in *; congruence. }
  rewrite <- Hw1. split_and!; try assumption.
  intros q Hq.
  apply guarded_body_spec in H
    as [_ [(_ & -> & _)|[(_ & -> & _)|(_ & _ & _ & raw & rgb0 & rgb & _ & _ & _ & ->)]]];
    auto.
  destruct (output_path_for_child (of_str d) (of_str x3f_path) format_type)
    as [s ->].
  rewrite is_dir_insert_ne by now apply prefix_not_child.
  auto.
Qed.

Lemma fs_wf_checked (fs : gmap Path (node content)) :
  map_Forall (fun p _ => is_dir fs (parent p) = true) fs -> fs_wf fs.
Proof. intros H p [n Hp]. exact (H p n Hp). Qed.

Lemma demo_disk_wf : fs_wf Demo.disk.
Proof.
  apply fs_wf_checked, map_Forall_to_list.
  vm_compute. repeat constructor.
Defined.

(** The decoder refuses [bad.x3f]; the new directory [/new/dir] is there
    all the same. *)
Lemma output_directory_outlives_failure_witness :
  snd (convert_x3f_for_photoshop Demo.libraries Demo.the_converter
         "/shots/bad.x3f" (Some "/new/dir") "tiff" Demo.world) = Ok false /\
  is_dir (fs (fst (convert_x3f_for_photoshop Demo.libraries Demo.the_converter
                     "/shots/bad.x3f" (Some "/new/dir") "tiff" Demo.world)))
         ["new"; "dir"] = true /\
  is_dir Demo.disk ["new"] = false.
Proof.
  split; [vm_compute; reflexivity|]. split; [|vm_compute; reflexivity].
  destruct (convert_x3f_for_photoshop Demo.libraries Demo.the_converter
              "/shots/bad.x3f" (Some "/new/dir") "tiff" Demo.world)
    as [w' r] eqn:Hrun.
  assert (r = Ok false) as ->.
  { apply (f_equal snd) in Hrun. vm_compute in Hrun. congruence. }
  destruct (output_directory_outlives_failure Demo.libraries Demo.the_converter
              "/shots/bad.x3f" "/new/dir" "tiff" Demo.world w' false
              eq_refl demo_disk_wf Hrun) as (fs1 & _ & _ & _ & Hdirs).
  apply Hdirs. reflexivity.
Defined.

Lemma convert_body_readback (ext : Externals)
  (rb : gmap Path (node content) -> Path -> result (list nat * dtype))
  (x out : Path) (format_type : string) (w : World) :
  snd (convert_body (with_readback ext rb) x out format_type w)
  = snd (convert_body ext x out format_type w) /\
  fs (fst (convert_body (with_readback ext rb) x out format_type w))
  = fs (fst (convert_body ext x out format_type w)).
Proof.
  unfold convert_body.
  change (decode (with_readback ext rb)) with (decode ext).
  change (promo (with_readback ext rb)) with (promo ext).
  change (Converter.now (with_readback ext rb)) with (Converter.now ext).
  change (save (with_readback ext rb)) with (save ext).
  unfold mbind, M_bind, bind, lift.
  destruct (decode ext x w) as [w1 [rgb0|e]]; [|auto].
  destruct (normalize (promo ext) rgb0) as [rgb|e]; [|auto].
  destruct (Converter.now ext w1) as [w2 [t|e]]; [|auto].
  destruct (save ext out format_type rgb (tiff_tags t) w2) as [w3 [[]|e]];
    [|auto].
  destruct (verify (with_readback ext rb) out w3) as [wa ra] eqn:Ha.
  destruct (verify ext out w3) as [wb rb'] eqn:Hb.
  cbn [fst snd].
  apply verify_spec in Ha as (Ha1 & _ & Ha2 & _).
  apply verify_spec in Hb as (Hb1 & _ & Hb2 & _).
  split; congruence.
Qed.

(** C5. The check after the write is a diagnosis only. The verdict and
    the file system of a conversion do not depend on what reading the
    file back gives (a shape, an element type, or an exception): with any
    other outcome [rb] of the readback, the verdict and the files are the
    same. Whenever the output file was found (the line "Created" is
    printed), and whenever the readback raised (the line "Verification
    failed" is printed), the conversion returns [True]. *)
Theorem verification_never_overturns_verdict (ext : Externals)
  (rb : gmap Path (node content) -> Path -> result (list nat * dtype))
  (self : PhotoshopCompatibleConverter) (x3f_path : string)
  (output_dir : option string) (format_type : string) (w : World) :
  let run := convert_x3f_for_photoshop ext self x3f_path output_dir
               format_type w in
  let run' := convert_x3f_for_photoshop (with_readback ext rb) self x3f_path
                output_dir format_type w in
  snd run' = snd run /\ fs (fst run') = fs (fst run) /\
  (forall e, VerificationFailed e ∈ printed w (fst run) -> snd run = Ok true) /\
  (forall n, Created n ∈ printed w (fst run) -> snd run = Ok true).
Proof.
  cbv zeta.
  assert (forall l, verdict_line l = true ->
            l ∈ printed w (fst (convert_x3f_for_photoshop ext self x3f_path
                                  output_dir format_type w)) ->
            snd (convert_x3f_for_photoshop ext self x3f_path output_dir
                   format_type w) = Ok true) as Hloud.
  { intros l Hl Hin.
    destruct (convert_x3f_for_photoshop ext self x3f_path output_dir
                format_type w) as [w' r] eqn:Hrun.
    cbn [fst snd] in *.
    destruct (decide (r = Ok true)) as [->|Hr]; [reflexivity|exfalso].
    apply convert_prints in Hrun as (ls & Hls & _ & Hq).
    unfold printed in Hin. rewrite Hls, drop_app_length in Hin.
    specialize (Hq Hr). rewrite Forall_forall in Hq.
    apply Hq in Hin. congruence. }
  split_and!.
  - destruct (rawpy_available self) eqn:Ha.
    + rewrite !convert_available by exact Ha.
      change (resolve_output_dir (with_readback ext rb))
        with (resolve_output_dir ext).
      destruct (resolve_output_dir ext (of_str x3f_path) output_dir w)
        as [w1 [dir|e]]; [|reflexivity].
      unfold try_except.
      pose proof (convert_body_readback ext rb (of_str x3f_path)
                    (output_path_for dir (of_str x3f_path) format_type)
                    format_type w1) as [Hr _].
      destruct (convert_body (with_readback ext rb) _ _ _ w1) as [wa [ba|ea]];
        destruct (convert_body ext _ _ _ w1) as [wb [bb|eb]];
        cbn in Hr; simplify_eq; reflexivity.
    + now rewrite !convert_without_decoder by exact Ha.
  - destruct (rawpy_available self) eqn:Ha.
    + rewrite !convert_available by exact Ha.
      change (resolve_output_dir (with_readback ext rb))
        with (resolve_output_dir ext).
      destruct (resolve_output_dir ext (of_str x3f_path) output_dir w)
        as [w1 [dir|e]]; [|reflexivity].
      unfold try_except.
      pose proof (convert_body_readback ext rb (of_str x3f_path)
                    (output_path_for dir (of_str x3f_path) format_type)
                    format_type w1) as [Hr Hfs].
      destruct (convert_body (with_readback ext rb) _ _ _ w1) as [wa [ba|ea]];
        destruct (convert_body ext _ _ _ w1) as [wb [bb|eb]];
        cbn in Hr, Hfs; simplify_eq; cbn; exact Hfs.
    + now rewrite !convert_without_decoder by exact Ha.
  - intros e. now apply Hloud.
  - intros n. now apply Hloud.
Qed.

(** In the small world the readback always raises, and the conversion of
    [a.x3f] succeeds. *)
Lemma verification_never_overturns_verdict_witness :
  snd (convert_x3f_for_photoshop Demo.libraries Demo.the_converter
         "/shots/a.x3f" None "tiff" Demo.world) = Ok true.
Proof.
  apply (proj1 (proj2 (proj2
           (verification_never_overturns_verdict Demo.libraries
              (fun _ _ => Ok ([7; 7; 7]%nat, uint8)) Demo.the_converter
              "/shots/a.x3f" None "tiff" Demo.world))) TiffFileError).
  vm_compute. repeat constructor.
Defined.

(** Only the selector ['tiff'] reaches [tifffile.imwrite]: with any
    other selector the file system is as the resolution of the output
    directory left it, and the verdict is a success only if the output
    path exists already. *)
Lemma selector_other_than_tiff_writes_nothing (ext : Externals)
  (self : PhotoshopCompatibleConverter) (x3f_path : string)
  (output_dir : option string) (format_type : string)
  (w w' : World) (r : result bool) :
  rawpy_available self = true -> format_type <> "tiff" ->
  convert_x3f_for_photoshop ext self x3f_path output_dir format_type w
  = (w', r) ->
  fs w' = fs (fst (resolve_output_dir ext (of_str x3f_path) output_dir w)) /\
  (r = Ok true ->
   exists_ (fs w') (output_path_for (output_dir_of x3f_path output_dir)
                      (of_str x3f_path) format_type) = true).
Proof.
  intros Ha Hne H. rewrite convert_available in H by exact Ha.
  destruct (resolve_output_dir ext (of_str x3f_path) output_dir w)
    as [w1 r1] eqn:Hres. cbn [fst].
  apply resolve_output_dir_spec in Hres as (_ & _ & Hout).
  destruct r1 as [dir|e]; [|simplify_eq; split; [reflexivity|discriminate]].
  assert (dir = output_dir_of x3f_path output_dir) as <-.
  { destruct output_dir as [d|]; cbn.
    - destruct Hout as ([[]|e] & _ & [= ->]); reflexivity.
    - destruct Hout as [_ [= ->]]. reflexivity. }
  apply guarded_body_spec in H
    as [_ [(-> & -> & _)|[(_ & -> & ->)|(-> & _)]]].
  - split; [reflexivity|discriminate].
  - split; [reflexivity|]. now intros [= ->].
  - contradiction.
Qed.

(** C1, as amended. No format selector makes the conversion raise an
    error: whenever the output directory can be made, the call comes to a
    verdict. Every selector but ['psd'], unrecognised ones included, names
    the same output file as the default ['tiff'] does (the stem of the
    input with [.tiff]); ['psd'] names the stem with [.psd]. With ['psd']
    the input is decoded and normalised as usual, but nothing is written:
    the file system is as the resolution of the output directory left
    it, and the call returns [True] only if something exists at the
    [.psd] path already. *)
Theorem psd_selector_writes_nothing (ext : Externals)
  (self : PhotoshopCompatibleConverter) (x3f_path : string)
  (output_dir : option string) (format_type : string) (w : World) :
  (output_dir_creatable ext output_dir (fs w) ->
   exists w' verdict,
     convert_x3f_for_photoshop ext self x3f_path output_dir format_type w
     = (w', Ok verdict)) /\
  (format_type <> "psd" ->
   forall dir src, output_path_for dir src format_type
                   = output_path_for dir src "tiff") /\
  (forall dir src, output_path_for dir src "psd"
                   = truediv dir (stem src ++ ".psd")) /\
  (rawpy_available self = true ->
   forall w' r,
     convert_x3f_for_photoshop ext self x3f_path output_dir "psd" w = (w', r) ->
     fs w' = fs (fst (resolve_output_dir ext (of_str x3f_path) output_dir w)) /\
     (r = Ok true ->
      exists_ (fs w') (truediv (output_dir_of x3f_path output_dir)
                         (stem (of_str x3f_path) ++ ".psd")) = true)).
Proof.
  split_and!.
  - intros Hc.
    destruct (convert_returns ext self x3f_path output_dir format_type w Hc)
      as (w' & b & Hrun & _). eauto.
  - intros Hne dir src. unfold output_path_for.
    destruct (String.eqb_spec format_type "tiff") as [->|_]; [reflexivity|].
    destruct (String.eqb_spec format_type "psd") as [->|_];
      [contradiction | reflexivity].
  - reflexivity.
  - intros Ha w' r H.
    now apply (selector_other_than_tiff_writes_nothing ext self x3f_path
                 output_dir "psd" w w' r Ha).
Qed.

(** The selector ['jpeg'] names [a.tiff]; the selector ['psd'] leaves the
    disk as it was. *)
Lemma psd_selector_writes_nothing_witness :
  output_path_for ["shots"] ["shots"; "a.x3f"] "jpeg" = ["shots"; "a.tiff"] /\
  fs (fst (convert_x3f_for_photoshop Demo.libraries Demo.the_converter
             "/shots/a.x3f" (Some "/shots") "psd" Demo.world)) = Demo.disk.
Proof.
  destruct (psd_selector_writes_nothing Demo.libraries Demo.the_converter
              "/shots/a.x3f" (Some "/shots") "jpeg" Demo.world)
    as (_ & Halias & _ & Hpsd).
  split.
  - rewrite Halias by discriminate. reflexivity.
  - destruct (Hpsd eq_refl _ _ (surjective_pairing _)) as [-> _].
    vm_compute. reflexivity.
Defined.

(** C1 fails as stated: on the same input, ['tiff'] writes [a.tiff] and
    returns [True], while ['psd'] and ['jpeg'] write nothing and return
    [False]. *)
Lemma psd_selector_is_no_alias_of_tiff :
  let run := fun format_type =>
    convert_x3f_for_photoshop Demo.libraries Demo.the_converter
      "/shots/a.x3f" None format_type Demo.world in
  snd (run "tiff") = Ok true /\
  (exists t, fs (fst (run "tiff")) !! ["shots"; "a.tiff"] = Some (File (Tiff t))
             /\ pixels t = Demo.pixel) /\
  snd (run "psd") = Ok false /\
  fs (fst (run "psd")) = Demo.disk /\
  Demo.disk !! ["shots"; "a.tiff"] = None /\
  Demo.disk !! ["shots"; "a.psd"] = None /\
  snd (run "jpeg") = Ok false /\
  fs (fst (run "jpeg")) = Demo.disk.
Proof.
  cbv zeta. split_and!; try (vm_compute; reflexivity).
  eexists. split; vm_compute; reflexivity.
Qed.

Lemma import_spec (m : string) (st st' : Interp) (r : result unit) :
  import_ m st = (st', r) ->
  (r = Ok tt /\ m ∈ sys_modules st' /\ sys_modules st ⊆ sys_modules st') \/
  (r = Raise ImportError /\ st' = st).
Proof.
  unfold import_. intros H. repeat case_bool_decide; simplify_eq; cbn;
    [left|left|right]; split_and!; auto; set_solver.
Qed.

Lemma load_module_loads_rawpy (st st' : Interp) :
  load_module st = (st', Ok tt) -> "rawpy" ∈ sys_modules st'.
Proof.
  unfold load_module, mbind, M_bind, bind. intros H.
  repeat match type of H with
  | context [import_ ?m ?s] =>
      let s' := fresh "st" in let r := fresh "r" in let E := fresh "E" in
      destruct (import_ m s) as [s' r] eqn:E;
      apply import_spec in E as [(-> & ? & ?)|(-> & ->)]; [|discriminate]
  end.
  simplify_eq.
  repeat first
    [ assumption
    | match goal with
      | H : ?A ⊆ ?B |- ?x ∈ ?B =>
          apply (elem_of_weaken x A B); [|exact H]; clear H
      end ].
Qed.

Lemma check_rawpy_loaded (st : Interp) :
  "rawpy" ∈ sys_modules st -> _check_rawpy st = (st, Ok true).
Proof.
  intros Hin. unfold _check_rawpy, try_except, mbind, M_bind, bind, import_.
  now rewrite bool_decide_eq_true_2 by exact Hin.
Qed.

(** C7. The branch for the missing decoder cannot be taken. The class
    exists only once the imports at the top of the module succeeded, and
    they include [rawpy]; as long as the loaded modules stay loaded,
    [_check_rawpy] finds [rawpy] among them, whatever was removed from the
    disk in between. So every converter that [__init__] builds has
    [rawpy_available] set, and no conversion with it prints "Error:
    rawpy not found". *)
Theorem rawpy_not_found_is_unreachable (st0 st1 st2 st3 : Interp)
  (c : PhotoshopCompatibleConverter) :
  load_module st0 = (st1, Ok tt) ->
  sys_modules st1 ⊆ sys_modules st2 ->
  Converter.__init__ st2 = (st3, Ok c) ->
  rawpy_available c = true /\
  (forall ext x3f_path output_dir format_type w,
     RawpyNotFound ∉
       printed w (fst (convert_x3f_for_photoshop ext c x3f_path output_dir
                         format_type w))).
Proof.
  intros Hload Hsub Hinit.
  apply load_module_loads_rawpy in Hload.
  assert (rawpy_available c = true) as Ha.
  { unfold Converter.__init__, mbind, M_bind, bind, mret, M_ret, ret in Hinit.
    rewrite check_rawpy_loaded in Hinit
      by (apply (elem_of_weaken _ _ _ Hload Hsub)).
    cbn in Hinit. now simplify_eq. }
  split; [exact Ha|]. intros ext x out ft w.
  destruct (convert_x3f_for_photoshop ext c x out ft w) as [w' r] eqn:Hrun.
  apply convert_prints in Hrun as (ls & Hls & Hn & _).
  unfold printed. cbn [fst]. rewrite Hls, drop_app_length. auto.
Qed.

(** The packages are removed from the disk after the module was loaded;
    the converter built then still has its flag set. *)
Lemma rawpy_not_found_is_unreachable_witness :
  exists st c,
    Converter.__init__ (Demo.uninstalled (fst (load_module Demo.fresh_interpreter)))
    = (st, Ok c) /\ rawpy_available c = true.
Proof.
  destruct (Converter.__init__
              (Demo.uninstalled (fst (load_module Demo.fresh_interpreter))))
    as [st [c|e]] eqn:Hinit.
  - exists st, c. split; [reflexivity|].
    apply (rawpy_not_found_is_unreachable Demo.fresh_interpreter
             (fst (load_module Demo.fresh_interpreter))
             (Demo.uninstalled (fst (load_module Demo.fresh_interpreter)))
             st c).
    + vm_compute. reflexivity.
    + reflexivity.
    + exact Hinit.
  - vm_compute in Hinit. discriminate.
Defined.

Lemma digit_is_digit (n : Z) : is_digit (digit n) = true.
Proof.
  unfold digit. set (k := Z.to_nat (n mod 10)).
  assert (k < 10)%nat as Hk
    by (pose proof (Z.mod_pos_bound n 10); lia).
  clearbody k. do 10 (destruct k as [|k]; [reflexivity|]). lia.
Qed.

Lemma strftime_shape (t : datetime) :
  has_shape "dddd:dd:dd dd:dd:dd" (strftime t) = true.
Proof.
  unfold strftime, pad4, pad2.
  cbv -[digit is_digit Z.div year month day hour minute second].
  now rewrite !digit_is_digit.
Qed.

(** C8. The tags are a function of the time alone. All fields but
    [DateTime] are the literal constants of the table; [DateTime] is the
    clock reading in the format YYYY:MM:DD HH:MM:SS; two tag sets differ
    at most in [DateTime]; and a successful TIFF conversion stores, with
    the pixels, exactly the tags of the clock reading of that conversion,
    so that two conversions with the same reading store identical tag
    sets. *)
Theorem tag_set_is_fixed_but_for_datetime :
  (forall t : datetime,
     tiff_tags t =
     [ ("Software", VStr "X3F Converter for Photoshop");
       ("Make", VStr "SIGMA");
       ("Model", VStr "DP2 Merrill");
       ("DateTime", VStr (strftime t));
       ("Orientation", VInt 1);
       ("XResolution", VTuple [300; 1]);
       ("YResolution", VTuple [300; 1]);
       ("ResolutionUnit", VInt 2);
       ("ColorSpace", VInt 1);
       ("Compression", VInt 1);
       ("PhotometricInterpretation", VInt 2);
       ("SamplesPerPixel", VInt 3);
       ("BitsPerSample", VTuple [16; 16; 16]);
       ("PlanarConfiguration", VInt 1) ] /\
     lookup_tag "DateTime" (tiff_tags t) = Some (VStr (strftime t)) /\
     has_shape "dddd:dd:dd dd:dd:dd" (strftime t) = true) /\
  (forall (t1 t2 : datetime) (key : string),
     key <> "DateTime" ->
     lookup_tag key (tiff_tags t1) = lookup_tag key (tiff_tags t2)) /\
  (forall ext self x3f_path output_dir w w',
     rawpy_available self = true ->
     convert_x3f_for_photoshop ext self x3f_path output_dir "tiff" w
     = (w', Ok true) ->
     exists t : tiff_file,
       fs w' !! output_path_for (output_dir_of x3f_path output_dir)
                  (of_str x3f_path) "tiff" = Some (File (Tiff t)) /\
       metadata t = tiff_tags (clock ext (ticks w))) /\
  (forall t1 t2 : datetime, t1 = t2 -> tiff_tags t1 = tiff_tags t2).
Proof.
  split_and!; [| | |now intros t1 t2 ->].
  - intros t. split_and!; [reflexivity | reflexivity | apply strftime_shape].
  - intros t1 t2 key Hkey. unfold tiff_tags. cbn [lookup_tag].
    repeat (destruct (String.eqb _ key); [reflexivity|]).
    destruct (String.eqb_spec "DateTime" key) as [<-|_]; [contradiction|].
    repeat (destruct (String.eqb _ key); [reflexivity|]). reflexivity.
  - intros ext self x out w w' Ha H.
    rewrite convert_available in H by exact Ha.
    destruct (resolve_output_dir ext (of_str x) out w) as [w1 r1] eqn:Hres.
    apply resolve_output_dir_spec in Hres as (_ & Hticks & Hout).
    destruct r1 as [dir|e]; [|discriminate].
    assert (dir = output_dir_of x out) as <-.
    { destruct out as [d|]; cbn.
      - destruct Hout as ([[]|e] & _ & [= ->]); reflexivity.
      - destruct Hout as [_ [= ->]]. reflexivity. }
    apply guarded_body_spec in H
      as [_ [([= ] & _)|[(Hne & _)|(_ & _ & _ & raw & rgb0 & rgb & _ & _ & _ & ->)]]];
      [contradiction|].
    exists (tiff_of rgb (tiff_tags (clock ext (ticks w1)))).
    rewrite lookup_insert_eq, Hticks. split; reflexivity.
Qed.

(** The tags stored by the conversion of [c.x3f] at the time of the small
    world. *)
Lemma tag_set_is_fixed_but_for_datetime_witness :
  exists t : tiff_file,
    fs (fst (convert_x3f_for_photoshop Demo.libraries Demo.the_converter
               "/shots/c.x3f" (Some "/shots/tiff") "tiff" Demo.world))
    !! ["shots"; "tiff"; "c.tiff"] = Some (File (Tiff t)) /\
    lookup_tag "DateTime" (metadata t) = Some (VStr "2024:03:09 14:05:00") /\
    lookup_tag "Make" (metadata t) = Some (VStr "SIGMA").
Proof.
  destruct (proj1 (proj2 (proj2 tag_set_is_fixed_but_for_datetime))
              Demo.libraries Demo.the_converter "/shots/c.x3f"
              (Some "/shots/tiff") Demo.world
              (fst (convert_x3f_for_photoshop Demo.libraries Demo.the_converter
                      "/shots/c.x3f" (Some "/shots/tiff") "tiff" Demo.world))
              eq_refl) as (t & Ht & Hmeta).
  - vm_compute. reflexivity.
  - exists t. split; [exact Ht|]. rewrite Hmeta.
    split; vm_compute; reflexivity.
Defined.

Section Batch.
Context (ext : Externals).

Lemma log_progress_with_progress (l : progress) (g : X3FConverterGUI) :
  log_progress l g = with_progress [l] g.
Proof. reflexivity. Qed.

Lemma with_progress_app (l1 l2 : list progress) (g : X3FConverterGUI) :
  with_progress l2 (with_progress l1 g) = with_progress (l1 ++ l2) g.
Proof. unfold with_progress. cbn. now rewrite app_assoc. Qed.

(** The loop runs over all the files, whatever the verdicts. *)
Lemma convert_files_spec (format_type : string) (total : nat)
  (files : list string) :
  forall (g : X3FConverterGUI) (w : World) (i successful : nat),
    output_dir_creatable ext (output_directory g) (fs w) ->
    exists w' bs,
      convert_files ext format_type total files i successful (g, w)
      = ((with_progress (batch_log total i files bs) g, w'),
         Ok (successful + successes bs)%nat) /\
      List.length bs = List.length files /\
      Forall2 (fun f b => undecodable ext f -> b = false) files bs /\
      output_dir_creatable ext (output_directory g) (fs w').
Proof.
  induction files as [|f files IH]; intros g w i successful Hc.
  - exists w, []. cbn. unfold with_progress, successes. cbn.
    rewrite app_nil_r, Nat.add_0_r. destruct g; cbn. auto.
  - cbn [convert_files]. unfold_M. cbn.
    destruct (convert_returns ext (converter g) f (output_directory g)
                format_type w Hc) as (w1 & b & Hrun & Hc1 & Hun).
    rewrite Hrun.
    destruct b.
    + destruct (IH (log_progress Converted
                      (log_progress (Processing i total (name (of_str f))) g))
                   w1 (S i) (S successful) Hc1) as (w' & bs & -> & Hlen & Hall & Hc').
      exists w', (true :: bs). split_and!.
      * rewrite !log_progress_with_progress, !with_progress_app.
        f_equal. f_equal. unfold successes. cbn. lia.
      * cbn. now rewrite Hlen.
      * now constructor.
      * exact Hc'.
    + destruct (IH (log_progress NotConverted
                      (log_progress (Processing i total (name (of_str f))) g))
                   w1 (S i) successful Hc1) as (w' & bs & -> & Hlen & Hall & Hc').
      exists w', (false :: bs). split_and!.
      * now rewrite !log_progress_with_progress, !with_progress_app.
      * cbn. now rewrite Hlen.
      * now constructor.
      * exact Hc'.
Qed.


End Batch.




(** * Further properties of the two files *)

(** Strings and names of files *)

Section Strings.

Lemma append_nil_l (b : string) : ("" ++ b)%string = b.
Proof. reflexivity. Qed.

Lemma append_cons (c : ascii) (a b : string) :
  (String c a ++ b)%string = String c (a ++ b).
Proof. reflexivity. Qed.

Lemma string_app_length (a b : string) :
  String.length (a ++ b) = (String.length a + String.length b)%nat.
Proof.
  induction a as [|c a IH]; [reflexivity|].
  rewrite append_cons. cbn [String.length]. now rewrite IH.
Qed.

Lemma substring_all (s : string) : String.substring 0 (String.length s) s = s.
Proof. induction s as [|d s IH]; cbn; [reflexivity|]. now rewrite IH. Qed.

Lemma substring_0_app (a b : string) :
  String.substring 0 (String.length a) (a ++ b) = a.
Proof.
  induction a as [|c a IH]; [now destruct b|].
  rewrite append_cons. cbn. now rewrite IH.
Qed.

Lemma substring_skip_app (a b : string) :
  String.substring (String.length a) (String.length b) (a ++ b) = b.
Proof.
  induction a as [|c a IH]; [apply substring_all|].
  rewrite append_cons. exact IH.
Qed.

Lemma substring_split (s : string) (n : nat) :
  (n <= String.length s)%nat ->
  s = (String.substring 0 n s ++ String.substring n (String.length s - n) s)%string.
Proof.
  revert n. induction s as [|c s IH]; intros n Hn.
  - destruct n; cbn in *; [reflexivity|lia].
  - destruct n as [|n].
    + now rewrite Nat.sub_0_r, substring_all.
    + cbn [String.substring String.length Nat.sub]. rewrite append_cons.
      f_equal. apply IH. cbn in Hn. lia.
Qed.

(** [s.endswith(suffix)] holds when [s] is a string followed by the
    suffix. *)
Lemma endswith_app_inv (s suffix : string) :
  Str.endswith s suffix = true -> exists pre, s = (pre ++ suffix)%string.
Proof.
  unfold Str.endswith. intros [Hlen Heq]%andb_true_iff.
  apply Nat.leb_le in Hlen. apply String.eqb_eq in Heq.
  pose proof (substring_split s (String.length s - String.length suffix)
                ltac:(lia)) as Hs.
  replace (String.length s - (String.length s - String.length suffix))%nat
    with (String.length suffix) in Hs by lia.
  rewrite Heq in Hs. eauto.
Qed.

Lemma endswith_app (pre suffix : string) :
  Str.endswith (pre ++ suffix) suffix = true.
Proof.
  unfold Str.endswith. rewrite string_app_length.
  apply andb_true_iff. split; [apply Nat.leb_le; lia|].
  apply String.eqb_eq.
  replace (String.length pre + String.length suffix - String.length suffix)%nat
    with (String.length pre) by lia.
  apply substring_skip_app.
Qed.

Lemma lower_app (a b : string) :
  Str.lower (a ++ b) = (Str.lower a ++ Str.lower b)%string.
Proof.
  induction a as [|c a IH]; [reflexivity|].
  rewrite !append_cons. cbn [Str.lower]. now rewrite IH, append_cons.
Qed.

Lemma lower_app_inv (s a b : string) :
  Str.lower s = (a ++ b)%string ->
  exists a' b', s = (a' ++ b')%string /\ Str.lower a' = a /\ Str.lower b' = b.
Proof.
  revert s. induction a as [|c a IH]; intros s H.
  - exists "", s. auto.
  - rewrite append_cons in H.
    destruct s as [|d s]; [discriminate|]. cbn in H. injection H as Hc Hs.
    destruct (IH s Hs) as (a' & b' & -> & Ha & Hb).
    exists (String d a'), b'. rewrite append_cons. cbn. now rewrite Hc, Ha.
Qed.

(** The characters that [lower] leaves alone have one preimage. *)
Lemma ascii_lower_inv (c d : ascii) :
  Str.ascii_lower c = d ->
  c = d \/ (Nat.leb 97 (nat_of_ascii d) && Nat.leb (nat_of_ascii d) 122 = true
            /\ c = Str.ascii_upper d).
Proof.
  intros <-.
  destruct c as [[] [] [] [] [] [] [] []]; vm_compute; auto.
Qed.

Lemma occurs_app (c : ascii) (a b : string) :
  occurs c (a ++ b) = (occurs c a || occurs c b)%bool.
Proof.
  induction a as [|d a IH]; [reflexivity|].
  rewrite append_cons. cbn. now rewrite IH, orb_assoc.
Qed.

(** Lower case brings in no new separator or dot. *)
Lemma occurs_lower (c : ascii) (s : string) :
  Str.ascii_lower c = c ->
  (Nat.leb 97 (nat_of_ascii c) && Nat.leb (nat_of_ascii c) 122 = false) ->
  occurs c (Str.lower s) = occurs c s.
Proof.
  intros Hc Hnl. induction s as [|d s IH]; cbn; [reflexivity|].
  rewrite IH. f_equal.
  destruct (Ascii.eqb_spec d c) as [->|Hne].
  - rewrite Hc. apply Ascii.eqb_refl.
  - apply Ascii.eqb_neq. intros Heq.
    apply ascii_lower_inv in Heq as [?|[Hl _]]; congruence.
Qed.

(** ** [split], [rfind] *)

Lemma split_acc_nonempty (sep : ascii) (s cur : string) :
  Str.split_acc sep s cur <> [].
Proof.
  revert cur. induction s as [|d s IH]; intros cur; cbn; [discriminate|].
  destruct (Ascii.eqb d sep); [discriminate | apply IH].
Qed.

Lemma string_app_assoc (a b c : string) :
  ((a ++ b) ++ c = a ++ (b ++ c))%string.
Proof.
  induction a as [|x a IH]; [reflexivity|]. rewrite !append_cons. now rewrite IH.
Qed.

Lemma string_app_nil_r (a : string) : (a ++ "")%string = a.
Proof.
  induction a as [|x a IH]; [reflexivity|]. rewrite append_cons. now rewrite IH.
Qed.

Lemma split_acc_no_sep (sep : ascii) (t cur : string) :
  occurs sep t = false -> Str.split_acc sep t cur = [(cur ++ t)%string].
Proof.
  revert cur. induction t as [|d t IH]; intros cur H; cbn.
  - now rewrite string_app_nil_r.
  - cbn in H. apply orb_false_iff in H as [Hd Ht]. rewrite Hd.
    rewrite IH by exact Ht. now rewrite string_app_assoc.
Qed.

Lemma last_cons_nonempty {A} (x : A) (l : list A) (d : A) :
  l <> [] -> List.last (x :: l) d = List.last l d.
Proof. destruct l; [congruence | reflexivity]. Qed.

(** The last piece of [s + t], for [t] without a separator, is the last
    piece of [s] followed by [t]. *)
Lemma last_split_acc_app (sep : ascii) (s t cur : string) :
  occurs sep t = false ->
  List.last (Str.split_acc sep (s ++ t) cur) ""
  = (List.last (Str.split_acc sep s cur) "" ++ t)%string.
Proof.
  intros Ht. revert cur. induction s as [|d s IH]; intros cur.
  - rewrite append_nil_l, split_acc_no_sep by exact Ht. reflexivity.
  - rewrite append_cons. cbn [Str.split_acc]. destruct (Ascii.eqb d sep).
    + rewrite !last_cons_nonempty by apply split_acc_nonempty. apply IH.
    + apply IH.
Qed.

Lemma last_filter {A} (P : A -> bool) (l : list A) (d : A) :
  l <> [] -> P (List.last l d) = true ->
  List.last (List.filter P l) d = List.last l d.
Proof.
  destruct l as [|x l _] using rev_ind; [congruence|]. intros _.
  rewrite last_last. intros HP.
  rewrite List.filter_app. cbn [List.filter]. rewrite HP.
  apply last_last.
Qed.

(** [rfind] gives the place of the last occurrence. *)
Lemma rfind_from_none (c : ascii) (s : string) (i : nat) (acc : option nat) :
  occurs c s = false -> Str.rfind_from c s i acc = acc.
Proof.
  revert i acc. induction s as [|d s IH]; intros i acc H; cbn; [reflexivity|].
  cbn in H. apply orb_false_iff in H as [Hd Hs]. rewrite Hd. now apply IH.
Qed.

Lemma rfind_from_last (c : ascii) (a b : string) (i : nat) (acc : option nat) :
  occurs c b = false ->
  Str.rfind_from c (a ++ String c b) i acc = Some (i + String.length a)%nat.
Proof.
  intros Hb. revert i acc. induction a as [|d a IH]; intros i acc.
  - rewrite append_nil_l. cbn. rewrite Ascii.eqb_refl.
    rewrite rfind_from_none by exact Hb. f_equal. lia.
  - rewrite append_cons. cbn [Str.rfind_from String.length].
    rewrite IH. f_equal. lia.
Qed.

Lemma string_app_inv_l (a b c : string) :
  (a ++ b)%string = (a ++ c)%string -> b = c.
Proof.
  induction a as [|x a IH]; [auto|]. rewrite !append_cons. intros [= H]. auto.
Qed.

(** A path accepted by the filter of [on_drop] ends with a dot and three
    characters, none of them a separator or a dot. *)
Lemma x3f_suffix (f : string) :
  Str.endswith (Str.lower f) ".x3f" = true ->
  exists pre rest,
    f = (pre ++ String "." rest)%string /\
    Str.lower (String "." rest) = ".x3f" /\
    occurs "/" (String "." rest) = false /\ occurs "." rest = false /\
    String.length rest = 3%nat.
Proof.
  intros H. apply endswith_app_inv in H as [pre' H].
  apply lower_app_inv in H as (pre & suf & -> & _ & Hsuf).
  destruct suf as [|c rest]; [discriminate|].
  assert (c = "."%char) as ->.
  { cbn in Hsuf. injection Hsuf as Hc _.
    apply ascii_lower_inv in Hc as [?|[Hl _]]; [assumption|discriminate]. }
  exists pre, rest. split_and!; [reflexivity | exact Hsuf | | |].
  - rewrite <- (occurs_lower "/") by reflexivity. now rewrite Hsuf.
  - rewrite <- (occurs_lower ".") by reflexivity.
    cbn in Hsuf. injection Hsuf as ->. reflexivity.
  - apply (f_equal String.length) in Hsuf. cbn in Hsuf.
    assert (forall s, String.length (Str.lower s) = String.length s) as Hlen.
    { clear. induction s; cbn; auto. }
    rewrite Hlen in Hsuf. lia.
Qed.

(** The name of such a path, as the list box shows it ([basename]) and as
    the converter reads it ([Path.name]); and its stem. *)
Lemma x3f_file_name (f : string) :
  Str.endswith (Str.lower f) ".x3f" = true ->
  exists base suffix,
    basename f = (base ++ suffix)%string /\
    name (of_str f) = (base ++ suffix)%string /\
    Str.lower suffix = ".x3f" /\
    of_str f <> [] /\
    stem (of_str f) = if String.eqb base "" then suffix else base.
Proof.
  intros H. apply x3f_suffix in H as (pre & rest & -> & Hlow & Hsep & Hdot & Hlen).
  set (base := List.last (Str.split "/" pre) "").
  assert (basename (pre ++ String "." rest) = (base ++ String "." rest)%string)
    as Hbase.
  { unfold basename, Str.split. now rewrite last_split_acc_app by exact Hsep. }
  assert (name (of_str (pre ++ String "." rest))
          = (base ++ String "." rest)%string /\
          of_str (pre ++ String "." rest) <> []) as [Hname Hne].
  { unfold name, of_str.
    pose proof Hbase as Hlast. unfold basename in Hlast.
    assert (negb (String.eqb (base ++ String "." rest) "" ||
                  String.eqb (base ++ String "." rest) ".") = true) as Hkeep.
    { apply negb_true_iff, orb_false_iff.
      split; apply String.eqb_neq; intros Heq;
        apply (f_equal String.length) in Heq;
        rewrite string_app_length in Heq; cbn in Heq; lia. }
    assert (Str.split "/" (pre ++ String "." rest) <> []) as Hsplit
      by apply split_acc_nonempty.
    split.
    - rewrite last_filter; [exact Hlast | exact Hsplit |].
      rewrite Hlast. exact Hkeep.
    - intros Hnil.
      assert (In (base ++ String "." rest)%string
                (List.filter
                   (fun part => negb (String.eqb part "" || String.eqb part "."))
                   (Str.split "/" (pre ++ String "." rest)))) as Hin.
      { apply filter_In. split; [|exact Hkeep].
        rewrite <- Hlast.
        destruct (exists_last Hsplit) as (l & x & Hl).
        rewrite Hl, last_last. apply in_app_iff. right. now left. }
      rewrite Hnil in Hin. destruct Hin. }
  exists base, (String "." rest). split_and!; try assumption.
  unfold stem. rewrite Hname.
  unfold Str.rfind. rewrite rfind_from_last by exact Hdot. cbn [Nat.add].
  rewrite string_app_length. cbn [String.length]. rewrite Hlen.
  destruct (String.eqb_spec base "") as [->|Hb].
  - reflexivity.
  - assert (0 < String.length base)%nat as Hpos.
    { destruct base; [congruence | cbn; lia]. }
    rewrite (proj2 (Nat.ltb_lt _ _) Hpos).
    rewrite (proj2 (Nat.ltb_lt (String.length base) _)) by lia.
    cbn [andb]. apply substring_0_app.
Qed.

End Strings.

(** More on the normalisation *)

Section MoreNormalisation.

Lemma normalize_of_uint16 (p : promotion) (rgb : ndarray) :
  dtype_of rgb = uint16 -> normalize p rgb = Ok rgb.
Proof.
  intros Hdt. unfold normalize. rewrite Hdt.
  now rewrite bool_decide_eq_false_2 by (intros H; now apply H).
Qed.

Lemma normalize_out_of_range (p : promotion) (rgb : ndarray) (m : scalar) :
  max rgb = Ok m -> scalar_le m 1 = false -> scalar_le m 255 = false ->
  normalize p rgb = Ok rgb.
Proof.
  intros Hmax H1 H255. unfold normalize.
  case_bool_decide; [|reflexivity].
  rewrite Hmax. cbn [mbind result_bind]. now rewrite H1, H255.
Qed.

(** A NaN among the elements is the maximum. *)
Lemma fold_left_fmax_nan (d : list spec_float) :
  forall x, is_nan x = true \/ Exists (fun y => is_nan y = true) d ->
            is_nan (fold_left fmax d x) = true.
Proof.
  induction d as [|y d IH]; intros x H; cbn [fold_left].
  - destruct H as [H|H]; [exact H | inversion H].
  - apply IH. destruct H as [H|H].
    + left. unfold fmax. now rewrite H.
    + inversion H as [? ? Hy|? ? Hd]; subst; [left | now right].
      unfold fmax. destruct (is_nan x) eqn:Hx; [exact Hx|]. now rewrite Hy.
Qed.

End MoreNormalisation.

(** X1. Normalising twice is normalising once. A buffer that the step
    hands on is either a 16-bit buffer or the very buffer it was given,
    it has the shape and the number of elements of the input, and the
    step, run again on it under either promotion rule, hands it on as it
    is. *)
Theorem normalize_is_idempotent (p : promotion) (rgb rgb' : ndarray) :
  normalize p rgb = Ok rgb' ->
  (dtype_of rgb' = uint16 \/ rgb' = rgb) /\
  shape_of rgb' = shape_of rgb /\ size rgb' = size rgb /\
  forall p', normalize p' rgb' = Ok rgb'.
Proof.
  intros Hn.
  destruct (normalize_cases p rgb rgb' Hn)
    as [[Hdt ->]|[(Hdt & -> & m & Hmax & H1 & H255)|(Hdt & a & -> & Hsh & Hsz)]].
  - split_and!; auto. intros p'. now apply normalize_of_uint16.
  - split_and!; auto. intros p'. now apply (normalize_out_of_range p' rgb m).
  - destruct (astype_uint16_shape a) as [Hsh' Hsz'].
    split_and!; [left; apply astype_uint16_dtype | congruence | congruence |].
    intros p'. apply normalize_of_uint16, astype_uint16_dtype.
Qed.

Lemma normalize_is_idempotent_witness :
  normalize NEP50 (IntArray U16 [1; 1; 3]%nat [0; 514; 65535])
  = Ok (IntArray U16 [1; 1; 3]%nat [0; 514; 65535]).
Proof.
  apply (normalize_is_idempotent Legacy (IntArray U8 [1; 1; 3]%nat [0; 2; 255])).
  vm_compute. reflexivity.
Defined.

(** X2. The scaling of 8-bit levels is exact. For an 8-bit buffer with an
    element above 1, the single-precision computation [v / 255 * 65535],
    truncated to 16 bits, gives exactly [257 * v] for every element,
    under either promotion rule: rounding loses nothing, black stays 0
    and the level 255 becomes 65535. *)
Theorem eight_bit_levels_scale_exactly (p : promotion) (sh : list nat)
  (d : list Z) (v : Z) :
  Forall (fun x => 0 <= x < 256) d -> In v d -> 1 < v ->
  normalize p (IntArray U8 sh d) = Ok (IntArray U16 sh (map (Z.mul 257) d)) /\
  wf (IntArray U16 sh (map (Z.mul 257) d)).
Proof.
  intros Hd Hv Hv1. split.
  - rewrite (normalize_uint8_above_1 p sh d v Hd Hv Hv1). cbn [scaled_by].
    f_equal. f_equal. apply map_ext. intros x. lia.
  - cbn. apply Forall_map. eapply Forall_impl; [exact Hd|]. cbn. lia.
Qed.

Lemma eight_bit_levels_scale_exactly_witness :
  normalize NEP50 (IntArray U8 [1; 1; 3]%nat [0; 128; 255])
  = Ok (IntArray U16 [1; 1; 3]%nat [0; 32896; 65535]).
Proof.
  apply (eight_bit_levels_scale_exactly NEP50 [1; 1; 3]%nat [0; 128; 255] 128).
  - repeat constructor; lia.
  - cbn. auto.
  - lia.
Defined.

(** X3. A buffer of floats with a NaN among its elements is handed on as
    it is, element type included: its maximum is the NaN, which is
    neither [<= 1.0] nor [<= 255]. *)
Theorem nan_buffer_is_not_normalized (p : promotion) (k : float_kind)
  (sh : list nat) (d : list spec_float) :
  In S754_nan d ->
  max (FloatArray k sh d) = Ok (SFloat S754_nan) /\
  normalize p (FloatArray k sh d) = Ok (FloatArray k sh d).
Proof.
  intros Hin.
  assert (max (FloatArray k sh d) = Ok (SFloat S754_nan)) as Hmax.
  { destruct d as [|x d]; [destruct Hin|]. cbn [max].
    assert (is_nan (fold_left fmax d x) = true) as Hn.
    { apply fold_left_fmax_nan. destruct Hin as [->|Hin]; [now left|right].
      apply Exists_exists. exists S754_nan. split; [|reflexivity].
      now apply list_elem_of_In. }
    destruct (fold_left fmax d x); try discriminate. reflexivity. }
  split; [exact Hmax|].
  now apply (normalize_out_of_range p _ (SFloat S754_nan)).
Qed.

Lemma nan_buffer_is_not_normalized_witness :
  normalize NEP50
    (FloatArray F32 [1; 1; 3]%nat [float_of_Z F32 0; S754_nan; float_of_Z F32 1])
  = Ok (FloatArray F32 [1; 1; 3]%nat
          [float_of_Z F32 0; S754_nan; float_of_Z F32 1]).
Proof.
  apply (nan_buffer_is_not_normalized NEP50 F32 [1; 1; 3]%nat
           [float_of_Z F32 0; S754_nan; float_of_Z F32 1]).
  cbn. auto.
Defined.

(** What a conversion changes *)

Section Names.

Lemma path_snoc (p : Path) : p <> [] -> p = parent p ++ [name p].
Proof. intros Hne. unfold parent, name. now apply app_removelast_last. Qed.

(** The output path of a file with the extension [.x3f] is never the
    path of the file. *)
Lemma x3f_output_differs (f : string) (dir : Path) (format_type : string) :
  Str.endswith (Str.lower f) ".x3f" = true ->
  output_path_for dir (of_str f) format_type <> of_str f.
Proof.
  intros H.
  destruct (x3f_file_name f H) as (base & suffix & _ & Hname & Hlow & Hne & Hstem).
  assert (forall e, Str.lower e <> ".x3f" -> String.length e <> 0%nat ->
                    truediv dir (stem (of_str f) ++ e) <> of_str f) as Hdiff.
  { intros e He Hlen Heq. rewrite (path_snoc _ Hne) in Heq at 2.
    unfold truediv in Heq. apply app_inj_tail in Heq as [_ Heq].
    rewrite Hname, Hstem in Heq.
    destruct (String.eqb_spec base "") as [->|_].
    - apply (f_equal String.length) in Heq.
      rewrite !string_app_length in Heq. cbn in Heq. lia.
    - apply string_app_inv_l in Heq. congruence. }
  unfold output_path_for.
  destruct (String.eqb format_type "tiff"); [now apply Hdiff|].
  destruct (String.eqb format_type "psd"); now apply Hdiff.
Qed.

End Names.

Section Frames.
Context (fault : gmap Path (node content) -> Path -> option exn).
Implicit Types (fs : gmap Path (node content)) (p q : Path).

Lemma grown_towards_refl p fs : grown_towards p fs fs.
Proof. split; auto. Qed.

Lemma grown_towards_trans p q fs1 fs2 fs3 :
  q `prefix_of` p ->
  grown_towards q fs1 fs2 -> grown_towards p fs2 fs3 -> grown_towards p fs1 fs3.
Proof.
  intros Hq [Hk1 Hn1] [Hk2 Hn2]. split.
  - auto.
  - intros r Hr. destruct (Hn1 r Hr) as [H|[H Hpre]].
    + auto.
    + right. split; [now apply Hk2 | now transitivity q].
Qed.

Lemma os_mkdir_grown p fs fs' (r : result unit) :
  os_mkdir fault p fs = (fs', r) -> grown_towards p fs fs'.
Proof.
  intros H.
  apply os_mkdir_cases in H
    as [(_ & -> & _)|[(e & _ & -> & _)|(_ & -> & Hex & _)]];
    try apply grown_towards_refl.
  assert (p <> [] /\ fs !! p = None) as [Hne Hnone].
  { unfold exists_, stat in Hex. destruct p; [discriminate|].
    split; [discriminate|]. now destruct (fs !! (s :: p)). }
  split.
  - intros q n Hq. rewrite lookup_insert_ne; [exact Hq | congruence].
  - intros q Hq. destruct (decide (p = q)) as [<-|Hpq].
    + right. now rewrite lookup_insert_eq.
    + left. now rewrite lookup_insert_ne.
Qed.

Lemma mkdir_handler_grown p q fs fs' (e : exn) (r : result unit) (exist_ok : bool) :
  (if is_OSError e
   then fs0 ← get;
        if (negb exist_ok || negb (is_dir fs0 q))%bool then raise e else mret tt
   else raise e) fs = (fs', r) ->
  fs' = fs.
Proof.
  destruct (is_OSError e); unfold_M; [|now intros [= <-]].
  destruct (negb exist_ok || negb (is_dir fs q))%bool; now intros [= <-].
Qed.

(** [mkdir] changes nothing that exists and makes nothing but
    directories on the way to [p], also when it fails half way. *)
Lemma mkdir_rec_grown (depth : nat) :
  forall p (parents exist_ok : bool) fs fs' (r : result unit),
    mkdir_rec fault depth p parents exist_ok fs = (fs', r) ->
    grown_towards p fs fs'.
Proof.
  induction depth as [|d IH]; intros p parents exist_ok fs fs' r H;
    cbn [mkdir_rec] in H; unfold try_except at 1 in H;
    destruct (os_mkdir fault p fs) as [fs1 [[]|e]] eqn:Hos;
    pose proof (os_mkdir_grown _ _ _ _ Hos) as Hg1;
    try (simplify_eq; exact Hg1).
  - destruct (is_FileNotFoundError e).
    + destruct (negb parents || bool_decide (parent p = p))%bool;
        unfold_M; simplify_eq; exact Hg1.
    + apply (mkdir_handler_grown p) in H as ->. exact Hg1.
  - destruct (is_FileNotFoundError e);
      [|apply (mkdir_handler_grown p) in H as ->; exact Hg1].
    destruct (negb parents || bool_decide (parent p = p))%bool;
      [unfold_M; simplify_eq; exact Hg1|].
    unfold mbind at 1, M_bind at 1, bind at 1 in H.
    destruct (mkdir_rec fault d (parent p) true true fs1) as [fs2 [[]|e2]] eqn:Hrec;
      apply IH in Hrec.
    2:{ simplify_eq. eapply grown_towards_trans; [|exact Hg1|].
        - reflexivity.
        - destruct Hrec as [Hk Hn]. split; [exact Hk|].
          intros q Hq. destruct (Hn q Hq) as [?|[? Hpre]]; auto.
          right. split; [assumption|].
          etransitivity; [exact Hpre|]. unfold parent.
          destruct p as [|a p _] using rev_ind; [reflexivity|].
          rewrite removelast_last. now apply prefix_app_r. }
    assert (grown_towards p fs fs2) as Hg2.
    { eapply grown_towards_trans; [|exact Hg1|]; [reflexivity|].
      destruct Hrec as [Hk Hn]. split; [exact Hk|].
      intros q Hq. destruct (Hn q Hq) as [?|[? Hpre]]; auto.
      right. split; [assumption|].
      etransitivity; [exact Hpre|]. unfold parent.
      destruct p as [|a p _] using rev_ind; [reflexivity|].
      rewrite removelast_last. now apply prefix_app_r. }
    unfold try_except in H.
    destruct (os_mkdir fault p fs2) as [fs3 [[]|e3]] eqn:Hos3;
      pose proof (os_mkdir_grown _ _ _ _ Hos3) as Hg3.
    + simplify_eq. eapply grown_towards_trans; [|exact Hg2|exact Hg3]. reflexivity.
    + assert (fs' = fs3) as ->.
      { destruct (is_FileNotFoundError e3); [unfold_M; now simplify_eq|].
        now apply (mkdir_handler_grown p) in H. }
      eapply grown_towards_trans; [|exact Hg2|exact Hg3]. reflexivity.
Qed.

End Frames.

Section ConversionFrames.
Context (ext : Externals).

Lemma save_not_over_dir (out : Path) (format_type : string) (rgb : ndarray)
  (tags : list (string * tag_value)) (w w' : World) :
  save ext out format_type rgb tags w = (w', Ok tt) ->
  format_type = "tiff" -> is_dir (fs w) out = false.
Proof.
  unfold save, imwrite. intros H ->. cbn in H. run_M; congruence.
Qed.

(** The body of the [try] block changes the file system at the output
    path, if at all, and never where a directory is. *)
Lemma convert_body_frame (x out : Path) (format_type : string)
  (w w' : World) (r : result bool) :
  convert_body ext x out format_type w = (w', r) ->
  fs w' = fs w \/
  (format_type = "tiff" /\ r = Ok true /\ is_dir (fs w) out = false /\
   exists t, fs w' = <[out := File (Tiff t)]> (fs w)).
Proof.
  unfold convert_body. intros H.
  destruct (decode ext x w) as [w1 r1] eqn:Hdec.
  destruct (decode_spec _ _ _ _ _ Hdec) as (Hfs1 & _).
  unfold mbind at 1, M_bind at 1, bind at 1 in H. rewrite Hdec in H.
  destruct r1 as [rgb0|e]; [|simplify_eq; auto].
  unfold mbind at 1, M_bind at 1, bind at 1, lift at 1 in H.
  destruct (normalize (promo ext) rgb0) as [rgb|e]; [|simplify_eq; auto].
  unfold mbind at 1, M_bind at 1, bind at 1, Converter.now at 1 in H.
  unfold mbind at 1, M_bind at 1, bind at 1 in H.
  match type of H with
  | context [save ext out format_type rgb ?tags ?w2] =>
      destruct (save ext out format_type rgb tags w2) as [w3 r3] eqn:Hsave
  end.
  pose proof Hsave as Hsave'.
  apply save_spec in Hsave' as (_ & _ & Hcases). cbn [fs] in Hcases.
  destruct r3 as [[]|e].
  - apply verify_spec in H as (Hfs' & _ & -> & _).
    destruct Hcases as [(_ & _ & Hfs3)|[(_ & [e He] & _)|(-> & _ & _ & Hfs3)]].
    + left. congruence.
    + discriminate.
    + right. apply save_not_over_dir in Hsave; [|reflexivity]. cbn [fs] in Hsave.
      rewrite <- Hfs1. split_and!; [reflexivity | | exact Hsave |].
      * f_equal. rewrite Hfs3. unfold exists_, stat.
        destruct out; [reflexivity|]. now rewrite lookup_insert_eq.
      * eexists. rewrite Hfs'. exact Hfs3.
  - simplify_eq. left.
    destruct Hcases as [(_ & ? & _)|[(_ & _ & Hfs3)|(_ & ? & _)]];
      try discriminate. congruence.
Qed.

(** The effect of a whole request on the file system: directories are
    made on the way to the output directory; then the output path may
    get the new TIFF, on success. *)
Lemma convert_frame (self : PhotoshopCompatibleConverter)
  (x : string) (out : option string) (format_type : string)
  (w w' : World) (r : result bool) :
  convert_x3f_for_photoshop ext self x out format_type w = (w', r) ->
  exists fs1,
    grown_towards (output_dir_of x out) (fs w) fs1 /\
    (out = None -> fs1 = fs w) /\
    (fs w' = fs1 \/
     (format_type = "tiff" /\ r = Ok true /\
      is_dir fs1 (output_path_for (output_dir_of x out) (of_str x) format_type)
      = false /\
      exists t, fs w' = <[output_path_for (output_dir_of x out) (of_str x)
                            format_type := File (Tiff t)]> fs1)).
Proof.
  intros H. destruct (rawpy_available self) eqn:Ha.
  2:{ rewrite convert_without_decoder in H by exact Ha. simplify_eq.
      exists (fs w). split; [apply grown_towards_refl|]. auto. }
  rewrite convert_available in H by exact Ha.
  destruct (resolve_output_dir ext (of_str x) out w) as [w1 r1] eqn:Hres.
  apply resolve_output_dir_spec in Hres as (_ & _ & Hout).
  exists (fs w1).
  assert (grown_towards (output_dir_of x out) (fs w) (fs w1) /\
          (out = None -> fs w1 = fs w) /\
          forall dir, r1 = Ok dir -> dir = output_dir_of x out) as (Hg & Hnone & Hdir).
  { destruct out as [d|]; cbn [output_dir_of].
    - destruct Hout as (rm & Hmk & ->). split_and!.
      + eapply mkdir_rec_grown. exact Hmk.
      + discriminate.
      + intros dir. destruct rm; now intros [= <-].
    - destruct Hout as [-> ->]. split_and!; auto.
      + apply grown_towards_refl.
      + now intros dir [= <-]. }
  split; [exact Hg|]. split; [exact Hnone|].
  destruct r1 as [dir|e]; [|simplify_eq; auto].
  rewrite <- (Hdir dir eq_refl).
  unfold try_except in H.
  destruct (convert_body ext _ _ _ w1) as [w2 r2] eqn:Hbody.
  apply convert_body_frame in Hbody as [Hfs|(-> & -> & Hnd & t & Hfs)].
  - left. destruct r2; [now simplify_eq|].
    unfold conversion_failed in H. unfold_M. now simplify_eq.
  - simplify_eq. right. split_and!; eauto.
Qed.

End ConversionFrames.


(** X5. The raw file is never overwritten. For a path with the extension
    [.x3f], in any case of letters (the paths that a drop accepts),
    whatever the output directory, the selector and the outcome: what the
    path named before the request, it names after it. *)
Theorem x3f_input_is_never_overwritten (ext : Externals)
  (self : PhotoshopCompatibleConverter) (x3f_path : string)
  (output_dir : option string) (format_type : string) (w : World)
  (n : node content) :
  Str.endswith (Str.lower x3f_path) ".x3f" = true ->
  fs w !! of_str x3f_path = Some n ->
  output_path_for (output_dir_of x3f_path output_dir) (of_str x3f_path)
    format_type <> of_str x3f_path /\
  fs (fst (convert_x3f_for_photoshop ext self x3f_path output_dir
             format_type w)) !! of_str x3f_path = Some n.
Proof.
  intros Hx3f Hn.
  pose proof (x3f_output_differs x3f_path (output_dir_of x3f_path output_dir)
                format_type Hx3f) as Hne.
  split; [exact Hne|].
  destruct (convert_x3f_for_photoshop ext self x3f_path output_dir format_type w)
    as [w' r] eqn:Hrun. cbn [fst].
  apply convert_frame in Hrun
    as (fs1 & [Hkeep _] & _ & [->|(_ & _ & _ & t & ->)]).
  - auto.
  - rewrite lookup_insert_ne by exact Hne. auto.
Qed.

Lemma x3f_input_is_never_overwritten_witness :
  fs (fst (convert_x3f_for_photoshop Demo.libraries Demo.the_converter
             "/shots/a.x3f" None "tiff" Demo.world))
  !! ["shots"; "a.x3f"] = Some (File (Blob 1)).
Proof.
  apply (x3f_input_is_never_overwritten Demo.libraries Demo.the_converter
           "/shots/a.x3f" None "tiff" Demo.world (File (Blob 1)));
    vm_compute; reflexivity.
Defined.

(** What a conversion prints and writes *)

Section Traces.
Context (ext : Externals).

Lemma decode_trace (p : Path) (w w' : World) (r : result ndarray) :
  decode ext p w = (w', r) ->
  exists ls, stdout w' = stdout w ++ Converting (name p) :: ls /\
    match r with
    | Ok rgb =>
        exists lo hi, min rgb = Ok lo /\ max rgb = Ok hi /\
          ls = [ProcessingFoveon; Processed (shape_of rgb) (dtype_of rgb);
                Range lo hi]
    | Raise e =>
        ls = [] \/ ls = [ProcessingFoveon] \/
        exists rgb, ls = [ProcessingFoveon;
                          Processed (shape_of rgb) (dtype_of rgb)]
    end.
Proof.
  unfold decode. intros H. run_M; rewrite <- ?app_assoc; cbn [app];
    eexists; (split; [reflexivity|]); eauto 10.
Qed.

Lemma save_trace (out : Path) (format_type : string) (rgb : ndarray)
  (tags : list (string * tag_value)) (w w' : World) (r : result unit) :
  save ext out format_type rgb tags w = (w', r) ->
  stdout w' = stdout w ++ [Saving (Str.upper format_type)].
Proof.
  unfold save, imwrite. intros H.
  destruct (String.eqb format_type "tiff"); run_M; reflexivity.
Qed.

Lemma verify_trace (out : Path) (w w' : World) (r : result bool) :
  verify ext out w = (w', r) ->
  if exists_ (fs w) out then
    exists v, stdout w' = stdout w ++
                [Created (st_size ext (fs w) out); FileAt out; v] /\
              match readback ext (fs w) out with
              | Ok test_data => v = Verification (fst test_data) (snd test_data)
              | Raise e => v = VerificationFailed e
              end
  else stdout w' = stdout w ++ [FileNotCreated].
Proof.
  unfold verify. intros H.
  destruct (exists_ (fs w) out) eqn:Hex; run_M; rewrite <- ?app_assoc;
    cbn [app]; eauto.
Qed.

End Traces.

Section BodyTrace.
Context (ext : Externals).

Lemma convert_body_trace (x out : Path) (format_type : string)
  (w w' : World) (r : result bool) :
  convert_body ext x out format_type w = (w', r) ->
  exists rgb lo hi ls,
    stdout w' = stdout w ++ ls /\
    match r with
    | Ok true =>
        exists size v,
          ls = stage_lines x rgb lo hi format_type
               ++ [Created size; FileAt out; v] /\
          is_verification v = true
    | Ok false =>
        format_type <> "tiff" /\
        ls = stage_lines x rgb lo hi format_type ++ [FileNotCreated]
    | Raise e =>
        ls `prefix_of` stage_lines x rgb lo hi format_type /\ ls <> []
    end.
Proof.
  unfold convert_body. intros H.
  destruct (decode ext x w) as [w1 r1] eqn:Hdec.
  destruct (decode_trace _ _ _ _ _ Hdec) as (ls1 & Hout1 & Hls1).
  unfold mbind at 1, M_bind at 1, bind at 1 in H. rewrite Hdec in H.
  destruct r1 as [rgb0|e].
  2:{ simplify_eq.
      destruct Hls1 as [->|[->|[rgb ->]]];
        [exists (IntArray U16 [] []) | exists (IntArray U16 [] []) | exists rgb];
        exists (SInt 0), (SInt 0); eexists; (split; [exact Hout1|]);
        (split; [eexists; reflexivity | discriminate]). }
  destruct Hls1 as (lo & hi & _ & _ & ->).
  exists rgb0, lo, hi.
  unfold mbind at 1, M_bind at 1, bind at 1, lift at 1 in H.
  destruct (normalize (promo ext) rgb0) as [rgb|e].
  2:{ simplify_eq. eexists. split; [exact Hout1|].
      split; [eexists; reflexivity | discriminate]. }
  unfold mbind at 1, M_bind at 1, bind at 1, Converter.now at 1 in H.
  unfold mbind at 1, M_bind at 1, bind at 1 in H.
  match type of H with
  | context [save ext out format_type rgb ?tags ?w2] =>
      destruct (save ext out format_type rgb tags w2) as [w3 r3] eqn:Hsave
  end.
  pose proof (save_trace _ _ _ _ _ _ _ _ Hsave) as Hout3.
  pose proof (save_spec _ _ _ _ _ _ _ _ Hsave) as (_ & _ & Hcases).
  cbn [fs stdout] in *. rewrite Hout1 in Hout3.
  rewrite <- app_assoc in Hout3. cbn [app] in Hout3.
  destruct r3 as [[]|e].
  2:{ simplify_eq. eexists. split; [exact Hout3|].
      split; [eexists; unfold stage_lines; now rewrite app_nil_r | discriminate]. }
  pose proof (verify_trace _ _ _ _ _ H) as Hout'.
  apply verify_spec in H as (_ & _ & -> & _).
  destruct (exists_ (fs w3) out) eqn:Hex.
  - destruct Hout' as (v & Hout' & Hv). rewrite Hout3 in Hout'.
    rewrite <- app_assoc in Hout'. cbn [app] in Hout'.
    eexists. split; [exact Hout'|].
    exists (st_size ext (fs w3) out), v. split; [reflexivity|].
    destruct (readback ext (fs w3) out); now subst.
  - rewrite Hout3 in Hout'. rewrite <- app_assoc in Hout'. cbn [app] in Hout'.
    eexists. split; [exact Hout'|]. split; [|reflexivity].
    intros ->.
    destruct Hcases as [(Hne & _)|[(_ & [e He] & _)|(_ & _ & _ & Hfs3)]];
      [now apply Hne | discriminate |].
    rewrite Hfs3 in Hex. unfold exists_, stat in Hex.
    destruct out; [discriminate|]. now rewrite lookup_insert_eq in Hex.
Qed.

End BodyTrace.

(** X6. The log of a conversion follows its stages. A request that comes
    to a verdict with the decoder at hand prints, in this order:
    "Converting", "Processing", "Processed", "Range", "Saving as"; then,
    on success, "Created", "File" and the line of the readback; on
    failure either "File not created", after all five lines and only for
    a selector other than ['tiff'], or "Conversion failed", after one to
    five of them. A request that raises (its output directory cannot be
    made) prints nothing. *)
Theorem conversion_log_follows_the_stages (ext : Externals)
  (self : PhotoshopCompatibleConverter) (x3f_path : string)
  (output_dir : option string) (format_type : string) (w w' : World)
  (r : result bool) :
  rawpy_available self = true ->
  convert_x3f_for_photoshop ext self x3f_path output_dir format_type w = (w', r) ->
  let target := output_path_for (output_dir_of x3f_path output_dir)
                  (of_str x3f_path) format_type in
  exists rgb lo hi,
    let stages := stage_lines (of_str x3f_path) rgb lo hi format_type in
    match r with
    | Ok true =>
        exists size v,
          printed w w' = stages ++ [Created size; FileAt target; v] /\
          is_verification v = true
    | Ok false =>
        (format_type <> "tiff" /\ printed w w' = stages ++ [FileNotCreated]) \/
        (exists ls e, printed w w' = ls ++ [ConversionFailed e] /\
                      ls `prefix_of` stages /\ ls <> [])
    | Raise e => printed w w' = []
    end.
Proof.
  intros Ha H. cbv zeta. rewrite convert_available in H by exact Ha.
  destruct (resolve_output_dir ext (of_str x3f_path) output_dir w)
    as [w1 r1] eqn:Hres.
  apply resolve_output_dir_spec in Hres as (Hout1 & _ & Hdir).
  destruct r1 as [dir|e].
  2:{ simplify_eq. exists (IntArray U16 [] []), (SInt 0), (SInt 0).
      unfold printed. rewrite Hout1. apply drop_all. }
  assert (dir = output_dir_of x3f_path output_dir) as <-.
  { destruct output_dir as [d|]; cbn.
    - destruct Hdir as ([[]|e] & _ & [= ->]); reflexivity.
    - destruct Hdir as [_ [= ->]]. reflexivity. }
  unfold try_except in H.
  destruct (convert_body ext _ _ _ w1) as [w2 r2] eqn:Hbody.
  apply convert_body_trace in Hbody as (rgb & lo & hi & ls & Hout2 & Hls).
  exists rgb, lo, hi. rewrite Hout1 in Hout2.
  destruct r2 as [[]|e]; simplify_eq.
  - destruct Hls as (size & v & -> & Hv). exists size, v.
    unfold printed. rewrite Hout2, drop_app_length. auto.
  - destruct Hls as [Hne ->]. left. split; [exact Hne|].
    unfold printed. now rewrite Hout2, drop_app_length.
  - unfold conversion_failed in H. unfold_M. simplify_eq.
    right. exists ls, e. destruct Hls as [Hpre Hne].
    unfold printed. cbn [stdout].
    rewrite Hout2, <- app_assoc, drop_app_length. auto.
Qed.

Lemma conversion_log_follows_the_stages_witness :
  exists ls e,
    printed Demo.world
      (fst (convert_x3f_for_photoshop Demo.libraries Demo.the_converter
              "/shots/bad.x3f" None "tiff" Demo.world))
    = ls ++ [ConversionFailed e].
Proof.
  destruct (conversion_log_follows_the_stages Demo.libraries Demo.the_converter
              "/shots/bad.x3f" None "tiff" Demo.world
              (fst (convert_x3f_for_photoshop Demo.libraries Demo.the_converter
                      "/shots/bad.x3f" None "tiff" Demo.world))
              (Ok false) eq_refl)
    as (rgb & lo & hi & [[Hne _]|(ls & e & Hls & _)]).
  - vm_compute. reflexivity.
  - now contradiction Hne.
  - exists ls, e. exact Hls.
Defined.

(** X7. What a successful TIFF conversion leaves on the disk. When a
    request with the selector ['tiff'] returns [True], the decoder has
    read the input in the file system that holds the output directory,
    its buffer was developed with the fixed parameters and normalised,
    and the output path holds a TIFF with exactly the normalised buffer,
    uncompressed, contiguous RGB at 300 dpi, with the tags of the clock
    reading; nothing else was changed after the output directory was
    made, and the clock was read once. *)
Theorem successful_tiff_holds_the_normalized_buffer (ext : Externals)
  (self : PhotoshopCompatibleConverter) (x3f_path : string)
  (output_dir : option string) (w w' : World) :
  rawpy_available self = true ->
  convert_x3f_for_photoshop ext self x3f_path output_dir "tiff" w
  = (w', Ok true) ->
  let fs1 := fs (fst (resolve_output_dir ext (of_str x3f_path) output_dir w)) in
  let target := truediv (output_dir_of x3f_path output_dir)
                  (stem (of_str x3f_path) ++ ".tiff") in
  exists raw rgb0 rgb,
    imread ext fs1 (of_str x3f_path) = Ok raw /\
    raw foveon_params = Ok rgb0 /\
    normalize (promo ext) rgb0 = Ok rgb /\
    is_dir fs1 (parent target) = true /\
    fs w' = <[target := File (Tiff {| pixels := rgb;
                                      photometric := "rgb";
                                      planarconfig := "contig";
                                      compression := None;
                                      metadata := tiff_tags (clock ext (ticks w));
                                      resolution := (300, 300);
                                      software := "X3F Converter for Photoshop"
                                   |})]> fs1.
Proof.
  intros Ha H. cbv zeta. rewrite convert_available in H by exact Ha.
  destruct (resolve_output_dir ext (of_str x3f_path) output_dir w)
    as [w1 r1] eqn:Hres. cbn [fst].
  apply resolve_output_dir_spec in Hres as (_ & Hticks & Hdir).
  destruct r1 as [dir|e]; [|discriminate].
  assert (dir = output_dir_of x3f_path output_dir) as <-.
  { destruct output_dir as [d|]; cbn.
    - destruct Hdir as ([[]|e] & _ & [= ->]); reflexivity.
    - destruct Hdir as [_ [= ->]]. reflexivity. }
  apply guarded_body_spec in H
    as [_ [([= ] & _)
          |[(Hne & _)|(_ & _ & Hpar & raw & rgb0 & rgb & Hr & Hp & Hn & Hfs)]]];
    [contradiction|].
  exists raw, rgb0, rgb. split_and!; try assumption.
  - unfold is_dir. change (output_path_for dir (of_str x3f_path) "tiff")
      with (truediv dir (stem (of_str x3f_path) ++ ".tiff")) in Hpar.
    now rewrite Hpar.
  - rewrite <- Hticks. exact Hfs.
Qed.

Lemma successful_tiff_holds_the_normalized_buffer_witness :
  exists t,
    fs (fst (convert_x3f_for_photoshop Demo.libraries Demo.the_converter
               "/shots/a.x3f" None "tiff" Demo.world))
    !! ["shots"; "a.tiff"] = Some (File (Tiff t)) /\
    compression t = None /\ resolution t = (300, 300).
Proof.
  destruct (successful_tiff_holds_the_normalized_buffer Demo.libraries
              Demo.the_converter "/shots/a.x3f" None
              Demo.world
              (fst (convert_x3f_for_photoshop Demo.libraries Demo.the_converter
                      "/shots/a.x3f" None "tiff" Demo.world))
              eq_refl)
    as (raw & rgb0 & rgb & _ & _ & _ & _ & Hfs).
  - vm_compute. reflexivity.
  - eexists. rewrite Hfs. split.
    + change (truediv (output_dir_of "/shots/a.x3f" None)
                (stem (of_str "/shots/a.x3f") ++ ".tiff"))
        with ["shots"; "a.tiff"].
      apply lookup_insert_eq.
    + split; reflexivity.
Defined.

(** X8. A buffer without elements fails the conversion. When the decoder
    hands back an array of size 0, the request prints "Converting",
    "Processing" and "Processed", then [rgb.min()] raises [ValueError]:
    the request prints "Conversion failed", returns [False] and writes
    nothing. *)
Theorem empty_buffer_fails_the_conversion (ext : Externals)
  (self : PhotoshopCompatibleConverter) (x3f_path : string)
  (output_dir : option string) (format_type : string) (w : World)
  (raw : postprocess_params -> result ndarray) (rgb : ndarray) :
  rawpy_available self = true ->
  output_dir_creatable ext output_dir (fs w) ->
  let w1 := fst (resolve_output_dir ext (of_str x3f_path) output_dir w) in
  imread ext (fs w1) (of_str x3f_path) = Ok raw ->
  raw foveon_params = Ok rgb ->
  size rgb = 0%nat ->
  exists w',
    convert_x3f_for_photoshop ext self x3f_path output_dir format_type w
    = (w', Ok false) /\
    printed w w' = [Converting (name (of_str x3f_path)); ProcessingFoveon;
                    Processed (shape_of rgb) (dtype_of rgb);
                    ConversionFailed ValueError] /\
    fs w' = fs w1.
Proof.
  intros Ha Hc. cbv zeta. intros Hread Hpost Hsize.
  rewrite convert_available by exact Ha.
  destruct (resolve_output_dir ext (of_str x3f_path) output_dir w)
    as [w1 r1] eqn:Hres. cbn [fst] in *.
  apply resolve_output_dir_spec in Hres as (Hout1 & _ & Hdir).
  assert (exists dir, r1 = Ok dir) as [dir ->].
  { destruct output_dir as [d|]; cbn in *.
    - destruct Hc as [fs1 Hmk]. destruct Hdir as (rm & Hmk' & ->).
      rewrite Hmk in Hmk'. injection Hmk' as -> <-. eauto.
    - destruct Hdir as [_ ->]. eauto. }
  assert (min rgb = Raise ValueError) as Hmin.
  { destruct rgb as [k sh [|v d]|k sh [|v d]]; cbn in Hsize; try lia; reflexivity. }
  unfold try_except, convert_body, decode, conversion_failed. unfold_M.
  cbn [fs stdout ticks]. rewrite Hread. cbn [fs stdout ticks].
  rewrite Hpost. cbn [fs stdout ticks]. rewrite Hmin. cbn [fs stdout ticks].
  eexists. split; [reflexivity|]. unfold printed. cbn [fs stdout ticks].
  split; [|reflexivity].
  rewrite Hout1, <- !app_assoc, drop_app_length. reflexivity.
Qed.

Lemma empty_buffer_fails_the_conversion_witness :
  exists w',
    convert_x3f_for_photoshop Demo.blank Demo.the_converter "/shots/a.x3f"
      (Some "/shots/tiff") "tiff" Demo.world = (w', Ok false) /\
    printed Demo.world w'
    = [Converting "a.x3f"; ProcessingFoveon; Processed [0; 0; 3]%nat uint16;
       ConversionFailed ValueError].
Proof.
  destruct (empty_buffer_fails_the_conversion Demo.blank Demo.the_converter
              "/shots/a.x3f" (Some "/shots/tiff") "tiff" Demo.world
              (fun _ => Ok (IntArray U16 [0; 0; 3]%nat []))
              (IntArray U16 [0; 0; 3]%nat []) eq_refl)
    as (w' & Hrun & Hlog & _); try reflexivity.
  - eexists. vm_compute. reflexivity.
  - exists w'. split; [exact Hrun|]. rewrite Hlog. reflexivity.
Defined.

(** When the output directory can be made *)

Section MkdirOutcome.
Context (fault : gmap Path (node content) -> Path -> option exn).
Hypothesis no_fault : forall fs p, fault fs p = None.
Implicit Types (fs : gmap Path (node content)) (p q : Path).

Lemma stat_snoc fs p (a : string) : stat fs (p ++ [a]) = fs !! (p ++ [a]).
Proof. unfold stat. now destruct p. Qed.

(** In a well-formed file system nothing exists below a regular file or
    below a path that does not exist. *)
Lemma fs_wf_below fs p q :
  fs_wf fs -> q `prefix_of` p -> q <> p -> is_dir fs q = false ->
  stat fs p = None.
Proof.
  intros Hwf Hq Hne Hnd.
  destruct (stat fs p) as [n|] eqn:Hp; [exfalso|reflexivity].
  destruct p as [|a p _] using rev_ind.
  { apply prefix_nil_inv in Hq. congruence. }
  rewrite stat_snoc in Hp.
  assert (is_dir fs p = true) as Hpar.
  { specialize (Hwf (p ++ [a])). rewrite parent_snoc in Hwf. apply Hwf. eauto. }
  apply prefix_snoc_inv in Hq as [->|Hq]; [congruence|].
  rewrite (fs_wf_ancestors fs Hwf p q Hpar Hq) in Hnd. discriminate.
Qed.

Lemma is_dir_false_of_file fs q (c : content) :
  stat fs q = Some (File c) -> is_dir fs q = false.
Proof. unfold is_dir. now intros ->. Qed.

Lemma os_mkdir_makes fs p :
  exists_ fs p = false -> is_dir fs (parent p) = true ->
  os_mkdir fault p fs = (<[p := Dir]> fs, Ok tt).
Proof.
  intros Hex Hpar. unfold os_mkdir. rewrite Hex.
  unfold is_dir in Hpar. destruct (stat fs (parent p)) as [[]|]; try discriminate.
  now rewrite no_fault.
Qed.

Ltac unfold_mkdir_snoc Hnone :=
  unfold mkdir; rewrite length_app; cbn [List.length];
  rewrite Nat.add_comm; cbn [Nat.add mkdir_rec];
  unfold try_except at 1; unfold os_mkdir at 1; unfold exists_ at 1;
  rewrite Hnone, parent_snoc.

(** [mkdir] of a path that does not exist, by what its parent is. *)
Lemma mkdir_snoc_dir fs p (a : string) :
  stat fs (p ++ [a]) = None -> stat fs p = Some Dir ->
  mkdir fault (p ++ [a]) true true fs = (<[p ++ [a] := Dir]> fs, Ok tt).
Proof. intros Hnone Hp. unfold_mkdir_snoc Hnone. now rewrite Hp, no_fault. Qed.

Lemma mkdir_snoc_file fs p (a : string) (c : content) :
  stat fs (p ++ [a]) = None -> stat fs p = Some (File c) ->
  mkdir fault (p ++ [a]) true true fs = (fs, Raise NotADirectoryError).
Proof.
  intros Hnone Hp. unfold_mkdir_snoc Hnone. rewrite Hp.
  cbn [is_FileNotFoundError is_OSError]. unfold_M.
  unfold is_dir. now rewrite Hnone.
Qed.

Lemma mkdir_snoc_none fs p (a : string) :
  stat fs (p ++ [a]) = None -> stat fs p = None ->
  mkdir fault (p ++ [a]) true true fs =
  match mkdir fault p true true fs with
  | (fs1, Ok _) =>
      try_except (os_mkdir fault (p ++ [a]))
        (fun e' =>
           if is_FileNotFoundError e' then raise e'
           else if is_OSError e' then
             fs0 ← get;
             if (negb true || negb (is_dir fs0 (p ++ [a])))%bool
             then raise e' else mret tt
           else raise e') fs1
  | (fs1, Raise e) => (fs1, Raise e)
  end.
Proof.
  intros Hnone Hp. unfold_mkdir_snoc Hnone. rewrite Hp.
  cbn [is_FileNotFoundError negb orb].
  rewrite bool_decide_eq_false_2
    by (intros Heq; apply (f_equal List.length) in Heq;
        rewrite length_app in Heq; cbn in Heq; lia).
  unfold mbind at 1, M_bind at 1, bind at 1. unfold mkdir.
  now destruct (mkdir_rec fault (List.length p) p true true fs)
    as [fs1 [[]|e]].
Qed.

(** The outcome of [mkdir(parents=True, exist_ok=True)] when the
    operating system refuses nothing: the directory is made unless a
    regular file is in the way; the error is [FileExistsError] for a
    file at the path itself and [NotADirectoryError] for a file above
    it, and nothing is made then. *)
Lemma mkdir_outcome p :
  forall fs,
    fs_wf fs ->
    ((forall q c, q `prefix_of` p -> stat fs q <> Some (File c)) ->
     exists fs', mkdir fault p true true fs = (fs', Ok tt)) /\
    (forall c, stat fs p = Some (File c) ->
               mkdir fault p true true fs = (fs, Raise FileExistsError)) /\
    (forall q c, q `prefix_of` p -> q <> p -> stat fs q = Some (File c) ->
                 mkdir fault p true true fs = (fs, Raise NotADirectoryError)).
Proof.
  induction p as [|a p IH] using rev_ind; intros fs Hwf.
  { split_and!.
    - intros _. exists fs. now apply mkdir_existing.
    - intros c Hc. discriminate.
    - intros q c Hq Hne. apply prefix_nil_inv in Hq. congruence. }
  destruct (IH fs Hwf) as (IHok & IHfile & IHabove).
  split_and!.
  - intros Hfree.
    destruct (stat fs (p ++ [a])) as [[|c]|] eqn:Hpa.
    + exists fs. apply mkdir_existing. unfold is_dir. now rewrite Hpa.
    + now destruct (Hfree (p ++ [a]) c).
    + destruct (stat fs p) as [[|c]|] eqn:Hp.
      * eexists. now apply mkdir_snoc_dir.
      * destruct (Hfree p c); [now apply prefix_app_r | exact Hp].
      * rewrite mkdir_snoc_none by assumption.
        destruct IHok as [fs1 Hrec].
        { intros q c Hq. apply Hfree. now apply prefix_app_r. }
        rewrite Hrec. pose proof Hrec as Hok. unfold mkdir in Hok.
        apply mkdir_rec_ok in Hok as (_ & Hdirs & _ & Hnew); [|exact Hwf|lia].
        unfold try_except. rewrite os_mkdir_makes; [eauto| |].
        -- rewrite stat_snoc in Hpa. unfold exists_. rewrite stat_snoc.
           destruct (Hnew _ Hpa) as [->|[_ Hpre]]; [reflexivity|].
           apply prefix_length in Hpre. rewrite length_app in Hpre.
           cbn in Hpre. lia.
        -- rewrite parent_snoc. now apply Hdirs.
  - intros c Hc. unfold mkdir. rewrite length_app. cbn [List.length].
    rewrite Nat.add_comm. cbn [Nat.add mkdir_rec].
    unfold try_except at 1, os_mkdir, exists_. rewrite Hc.
    cbn [is_FileNotFoundError is_OSError]. unfold_M.
    unfold is_dir. now rewrite Hc.
  - intros q c Hq Hne Hc.
    apply prefix_snoc_inv in Hq as [->|Hq]; [congruence|].
    pose proof (is_dir_false_of_file _ _ _ Hc) as Hnd.
    assert (stat fs (p ++ [a]) = None) as Hpa.
    { apply (fs_wf_below fs (p ++ [a]) q); auto. now apply prefix_app_r. }
    destruct (decide (q = p)) as [->|Hqp].
    + now apply (mkdir_snoc_file fs p a c).
    + assert (stat fs p = None) as Hp by now apply (fs_wf_below fs p q).
      rewrite mkdir_snoc_none by assumption.
      now rewrite (IHabove q c Hq Hqp Hc).
Qed.

End MkdirOutcome.

(** X9. Only a regular file in the way keeps the output directory from
    being made. On a well-formed file system, when the operating system
    refuses nothing, a request with an output directory [d] and the
    decoder at hand comes to a verdict exactly when no regular file is at
    [d] or above it. A file at [d] makes the request raise
    [FileExistsError], a file above [d] makes it raise
    [NotADirectoryError]; in both cases nothing is made, nothing is
    printed and the decoder is not called. *)
Theorem only_a_file_in_the_way_stops_the_request (ext : Externals)
  (self : PhotoshopCompatibleConverter) (x3f_path d format_type : string)
  (w : World) :
  rawpy_available self = true ->
  fs_wf (fs w) ->
  (forall fs0 q, mkdir_fault ext fs0 q = None) ->
  let run := convert_x3f_for_photoshop ext self x3f_path (Some d)
               format_type w in
  ((forall q c, q `prefix_of` of_str d -> stat (fs w) q <> Some (File c)) <->
   exists verdict, snd run = Ok verdict) /\
  (forall c, stat (fs w) (of_str d) = Some (File c) ->
             run = (w, Raise FileExistsError)) /\
  (forall q c, q `prefix_of` of_str d -> q <> of_str d ->
               stat (fs w) q = Some (File c) ->
               run = (w, Raise NotADirectoryError)).
Proof.
  intros Ha Hwf Hnf. cbv zeta.
  destruct (mkdir_outcome (mkdir_fault ext) Hnf (of_str d) (fs w) Hwf)
    as (Hok & Hfile & Habove).
  assert (forall e,
            mkdir (mkdir_fault ext) (of_str d) true true (fs w)
            = (fs w, Raise e) ->
            convert_x3f_for_photoshop ext self x3f_path (Some d) format_type w
            = (w, Raise e)) as Hraise.
  { intros e Hmk. rewrite convert_available by exact Ha.
    unfold resolve_output_dir. unfold_M. rewrite Hmk. now destruct w. }
  split_and!.
  - split.
    + intros Hfree. destruct (Hok Hfree) as [fs1 Hmk].
      destruct (convert_returns ext self x3f_path (Some d) format_type w)
        as (w' & b & -> & _); [now exists fs1|]. eauto.
    + intros [verdict Hrun] q c Hq Hc.
      destruct (decide (q = of_str d)) as [->|Hne].
      * rewrite (Hraise _ (Hfile c Hc)) in Hrun. discriminate.
      * rewrite (Hraise _ (Habove q c Hq Hne Hc)) in Hrun. discriminate.
  - intros c Hc. apply Hraise. eauto.
  - intros q c Hq Hne Hc. apply Hraise. eauto.
Qed.

Lemma only_a_file_in_the_way_stops_the_request_witness :
  convert_x3f_for_photoshop Demo.permissive Demo.the_converter
    "/shots/a.x3f" (Some "/out/tiff") "tiff" Demo.world
  = (Demo.world, Raise NotADirectoryError).
Proof.
  apply (proj2 (proj2 (only_a_file_in_the_way_stops_the_request
                         Demo.permissive Demo.the_converter "/shots/a.x3f"
                         "/out/tiff" "tiff" Demo.world eq_refl demo_disk_wf
                         (fun _ _ => eq_refl)))
           ["out"] (Blob 4)).
  - exists ["tiff"]. vm_compute. reflexivity.
  - vm_compute. discriminate.
  - vm_compute. reflexivity.
Defined.

(** The outputs of a batch *)

Section Outputs.
Context (ext : Externals).


(** A success with ['tiff'] leaves at the output path the TIFF of the
    buffer that the decoder gave in this request. *)
Lemma convert_tiff_success (self : PhotoshopCompatibleConverter)
  (x : string) (out : option string) (w w' : World) :
  convert_x3f_for_photoshop ext self x out "tiff" w = (w', Ok true) ->
  exists fs1 raw rgb0 rgb,
    imread ext fs1 (of_str x) = Ok raw /\ raw foveon_params = Ok rgb0 /\
    normalize (promo ext) rgb0 = Ok rgb /\
    fs w' !! target_of x out "tiff"
    = Some (File (Tiff (tiff_of rgb (tiff_tags (clock ext (ticks w)))))).
Proof.
  intros H. destruct (rawpy_available self) eqn:Ha.
  2:{ rewrite convert_without_decoder in H by exact Ha. discriminate. }
  rewrite convert_available in H by exact Ha.
  destruct (resolve_output_dir ext (of_str x) out w) as [w1 r1] eqn:Hres.
  apply resolve_output_dir_spec in Hres as (_ & Hticks & Hout).
  destruct r1 as [dir|e]; [|discriminate].
  assert (dir = output_dir_of x out) as ->.
  { destruct out as [d|]; cbn.
    - destruct Hout as ([[]|e] & _ & [= ->]); reflexivity.
    - destruct Hout as [_ [= ->]]. reflexivity. }
  apply guarded_body_spec in H
    as [_ [([= ] & _)
          |[(Hne & _)|(_ & _ & _ & raw & rgb0 & rgb & Hr & Hp & Hn & ->)]]];
    [contradiction|].
  exists (fs w1), raw, rgb0, rgb. split_and!; try assumption.
  unfold target_of. now rewrite lookup_insert_eq, Hticks.
Qed.


End Outputs.



(** X11. Files with the same stem share one output. Two requests with the
    same output directory and the selector ['tiff'], for files that
    differ in their directories or extensions only, have the same output
    path. When both succeed, one after the other, the path holds the
    TIFF of the first file after the first request and the TIFF of the
    second file after the second: the first output is written over
    without a warning. *)
Theorem same_stem_outputs_collide (ext : Externals)
  (self : PhotoshopCompatibleConverter) (first second d : string)
  (w w1 w2 : World) :
  stem (of_str first) = stem (of_str second) ->
  convert_x3f_for_photoshop ext self first (Some d) "tiff" w = (w1, Ok true) ->
  convert_x3f_for_photoshop ext self second (Some d) "tiff" w1 = (w2, Ok true) ->
  let target := target_of first (Some d) "tiff" in
  target = target_of second (Some d) "tiff" /\
  (exists fs1 raw rgb0 rgb,
     imread ext fs1 (of_str first) = Ok raw /\ raw foveon_params = Ok rgb0 /\
     normalize (promo ext) rgb0 = Ok rgb /\
     fs w1 !! target
     = Some (File (Tiff (tiff_of rgb (tiff_tags (clock ext (ticks w))))))) /\
  (exists fs1 raw rgb0 rgb,
     imread ext fs1 (of_str second) = Ok raw /\ raw foveon_params = Ok rgb0 /\
     normalize (promo ext) rgb0 = Ok rgb /\
     fs w2 !! target
     = Some (File (Tiff (tiff_of rgb (tiff_tags (clock ext (ticks w1))))))).
Proof.
  intros Hstem H1 H2. cbv zeta.
  assert (target_of first (Some d) "tiff" = target_of second (Some d) "tiff")
    as Heq.
  { unfold target_of, output_path_for. cbn. now rewrite Hstem. }
  split; [exact Heq|]. split.
  - now apply (convert_tiff_success ext self).
  - rewrite Heq. now apply (convert_tiff_success ext self).
Qed.

Lemma same_stem_outputs_collide_witness :
  target_of "/shots/a.x3f" (Some "/shots/tiff") "tiff"
  = target_of "/archive/a.X3F" (Some "/shots/tiff") "tiff".
Proof.
  apply (same_stem_outputs_collide Demo.libraries Demo.the_converter
           "/shots/a.x3f" "/archive/a.X3F" "/shots/tiff" Demo.world
           (fst (convert_x3f_for_photoshop Demo.libraries Demo.the_converter
                   "/shots/a.x3f" (Some "/shots/tiff") "tiff" Demo.world))
           (fst (convert_x3f_for_photoshop Demo.libraries Demo.the_converter
                   "/archive/a.X3F" (Some "/shots/tiff") "tiff"
                   (fst (convert_x3f_for_photoshop Demo.libraries
                           Demo.the_converter "/shots/a.x3f"
                           (Some "/shots/tiff") "tiff" Demo.world)))));
    vm_compute; reflexivity.
Defined.

(** The list of files and the list box *)

Section Removal.

Lemma without_from_none (ixs : list nat) (l : list string) :
  forall i, Forall (fun j => (j < i)%nat) ixs -> without_from i ixs l = l.
Proof.
  induction l as [|x l IH]; intros i Hi; cbn; [reflexivity|].
  rewrite bool_decide_eq_false_2.
  - f_equal. apply IH. eapply Forall_impl; [exact Hi|]. cbn. lia.
  - intros Hin. rewrite Forall_forall in Hi. apply Hi in Hin. lia.
Qed.

Lemma without_from_delete (ixs : list nat) (l : list string) :
  forall i m,
    Forall (fun j => (j < i + m)%nat) ixs ->
    without_from i ixs (delete m l) = without_from i (ixs ++ [(i + m)%nat]) l.
Proof.
  induction l as [|x l IH]; intros i m Hi.
  - now destruct m.
  - destruct m as [|m]; cbn [without_from].
    + change (delete 0 (x :: l)) with l.
      rewrite Nat.add_0_r in *.
      rewrite bool_decide_eq_true_2 by (apply elem_of_app; right; now left).
      rewrite !without_from_none; [reflexivity | |].
      * apply Forall_app. split.
        -- eapply Forall_impl; [exact Hi|]. cbn. lia.
        -- repeat constructor.
      * exact Hi.
    + change (delete (S m) (x :: l)) with (x :: delete m l).
      cbn [without_from].
      assert (bool_decide (i ∈ ixs ++ [(i + S m)%nat]) = bool_decide (i ∈ ixs))
        as ->.
      { apply bool_decide_ext. rewrite elem_of_app, list_elem_of_singleton.
        split; [intros [H|H]; [exact H | lia] | now left]. }
      replace (i + S m)%nat with (S i + m)%nat by lia.
      rewrite IH; [reflexivity|].
      eapply Forall_impl; [exact Hi|]. cbn. lia.
Qed.

Lemma StronglySorted_snoc_inv (ixs : list nat) (m : nat) :
  StronglySorted lt (ixs ++ [m]) ->
  StronglySorted lt ixs /\ Forall (fun j => (j < m)%nat) ixs.
Proof.
  induction ixs as [|a ixs IH]; cbn; intros H.
  - split; constructor.
  - inversion H as [|? ? Hs Hall]; subst.
    destruct (IH Hs) as [Hs' Hlt].
    apply Forall_app in Hall as [Hall Hm]. inversion Hm; subst.
    split; constructor; auto.
Qed.

(** Deleting from the last selected row to the first deletes the selected
    rows, and nothing raises. *)
Lemma del_items_rev (ixs : list nat) :
  forall l : list string,
    curselection ixs (List.length l) ->
    del_items (rev ixs) l = (without ixs l, Ok tt).
Proof.
  induction ixs as [|m ixs IH] using rev_ind; intros l [Hs Hb].
  - cbn. unfold without. now rewrite without_from_none by constructor.
  - rewrite rev_app_distr. cbn [rev app del_items].
    apply StronglySorted_snoc_inv in Hs as [Hs Hlt].
    apply Forall_app in Hb as [Hb Hm]. inversion Hm as [|? ? Hm' _]; subst.
    unfold mbind, M_bind, bind, del_item.
    rewrite (proj2 (Nat.ltb_lt _ _) Hm').
    rewrite IH.
    + unfold without. now rewrite (without_from_delete ixs l 0 m).
    + split; [exact Hs|]. rewrite length_delete by now apply lookup_lt_is_Some_2.
      eapply Forall_impl; [exact Hlt|]. cbn. lia.
Qed.

Lemma del_items_length (ixs : list nat) :
  forall l l' : list string,
    del_items ixs l = (l', Ok tt) ->
    (List.length l' + List.length ixs = List.length l)%nat.
Proof.
  induction ixs as [|i ixs IH]; intros l l' H.
  - cbn in H. unfold_M. simplify_eq. cbn. lia.
  - cbn [del_items] in H. unfold mbind, M_bind, bind, del_item in H.
    destruct (Nat.ltb_spec i (List.length l)) as [Hi|Hi]; [|discriminate].
    apply IH in H. rewrite length_delete in H by now apply lookup_lt_is_Some_2.
    cbn. lia.
Qed.

Lemma elem_of_without_from (ixs : list nat) (l : list string) (x : string) :
  forall i, x ∈ without_from i ixs l <->
            exists j, l !! j = Some x /\ (i + j)%nat ∉ ixs.
Proof.
  induction l as [|y l IH]; intros i; cbn [without_from].
  - rewrite elem_of_nil. split; [tauto|]. now intros (j & Hj & _).
  - case_bool_decide as Hin.
    + rewrite IH. split.
      * intros (j & Hj & Hn). exists (S j). split; [exact Hj|].
        now replace (i + S j)%nat with (S i + j)%nat by lia.
      * intros ([|j] & Hj & Hn).
        -- rewrite Nat.add_0_r in Hn. contradiction.
        -- exists j. split; [exact Hj|].
           now replace (S i + j)%nat with (i + S j)%nat by lia.
    + rewrite elem_of_cons, IH. split.
      * intros [->|(j & Hj & Hn)].
        -- exists 0%nat. split; [reflexivity|]. now rewrite Nat.add_0_r.
        -- exists (S j). split; [exact Hj|].
           now replace (i + S j)%nat with (S i + j)%nat by lia.
      * intros ([|j] & Hj & Hn).
        -- left. cbn in Hj. congruence.
        -- right. exists j. split; [exact Hj|].
           now replace (S i + j)%nat with (i + S j)%nat by lia.
Qed.

Lemma without_from_sublist (ixs : list nat) (l : list string) :
  forall i, without_from i ixs l `sublist_of` l.
Proof.
  induction l as [|y l IH]; intros i; cbn [without_from]; [reflexivity|].
  case_bool_decide; [apply sublist_cons | apply sublist_skip]; apply IH.
Qed.

End Removal.

(** X12. "Remove Selected" removes the selected rows. For the rows [ixs]
    that the list box reports as selected (places of rows, in increasing
    order), deleting from the last to the first never raises
    [IndexError]: the files at these places are dropped from the list, the
    others stay, in their order; the list is shorter by the number of
    rows, which the status bar reports; and the list box is filled again
    from the new list. *)
Theorem remove_selected_files_removes_the_rows (ixs : list nat)
  (g : X3FConverterGUI) :
  ixs <> [] ->
  curselection ixs (List.length (selected_files g)) ->
  exists g',
    remove_selected_files ixs g = (g', Ok tt) /\
    selected_files g' = without ixs (selected_files g) /\
    (forall f, f ∈ selected_files g' <->
               exists j, selected_files g !! j = Some f /\ j ∉ ixs) /\
    selected_files g' `sublist_of` selected_files g /\
    (List.length (selected_files g') + List.length ixs
     = List.length (selected_files g))%nat /\
    status_var g' = Removed (List.length ixs) /\
    file_listbox g' = map basename (selected_files g').
Proof.
  intros Hne Hcur.
  pose proof (del_items_rev ixs (selected_files g) Hcur) as Hdel.
  pose proof (del_items_length _ _ _ Hdel) as Hlen.
  rewrite length_rev in Hlen.
  unfold remove_selected_files.
  destruct ixs as [|i ixs]; [congruence|]. rewrite Hdel.
  eexists. split; [reflexivity|].
  cbn [set_status selected_files status_var file_listbox].
  rewrite selected_files_update_file_list.
  cbn [set_selected_files selected_files].
  split_and!; try reflexivity.
  - intros f. unfold without. now rewrite elem_of_without_from.
  - apply without_from_sublist.
  - exact Hlen.
  - unfold update_file_list. cbn [set_selected_files selected_files].
    now destruct (without (i :: ixs) (selected_files g)).
Qed.

Lemma remove_selected_files_removes_the_rows_witness :
  exists g',
    remove_selected_files [0; 2]%nat Demo.window = (g', Ok tt) /\
    selected_files g' = ["/shots/bad.x3f"].
Proof.
  destruct (remove_selected_files_removes_the_rows [0; 2]%nat Demo.window)
    as (g' & Hrun & Hsel & _).
  - discriminate.
  - split; [repeat constructor; lia|]. cbn. repeat constructor; lia.
  - exists g'. split; [exact Hrun|]. rewrite Hsel. reflexivity.
Defined.

Section Adding.

(** The loop of [on_drop] and [select_files] appends, in their order,
    the paths that are new, each once, and counts them. *)
Lemma append_new_spec (files : list string) :
  forall (selected : list string) (added : nat),
    exists new,
      append_new files selected added
      = (selected ++ new, (added + List.length new)%nat) /\
      new `sublist_of` files /\ NoDup new /\
      (forall f, f ∈ new -> f ∉ selected) /\
      (forall f, f ∈ files -> f ∈ selected \/ f ∈ new).
Proof.
  induction files as [|f files IH]; intros selected added; cbn [append_new].
  - exists []. rewrite app_nil_r, Nat.add_0_r.
    split_and!; auto; try constructor; intros f Hf; inversion Hf.
  - case_bool_decide as Hin.
    + destruct (IH selected added) as (new & -> & Hsub & Hnd & Hfresh & Hall).
      exists new. split_and!; auto.
      * now apply sublist_cons.
      * intros f' [->|Hf']%elem_of_cons; auto.
    + destruct (IH (selected ++ [f]) (S added))
        as (new & -> & Hsub & Hnd & Hfresh & Hall).
      exists (f :: new). split_and!.
      * rewrite <- app_assoc. cbn. f_equal. lia.
      * now apply sublist_skip.
      * constructor; [|exact Hnd]. intros Hf. apply Hfresh in Hf.
        apply Hf, elem_of_app. right. now left.
      * intros f' [->|Hf']%elem_of_cons; [exact Hin|].
        intros Hsel. apply (Hfresh f' Hf'), elem_of_app. now left.
      * intros f' [->|Hf']%elem_of_cons; [right; now left|].
        destruct (Hall f' Hf') as [[Hs|Hs]%elem_of_app|Hn].
        -- now left.
        -- apply list_elem_of_singleton in Hs as ->. right. now left.
        -- right. now right.
Qed.

Lemma file_listbox_update_file_list (g : X3FConverterGUI) :
  file_listbox (update_file_list g) = map basename (selected_files g) /\
  convert_button (update_file_list g)
  = negb (bool_decide (selected_files g = [])).
Proof. unfold update_file_list. now destruct (selected_files g). Qed.

Lemma status_var_update_file_list (g : X3FConverterGUI) :
  status_var (update_file_list g) = status_var g /\
  messageboxes (update_file_list g) = messageboxes g /\
  progress_text (update_file_list g) = progress_text g /\
  output_directory (update_file_list g) = output_directory g /\
  format_var (update_file_list g) = format_var g /\
  converter (update_file_list g) = converter g.
Proof. unfold update_file_list. now destruct (selected_files g). Qed.

End Adding.

(** X13. The file dialog appends the new paths. [select_files] keeps the
    selected files in their places and appends, in the order of the
    dialog's answer, the paths that were not selected yet, each once; any
    path is taken, whatever its extension. The status bar reports the
    number of paths added, and is left alone when none is; the list box
    shows the new list, and the button is enabled exactly when the list
    is not empty. *)
Theorem select_files_appends_the_new_paths (files : list string)
  (g : X3FConverterGUI) :
  exists new,
    selected_files (select_files files g) = selected_files g ++ new /\
    new `sublist_of` files /\ NoDup new /\
    (forall f, f ∈ new -> f ∉ selected_files g) /\
    (forall f, f ∈ files -> f ∈ selected_files g \/ f ∈ new) /\
    status_var (select_files files g)
    = (if bool_decide (new = []) then status_var g
       else Added (List.length new)) /\
    file_listbox (select_files files g)
    = map basename (selected_files g ++ new) /\
    convert_button (select_files files g)
    = negb (bool_decide (selected_files g ++ new = [])).
Proof.
  unfold select_files.
  destruct (append_new_spec files (selected_files g) 0)
    as (new & -> & Hsub & Hnd & Hfresh & Hall).
  exists new. cbn [Nat.add].
  destruct (file_listbox_update_file_list
              (set_selected_files (selected_files g ++ new) g)) as [Hbox Hbut].
  cbn [set_selected_files selected_files] in Hbox, Hbut.
  destruct new as [|f new]; cbn [List.length Nat.ltb Nat.leb bool_decide].
  - rewrite bool_decide_eq_true_2 by reflexivity.
    rewrite selected_files_update_file_list.
    split_and!; auto.
    now rewrite (proj1 (status_var_update_file_list _)).
  - rewrite bool_decide_eq_false_2 by discriminate.
    cbn [set_status selected_files status_var file_listbox convert_button].
    rewrite selected_files_update_file_list.
    split_and!; auto.
Qed.

(** X14. A drop takes the X3F files and counts them all. [on_drop] looks
    only at the dropped paths that end in [.x3f], in any case of letters.
    When there is none it shows a warning and changes nothing else.
    Otherwise it appends those that are not selected yet, each once and
    in their order, shows the new list and enables the button; the
    status bar then reports the number of X3F files dropped, which can
    exceed the number of files added. *)
Theorem on_drop_counts_the_dropped_files (files : list string)
  (g : X3FConverterGUI) :
  let x3f_files :=
    List.filter (fun f => Str.endswith (Str.lower f) ".x3f") files in
  (x3f_files = [] ->
   on_drop files g = popup InvalidFiles g /\
   selected_files (on_drop files g) = selected_files g /\
   status_var (on_drop files g) = status_var g) /\
  (x3f_files <> [] ->
   exists new,
     selected_files (on_drop files g) = selected_files g ++ new /\
     new `sublist_of` x3f_files /\ NoDup new /\
     (forall f, f ∈ new -> f ∉ selected_files g) /\
     (forall f, f ∈ x3f_files -> f ∈ selected_files g \/ f ∈ new) /\
     (List.length new <= List.length x3f_files)%nat /\
     status_var (on_drop files g) = Added (List.length x3f_files) /\
     messageboxes (on_drop files g) = messageboxes g /\
     file_listbox (on_drop files g) = map basename (selected_files g ++ new) /\
     convert_button (on_drop files g) = true).
Proof.
  cbv zeta. unfold on_drop.
  destruct (List.filter _ files) as [|f x3f_files] eqn:E.
  - split; [auto | congruence].
  - split; [discriminate|]. intros _. rewrite <- E.
    destruct (append_new_spec
                (List.filter (fun f => Str.endswith (Str.lower f) ".x3f") files)
                (selected_files g) 0)
      as (new & Happ & Hsub & Hnd & Hfresh & Hall).
    rewrite Happ. cbn [fst].
    destruct (file_listbox_update_file_list
                (set_selected_files (selected_files g ++ new) g)) as [Hbox Hbut].
    cbn [set_selected_files selected_files] in Hbox, Hbut.
    exists new.
    cbn [set_status selected_files status_var file_listbox convert_button
         messageboxes].
    rewrite selected_files_update_file_list.
    split_and!; auto.
    + now apply sublist_length.
    + unfold update_file_list. cbn. now destruct (selected_files g ++ new).
    + rewrite Hbut. apply negb_true_iff, bool_decide_eq_false_2.
      intros Hnil. apply app_eq_nil in Hnil as [Hs ->].
      assert (f ∈ List.filter (fun f => Str.endswith (Str.lower f) ".x3f") files)
        as Hf by (rewrite E; now left).
      destruct (Hall f Hf) as [Hin|Hin]; [rewrite Hs in Hin|];
        inversion Hin.
Qed.

Section Windows.

Lemma possible_removal_ok (ixs : list nat) (g : X3FConverterGUI) :
  listbox_in_step g ->
  curselection ixs (List.length (file_listbox g)) ->
  exists l, del_items (rev ixs) (selected_files g) = (l, Ok tt).
Proof.
  intros Hstep Hcur. rewrite Hstep, length_map in Hcur.
  eexists. now apply del_items_rev.
Qed.

Lemma run_command_in_step (c : command) (g : X3FConverterGUI) :
  listbox_in_step g -> possible g c ->
  listbox_in_step (run_command c g) /\
  ((convert_button g = false -> selected_files g = []) ->
   convert_button (run_command c g) = false ->
   selected_files (run_command c g) = []).
Proof.
  intros Hstep Hpos.
  assert (forall g0, listbox_in_step (update_file_list g0) /\
                     (convert_button (update_file_list g0) = false ->
                      selected_files (update_file_list g0) = [])) as Hupd.
  { intros g0. unfold listbox_in_step.
    rewrite selected_files_update_file_list.
    destruct (file_listbox_update_file_list g0) as [-> ->].
    split; [reflexivity|]. case_bool_decide; [auto | discriminate]. }
  assert (forall s g0,
            listbox_in_step (set_status s (update_file_list g0)) /\
            ((convert_button g = false -> selected_files g = []) ->
             convert_button (set_status s (update_file_list g0)) = false ->
             selected_files (set_status s (update_file_list g0)) = [])) as Hset.
  { intros s g0. destruct (Hupd g0) as [H1 H2]. split; [exact H1|].
    intros _. exact H2. }
  destruct c as [files|files|ixs|]; cbn [run_command].
  - unfold on_drop. destruct (List.filter _ files); [now split|]. apply Hset.
  - unfold select_files.
    destruct (append_new files (selected_files g) 0) as [selected added].
    destruct (Nat.ltb 0 added); [apply Hset|].
    destruct (Hupd (set_selected_files selected g)) as [H1 H2]. now split.
  - cbn in Hpos. unfold remove_selected_files.
    destruct ixs as [|i ixs]; [now split|].
    destruct (possible_removal_ok (i :: ixs) g Hstep Hpos) as [l ->].
    cbn [fst]. apply Hset.
  - apply Hset.
Qed.

End Windows.

(** X15. The list box mirrors the list, and "Remove Selected" cannot
    fail. In every window that a new window can become by drops,
    file dialogs, removals of rows of the list box and clearings, the
    list box shows the base names of the selected files, row by row; no
    path is selected twice; a disabled button means an empty list; and
    the removal of any rows that the list box can report raises no
    [IndexError]. *)
Theorem listbox_mirrors_the_selected_files (c0 : PhotoshopCompatibleConverter)
  (g : X3FConverterGUI) :
  reachable c0 g ->
  file_listbox g = map basename (selected_files g) /\
  NoDup (selected_files g) /\
  (convert_button g = false -> selected_files g = []) /\
  (forall ixs, curselection ixs (List.length (file_listbox g)) ->
               snd (remove_selected_files ixs g) = Ok tt).
Proof.
  intros Hreach.
  assert (listbox_in_step g /\ NoDup (selected_files g) /\
          (convert_button g = false -> selected_files g = [])) as (Hs & Hn & Hb).
  { induction Hreach as [|g c _ (IHs & IHn & IHb) Hpos].
    - unfold GUI.__init__, listbox_in_step.
      destruct (rawpy_available c0); cbn; split_and!; auto using NoDup_nil_2.
    - destruct (run_command_in_step c g IHs Hpos) as [Hs Hb].
      split_and!; [exact Hs | | now apply Hb].
      destruct c; cbn [run_command];
        auto using on_drop_NoDup, select_files_NoDup,
                   remove_selected_files_NoDup, clear_files_NoDup. }
  split_and!; try assumption.
  intros ixs Hcur. unfold remove_selected_files.
  destruct ixs as [|i ixs]; [reflexivity|].
  now destruct (possible_removal_ok (i :: ixs) g Hs Hcur) as [l ->].
Qed.

Lemma listbox_mirrors_the_selected_files_witness :
  let g := run_command (RemoveSelected [1]%nat)
             (run_command (Drop ["/p/a.x3f"; "/q/b.X3F"; "/p/c.txt"])
                (GUI.__init__ {| rawpy_available := true |})) in
  file_listbox g = map basename (selected_files g) /\
  NoDup (selected_files g) /\
  (convert_button g = false -> selected_files g = []) /\
  (forall ixs, curselection ixs (List.length (file_listbox g)) ->
               snd (remove_selected_files ixs g) = Ok tt).
Proof.
  apply (listbox_mirrors_the_selected_files {| rawpy_available := true |}).
  apply reachable_command; [apply reachable_command; [apply reachable_new|exact I]|].
  split; repeat constructor.
Defined.

(** X16. The list box and the progress log show the same name. For a path
    that ends in [.x3f], in any case of letters, [os.path.basename] (the
    row of the list box) and [Path.name] (the progress log and the
    converter's first line) agree, and the name is not empty. *)
Theorem list_box_and_log_show_the_same_name (f : string) :
  Str.endswith (Str.lower f) ".x3f" = true ->
  basename f = name (of_str f) /\ name (of_str f) <> "" /\
  Str.endswith (Str.lower (name (of_str f))) ".x3f" = true.
Proof.
  intros H.
  destruct (x3f_file_name f H) as (base & suffix & Hb & Hn & Hlow & _ & _).
  split; [congruence|]. split.
  - rewrite Hn. intros Heq. apply (f_equal Str.lower) in Heq.
    rewrite lower_app, Hlow in Heq.
    apply (f_equal String.length) in Heq. rewrite string_app_length in Heq.
    cbn in Heq. lia.
  - rewrite Hn, lower_app, Hlow. apply endswith_app.
Qed.

Lemma list_box_and_log_show_the_same_name_witness :
  basename "/shots/roll.1/IMG.0042.X3F" = name (of_str "/shots/roll.1/IMG.0042.X3F").
Proof.
  apply (list_box_and_log_show_the_same_name "/shots/roll.1/IMG.0042.X3F").
  vm_compute. reflexivity.
Defined.

(** X17. The output is named after the input. For a path that ends in
    [.x3f], in any case of letters, the name of the file is a base
    followed by this extension, and the output file is the base followed
    by [.tiff] (by [.psd] for the selector ['psd']) in the output
    directory: only the last extension is replaced, whatever dots the
    base holds. (A file named just [.x3f] keeps its whole name as the
    base.) *)
Theorem output_is_named_after_the_input (f : string) :
  Str.endswith (Str.lower f) ".x3f" = true ->
  exists base suffix,
    name (of_str f) = (base ++ suffix)%string /\ Str.lower suffix = ".x3f" /\
    let kept := if String.eqb base "" then suffix else base in
    forall (dir : Path) (format_type : string),
      output_path_for dir (of_str f) format_type
      = dir ++ [(kept ++ (if String.eqb format_type "psd" then ".psd"
                          else ".tiff"))%string].
Proof.
  intros H.
  destruct (x3f_file_name f H) as (base & suffix & _ & Hn & Hlow & _ & Hstem).
  exists base, suffix. split_and!; try assumption.
  cbv zeta. intros dir format_type. unfold output_path_for, truediv.
  rewrite Hstem.
  destruct (String.eqb_spec format_type "tiff") as [->|_]; [reflexivity|].
  now destruct (String.eqb format_type "psd").
Qed.

Lemma output_is_named_after_the_input_witness :
  output_path_for ["out"] (of_str "/shots/roll.1/IMG.0042.X3F") "tiff"
  = ["out"; "IMG.0042.tiff"].
Proof.
  destruct (output_is_named_after_the_input "/shots/roll.1/IMG.0042.X3F")
    as (base & suffix & Hn & Hlow & Hout).
  - vm_compute. reflexivity.
  - rewrite Hout. cbn [String.eqb Ascii.eqb Bool.eqb].
    assert (String.length suffix = 4%nat) as Hlen.
    { apply (f_equal String.length) in Hlow.
      assert (forall s, String.length (Str.lower s) = String.length s) as Hl
        by (induction s; cbn; auto).
      now rewrite Hl in Hlow. }
    assert (name (of_str "/shots/roll.1/IMG.0042.X3F") = "IMG.0042.X3F")
      as Hname by (vm_compute; reflexivity).
    rewrite Hname in Hn.
    assert (base = "IMG.0042") as ->.
    { apply (f_equal (fun s => String.substring 0 (String.length s - 4) s)) in Hn.
      rewrite string_app_length, Hlen in Hn.
      replace (String.length base + 4 - 4)%nat with (String.length base) in Hn
        by lia.
      rewrite substring_0_app in Hn. rewrite <- Hn. vm_compute. reflexivity. }
    reflexivity.
Defined.

(** The window around a batch *)

Section BatchFrame.
Context (ext : Externals).

(** Whatever its outcome, the loop changes of the window only the
    progress log, to which it adds lines. *)
Lemma convert_files_frame (format_type : string) (total : nat)
  (files : list string) :
  forall (g g' : X3FConverterGUI) (w w' : World) (i successful : nat)
         (r : result nat),
    convert_files ext format_type total files i successful (g, w)
    = ((g', w'), r) ->
    exists ls, g' = with_progress ls g.
Proof.
  induction files as [|f files IH]; intros g g' w w' i successful r H.
  - cbn in H. unfold_M. injection H as <- <- <-. exists [].
    unfold with_progress. rewrite app_nil_r. now destruct g.
  - cbn [convert_files] in H. unfold_M. cbn in H.
    destruct (convert_x3f_for_photoshop ext (converter g) f (output_directory g)
                format_type w) as [w1 [[]|e]] eqn:Hrun.
    + apply IH in H as [ls ->].
      exists ([Processing i total (name (of_str f)); Converted] ++ ls).
      now rewrite !log_progress_with_progress, !with_progress_app.
    + apply IH in H as [ls ->].
      exists ([Processing i total (name (of_str f)); NotConverted] ++ ls).
      now rewrite !log_progress_with_progress, !with_progress_app.
    + simplify_eq. exists [Processing i total (name (of_str f))].
      now rewrite log_progress_with_progress.
Qed.

End BatchFrame.

(** X18. A batch gives the window back. Whatever happens in
    [run_conversion], an aborted batch included: the selected files, the
    output directory, the format, the list box and the converter are as
    before; the button is enabled; the progress log has grown, starting
    with the line "Conversion Started"; and exactly one message box was
    shown, which agrees with the status bar: all converted, some
    converted (a tally that differs from the number of files), or the
    error that ended the batch, which is then also the last line of the
    log. *)
Theorem run_conversion_gives_the_window_back (ext : Externals)
  (g : X3FConverterGUI) (w : World) :
  let g' := fst (run_conversion ext (g, w)) in
  let total := List.length (selected_files g) in
  selected_files g' = selected_files g /\
  output_directory g' = output_directory g /\
  format_var g' = format_var g /\
  file_listbox g' = file_listbox g /\
  converter g' = converter g /\
  convert_button g' = true /\
  (exists ls, progress_text g' = progress_text g ++ Started :: ls) /\
  exists d, messageboxes g' = messageboxes g ++ [d] /\
    match d with
    | AllConverted n => n = total /\ status_var g' = Complete total total
    | SomeConverted k n =>
        n = total /\ k <> total /\ status_var g' = CompleteWithErrors k total
    | ConversionError e =>
        status_var g' = FailedWithError /\
        List.last (progress_text g') Started = Critical e
    | _ => False
    end.
Proof.
  cbv zeta. unfold run_conversion, run_conversion_body. unfold_M.
  cbn [fst snd].
  rewrite !log_progress_with_progress, !with_progress_app.
  cbn [app with_progress selected_files format_var].
  destruct (convert_files ext _ _ _ _ _ _) as [[g1 w1] r] eqn:Hloop.
  apply convert_files_frame in Hloop as [ls ->].
  rewrite with_progress_app.
  destruct r as [successful|e].
  - destruct (Nat.eqb_spec successful (List.length (selected_files g)))
      as [->|Hne]; cbn;
      (split_and!; try reflexivity;
       [rewrite <- ?app_assoc; cbn; eauto|]);
      eexists; (split; [reflexivity|]); cbn; auto.
  - cbn. split_and!; try reflexivity.
    + rewrite <- ?app_assoc. cbn. eauto.
    + eexists. split; [reflexivity|]. cbn. split; [reflexivity|].
      apply last_last.
Qed.

(** X19. The button starts a batch of its own. [start_conversion] starts
    the thread only for a list that is not empty and a converter with its
    decoder, and empties the progress log first. So when the thread's
    [run_conversion] has run to its end on the window that
    [start_conversion] prepared, with an output directory that can be
    made: the log holds the lines of this batch and nothing older, there
    is a verdict for each of the files, at least one, and the button is
    enabled again. *)
Theorem start_conversion_starts_a_batch_of_its_own (ext : Externals)
  (g g1 : X3FConverterGUI) (w : World) :
  start_conversion g = inr g1 ->
  output_dir_creatable ext (output_directory g) (fs w) ->
  let g' := fst (run_conversion ext (g1, w)) in
  let total := List.length (selected_files g) in
  selected_files g <> [] /\ rawpy_available (converter g) = true /\
  convert_button g1 = false /\ status_var g1 = ConvertingFiles /\
  exists bs : list bool,
    List.length bs = total /\ (0 < total)%nat /\
    progress_text g' =
      [Started; Feature 1; Feature 2; Feature 3; Rule]
      ++ batch_log total 1 (selected_files g) bs /\
    verdicts (progress_text g') = bs /\
    convert_button g' = true /\
    selected_files g' = selected_files g.
Proof.
  intros Hstart Hc. cbv zeta. unfold start_conversion in Hstart.
  destruct (selected_files g) as [|f files] eqn:Hsel; [discriminate|].
  destruct (rawpy_available (converter g)) eqn:Ha; [|discriminate].
  cbn [negb] in Hstart. injection Hstart as <-.
  split_and!; try reflexivity; try discriminate.
  unfold run_conversion, run_conversion_body. unfold_M. cbn [fst snd].
  rewrite !log_progress_with_progress, !with_progress_app.
  cbn [app with_progress selected_files format_var].
  match goal with
  | |- context [convert_files ext ?ft ?n ?fl ?i ?s (?g0, w)] =>
      destruct (convert_files_spec ext ft n fl g0 w i s Hc)
        as (w' & bs & Hrun & Hlen & _ & _)
  end.
  rewrite Hrun. exists bs.
  assert (forall total i fl bl,
            List.length bl = List.length fl ->
            verdicts (batch_log total i fl bl) = bl) as Hverdicts.
  { intros total i fl. revert i.
    induction fl as [|x fl IH]; intros i [|b bl] Hl; cbn in *; try lia;
      [reflexivity|].
    unfold verdicts in *. cbn. destruct b; cbn; f_equal; apply IH; lia. }
  split_and!; [exact Hlen | cbn; lia | ..].
  all: destruct (Nat.eqb _ _); cbn; try reflexivity.
  all: try (apply (Hverdicts _ _ _ _ Hlen)).
Qed.

Lemma start_conversion_starts_a_batch_of_its_own_witness :
  exists g1,
    start_conversion Demo.window = inr g1 /\
    progress_text g1 = [] /\
    exists bs : list bool,
      List.length bs = 3%nat /\
      verdicts (progress_text (fst (run_conversion Demo.libraries
                                      (g1, Demo.world)))) = bs.
Proof.
  eexists. split; [reflexivity|]. split; [reflexivity|].
  destruct (start_conversion_starts_a_batch_of_its_own Demo.libraries
              Demo.window _ Demo.world eq_refl I)
    as (_ & _ & _ & _ & bs & Hlen & _ & _ & Hv & _).
  exists bs. split; [exact Hlen | exact Hv].
Defined.

(** The command lines *)

Section Attempts.
Context (ext : Externals).

Lemma attempted_app (a b : list script_line) :
  attempted (a ++ b) = attempted a ++ attempted b.
Proof. unfold attempted. apply omap_app. Qed.

Lemma attempted_none (ls : list line) :
  Forall (fun l => is_converting l = false) ls ->
  attempted (map Said ls) = [].
Proof.
  induction 1 as [|l ls Hl _ IH]; [reflexivity|].
  unfold attempted in *. cbn. destruct l; try discriminate; exact IH.
Qed.

(** The body of the [try] block prints "Converting" first, and once. *)
Lemma convert_body_attempt (x out : Path) (format_type : string)
  (w w' : World) (r : result bool) :
  convert_body ext x out format_type w = (w', r) ->
  exists ls, stdout w' = stdout w ++ Converting (name x) :: ls /\
             Forall (fun l => is_converting l = false) ls.
Proof.
  intros H.
  apply convert_body_trace in H as (rgb & lo & hi & ls & Hout & Hls).
  rewrite Hout. destruct r as [[]|e].
  - destruct Hls as (size & v & -> & Hv). eexists. split; [reflexivity|].
    repeat constructor. now destruct v.
  - destruct Hls as [_ ->]. eexists. split; [reflexivity|]. repeat constructor.
  - destruct Hls as [[k Hk] Hne]. unfold stage_lines in Hk.
    destruct ls as [|l1 ls]; [congruence|]. clear Hne.
    cbn [app] in Hk. injection Hk as <- Hk. eexists. split; [reflexivity|].
    repeat match goal with
           | |- Forall _ [] => constructor
           | |- Forall _ (_ :: _) => constructor; [reflexivity|]
           | Hk : _ = ?ls ++ _ |- Forall _ ?ls =>
               destruct ls as [|? ls]; cbn [app] in Hk;
               [|first [injection Hk as <- Hk | discriminate Hk]]
           end.
Qed.

End Attempts.

Section Scripts.
Context (ext : Externals).

Lemma resolve_output_dir_settled (x : Path) (out : option string) (w : World) :
  settled out (fs w) ->
  resolve_output_dir ext x out w
  = (w, Ok (match out with Some d => of_str d | None => parent x end)).
Proof.
  destruct out as [d|]; cbn; intros Hd; [|reflexivity].
  unfold_M. rewrite mkdir_existing by exact Hd. now destruct w.
Qed.

Lemma is_dir_insert_File (fs : gmap Path (node content)) (p q : Path)
  (c : content) :
  is_dir fs p = false -> is_dir (<[p := File c]> fs) q = is_dir fs q.
Proof.
  intros Hp. destruct (decide (p = q)) as [<-|Hne].
  - rewrite Hp. unfold is_dir, stat. destruct p; [discriminate|].
    now rewrite lookup_insert_eq.
  - now apply is_dir_insert_ne.
Qed.

(** A call of the converter from a script, for such an output
    directory: it comes to a verdict, makes or removes no directory,
    changes the output path at most, and prints "Converting" once, as its
    first line (or the line of the missing decoder). *)
Lemma call_convert (self : PhotoshopCompatibleConverter) (x : string)
  (out : option string) (format_type : string) (p : Process) :
  settled out (disk p) ->
  exists p' b ls,
    call (convert_x3f_for_photoshop ext self x out format_type) p
    = (p', Ok b) /\
    interp p' = interp p /\
    console p' = console p ++ map Said ls /\
    (if rawpy_available self
     then exists rest, ls = Converting (name (of_str x)) :: rest /\
                       Forall (fun l => is_converting l = false) rest
     else ls = [RawpyNotFound]) /\
    (forall q, is_dir (disk p') q = is_dir (disk p) q) /\
    (forall q, q <> output_path_for (output_dir_of x out) (of_str x) format_type ->
               disk p' !! q = disk p !! q).
Proof.
  intros Hset. unfold call.
  destruct (rawpy_available self) eqn:Ha.
  2:{ rewrite convert_without_decoder by exact Ha. cbn.
      eexists _, false, [RawpyNotFound]. split; [reflexivity|]. cbn.
      split_and!; auto. }
  rewrite convert_available by exact Ha.
  rewrite resolve_output_dir_settled by exact Hset.
  replace (match out with Some d => of_str d | None => parent (of_str x) end)
    with (output_dir_of x out) by now destruct out.
  unfold try_except.
  destruct (convert_body ext _ _ _ _) as [w' r] eqn:Hbody.
  pose proof (convert_body_attempt _ _ _ _ _ _ _ Hbody) as (ls & Hout & Hls).
  apply convert_body_frame in Hbody. cbn [fs stdout] in *.
  assert ((forall q, is_dir (fs w') q = is_dir (disk p) q) /\
          (forall q, q <> output_path_for (output_dir_of x out) (of_str x)
                            format_type ->
                     fs w' !! q = disk p !! q)) as [Hdirs Hrest].
  { destruct Hbody as [->|(_ & _ & Hnd & t & ->)]; [auto|]. split.
    - intros q. now apply is_dir_insert_File.
    - intros q Hq. now rewrite lookup_insert_ne. }
  destruct r as [b|e].
  - eexists _, b, _. split; [reflexivity|]. cbn. rewrite Hout.
    split_and!; eauto.
  - unfold conversion_failed. unfold_M. cbn.
    eexists _, false, _. split; [reflexivity|]. cbn. rewrite Hout.
    split_and!; auto.
    exists (ls ++ [ConversionFailed e]). split; [reflexivity|].
    apply Forall_app. split; [exact Hls | repeat constructor].
Qed.

End Scripts.

(** The constructor of the converter always returns. *)
Lemma converter_init_returns (st : Interp) :
  exists st' self,
    Converter.__init__ st = (st', Ok self) /\
    ("rawpy" ∈ sys_modules st -> st' = st /\ rawpy_available self = true).
Proof.
  unfold Converter.__init__, _check_rawpy, import_.
  unfold mbind, mret, M_bind, M_ret, bind, ret, raise, try_except.
  destruct (bool_decide ("rawpy" ∈ sys_modules st)) eqn:E1.
  - eexists _, _. split; [reflexivity|]. auto.
  - apply bool_decide_eq_false in E1.
    destruct (bool_decide ("rawpy" ∈ installed st)) eqn:E2; cbn;
      eexists _, _; (split; [reflexivity|]); intros; contradiction.
Qed.

(** X20. The exit status of the command line converter. [main] always
    comes to an end without an exception. It ends with [sys.exit(1)]
    exactly when it is given no input path or the input path does not
    exist, and then it has touched nothing. In every other case it runs
    one conversion and returns normally, also when the conversion failed:
    the failure shows in the last line of the output only. A second
    argument is an output directory only if it is a directory that
    exists, so [main] never makes a directory; it changes one path at
    most. *)
Theorem main_exits_with_1_only_without_input (ext : Externals)
  (argv : list string) (p : Process) :
  exists p' t,
    main ext argv p = (p', Ok t) /\
    (t = SystemExit 1 <->
     (List.length argv < 2)%nat \/
     exists_ (disk p) (of_str (nth 1 argv "")) = false) /\
    (t = SystemExit 1 ->
     disk p' = disk p /\ interp p' = interp p /\ attempted (said p p') = []) /\
    (t <> SystemExit 1 ->
     t = Returns /\
     (List.last (console p') Usage = ShouldOpen \/
      List.last (console p') Usage = Failed)) /\
    (forall q, is_dir (disk p') q = is_dir (disk p) q) /\
    (exists target, forall q, q <> target -> disk p' !! q = disk p !! q).
Proof.
  unfold main.
  destruct (Nat.ltb_spec (List.length argv) 2) as [Hlen|Hlen].
  { unfold_M. unfold say. unfold_M. cbn.
    eexists _, _. split; [reflexivity|]. cbn.
    split_and!; auto;
      [ split; [intros _; first [left; lia | right; reflexivity] | reflexivity]
      | intros _; split_and!; auto; unfold said; cbn;
        now rewrite <- ?app_assoc, drop_app_length
      | congruence
      | exists []; auto ]. }
  unfold mbind at 1, M_bind at 1, bind at 1, get at 1.
  destruct (exists_ (disk p) (of_str (nth 1 argv ""))) eqn:Hex; cbn [negb].
  2:{ unfold_M. unfold say. unfold_M. cbn.
    eexists _, _. split; [reflexivity|]. cbn.
    split_and!; auto;
      [ split; [intros _; first [left; lia | right; reflexivity] | reflexivity]
      | intros _; split_and!; auto; unfold said; cbn;
        now rewrite <- ?app_assoc, drop_app_length
      | congruence
      | exists []; auto ]. }
  unfold mbind at 1, M_bind at 1, bind at 1, on_interp at 1.
  destruct (converter_init_returns (interp p)) as (st & self & -> & _).
  set (out := if (Nat.ltb 2 (List.length argv)
                  && os_path_isdir (disk p) (nth 2 argv ""))%bool
              then Some (nth 2 argv "") else None).
  set (format_type := if Nat.ltb 3 (List.length argv) then nth 3 argv ""
                      else "tiff").
  set (p1 := {| interp := st; disk := disk p; readings := readings p;
                console := console p |}).
  assert (settled out (disk p1)) as Hset.
  { unfold out, os_path_isdir.
    destruct (Nat.ltb 2 (List.length argv)); cbn; [|exact I].
    destruct (String.eqb (nth 2 argv "") ""); cbn; [exact I|].
    destruct (is_dir (disk p) (of_str (nth 2 argv ""))) eqn:Hd; cbn; auto. }
  destruct (call_convert ext self (nth 1 argv "") out format_type p1 Hset)
    as (p2 & b & ls & Hcall & _ & Hcons & _ & Hdirs & Hrest).
  unfold mbind at 1, M_bind at 1, bind at 1. rewrite Hcall.
  destruct b; unfold_M; unfold say; unfold_M; cbn;
    (eexists _, _; split; [reflexivity|]); cbn;
    (split_and!;
     [ split; [discriminate | intros [?|?]; [lia | congruence]]
     | discriminate
     | intros _; split; [reflexivity|]; rewrite ?app_assoc, last_last; auto
     | exact Hdirs
     | eexists; exact Hrest ]).
Qed.

Section CommandLine.
Context (ext : Externals).

Lemma convert_each_spec (self : PhotoshopCompatibleConverter)
  (out : option string) (x3f_files : list string) :
  rawpy_available self = true ->
  forall p : Process,
    settled out (disk p) ->
    exists p' ls,
      convert_each ext self out x3f_files p = (p', Ok tt) /\
      interp p' = interp p /\
      console p' = console p ++ ls /\
      attempted ls = map (fun f => name (of_str f)) x3f_files /\
      (forall q, is_dir (disk p') q = is_dir (disk p) q).
Proof.
  intros Ha. induction x3f_files as [|f files IH]; intros p Hset.
  - exists p, []. cbn. rewrite app_nil_r. auto.
  - cbn [convert_each]. unfold mbind, M_bind, bind.
    destruct (call_convert ext self f out "tiff" p Hset)
      as (p1 & b & ls1 & -> & Hi1 & Hc1 & Hls1 & Hd1 & _).
    rewrite Ha in Hls1. destruct Hls1 as (rest & -> & Hrest).
    destruct (IH p1) as (p' & ls & -> & Hi & Hc & Hatt & Hd).
    { destruct out as [d|]; cbn in *; [|exact I]. now rewrite Hd1. }
    eexists p', _. split; [reflexivity|]. split; [congruence|]. split.
    + rewrite Hc, Hc1, <- app_assoc. reflexivity.
    + split.
      * rewrite attempted_app, Hatt. cbn [map].
        change (attempted (Said (Converting (name (of_str f))) :: map Said rest))
          with (name (of_str f) :: attempted (map Said rest)).
        now rewrite attempted_none by exact Hrest.
      * intros q. now rewrite Hd, Hd1.
Qed.

End CommandLine.

(** X21. The command line mode tries every file. With more than one
    argument of which the last is a directory that exists, the files are
    all the arguments but the last, and the output goes to that
    directory; otherwise the files are all the arguments, a single
    argument being taken as a file even if it is a directory, and the
    output goes next to each input. Every file is then converted in turn,
    whatever the outcome of the others: no exception ends the run, and
    no directory is made. *)
Theorem command_line_tries_every_file (ext : Externals)
  (argv : list string) (p : Process) :
  "rawpy" ∈ sys_modules (interp p) ->
  let args := tl argv in
  let x3f_files :=
    if (Nat.ltb 1 (List.length args)
        && os_path_isdir (disk p) (List.last args ""))%bool
    then removelast args else args in
  exists p',
    command_line ext argv p = (p', Ok tt) /\
    attempted (said p p') = map (fun f => name (of_str f)) x3f_files /\
    (forall q, is_dir (disk p') q = is_dir (disk p) q).
Proof.
  intros Hloaded. cbv zeta. unfold command_line.
  unfold mbind at 1, M_bind at 1, bind at 1, on_interp at 1.
  destruct (converter_init_returns (interp p)) as (st & self & -> & Hst).
  destruct (Hst Hloaded) as [-> Ha].
  unfold mbind at 1, M_bind at 1, bind at 1, get at 1. cbn [disk].
  set (p1 := {| interp := interp p; disk := disk p; readings := readings p;
                console := console p |}).
  assert (forall out files,
            settled out (disk p) ->
            exists p', convert_each ext self out files p1 = (p', Ok tt) /\
                       attempted (said p p')
                       = map (fun f => name (of_str f)) files /\
                       (forall q, is_dir (disk p') q = is_dir (disk p) q))
    as Hrun.
  { intros out files Hset.
    destruct (convert_each_spec ext self out files Ha p1 Hset)
      as (p' & ls & Hrun & _ & Hc & Hatt & Hd).
    exists p'. split; [exact Hrun|]. split; [|exact Hd].
    unfold said. rewrite Hc. cbn [console p1].
    now rewrite drop_app_length. }
  destruct (Nat.ltb 1 (List.length (tl argv))); cbn [andb];
    [|now apply Hrun].
  unfold os_path_isdir.
  destruct (String.eqb (List.last (tl argv) "") ""); cbn [negb andb];
    [now apply Hrun|].
  destruct (is_dir (disk p) (of_str (List.last (tl argv) ""))) eqn:Hd;
    now apply Hrun.
Qed.

Lemma command_line_tries_every_file_witness :
  exists p',
    command_line Demo.libraries
      ["x3f_converter_rawpy.py"; "/shots/a.x3f"; "/shots/bad.x3f"; "/shots"]
      Demo.process = (p', Ok tt) /\
    attempted (said Demo.process p') = ["a.x3f"; "bad.x3f"].
Proof.
  destruct (command_line_tries_every_file Demo.libraries
              ["x3f_converter_rawpy.py"; "/shots/a.x3f"; "/shots/bad.x3f";
               "/shots"] Demo.process)
    as (p' & Hrun & Hatt & _).
  - apply (load_module_loads_rawpy Demo.fresh_interpreter).
    vm_compute. reflexivity.
  - exists p'. split; [exact Hrun|]. rewrite Hatt. vm_compute. reflexivity.
Defined.
